(** * train_mnist.py: the training script of the MNIST autoencoder

    A shallow embedding of [src/train_mnist.py].  The script is a
    module-level Python program: it prepares the dataset, builds the model
    and the optimizer through Chainer, optionally loads checkpoints, runs
    the learning loop (a training phase and an evaluation phase per epoch)
    and saves the model and the optimizer.

    Python integers are [Z]; Python floats are IEEE binary64 values and the
    dataset holds binary32 values, both as [spec_float] with the operations
    of [SpecFloat] at the matching precision.  Exceptions are an error
    monad over an explicit state; Chainer, NumPy's random generator, the
    clock, matplotlib and the file system are an interface ([Backend]) the
    script is parameterised by. *)

From Stdlib Require Import String.
From Stdlib Require Import QArith Qabs.
From Stdlib Require Import ZArith List Bool Lia Permutation.
From Stdlib Require Import SpecFloat.
Import ListNotations.
Local Open Scope Z_scope.

Set Implicit Arguments.

(** ** Exceptions *)

Inductive exn : Type :=
| ValueError          (* range() arg 3 must not be zero *)
| ZeroDivisionError
| IndexError
| IOError
| BackendError (code : nat).   (* anything else a collaborator raises *)

Inductive result (A : Type) : Type :=
| Ok (a : A)
| Raise (e : exn).
Arguments Ok {A} a.
Arguments Raise {A} e.

(** ** Python and NumPy primitives the script uses *)

Module Py.

(** Number of elements of [range(start, stop, step)], step nonzero. *)
Definition range_len (start stop step : Z) : Z :=
  if 0 <? step then
    if start <? stop then (stop - start - 1) / step + 1 else 0
  else if step <? 0 then
    if stop <? start then (start - stop - 1) / (- step) + 1 else 0
  else 0.

(** [six.moves.range(start, stop, step)]: a zero step raises [ValueError]. *)
Definition range (start stop step : Z) : result (list Z) :=
  if step =? 0 then Raise ValueError
  else Ok (map (fun k => start + Z.of_nat k * step)
               (seq 0 (Z.to_nat (range_len start stop step)))).

(** A slice bound is taken from the end when negative, then clamped. *)
Definition clamp_index (len k : Z) : Z :=
  if k <? 0 then Z.max 0 (k + len) else Z.min k len.

(** [l[i:j]] *)
Definition slice {A : Type} (l : list A) (i j : Z) : list A :=
  let len := Z.of_nat (length l) in
  let lo := clamp_index len i in
  let hi := clamp_index len j in
  firstn (Z.to_nat (hi - lo)) (skipn (Z.to_nat lo) l).

(** [l[k]] for one integer index: negative indices count from the end,
    anything outside [-len, len) raises [IndexError]. *)
Definition item {A : Type} (l : list A) (k : Z) : result A :=
  let len := Z.of_nat (length l) in
  if (k <? - len) || (len <=? k) then Raise IndexError
  else match nth_error l (Z.to_nat (if k <? 0 then k + len else k)) with
       | Some a => Ok a
       | None => Raise IndexError
       end.

(** [a[idx]] with an integer index array (NumPy fancy indexing): the rows
    of [a] at the positions listed in [idx], in that order. *)
Fixpoint take {A : Type} (a : list A) (idx : list Z) : result (list A) :=
  match idx with
  | [] => Ok []
  | k :: idx' =>
      match item a k with
      | Raise e => Raise e
      | Ok r =>
          match take a idx' with
          | Raise e => Raise e
          | Ok rs => Ok (r :: rs)
          end
      end
  end.

(** [np.split(a, [n])] is the pair [a[0:n]], [a[n:len(a)]]. *)
Definition split {A : Type} (a : list A) (n : Z) : list A * list A :=
  (slice a 0 n, slice a n (Z.of_nat (length a))).

(** [len(l)] *)
Definition len {A : Type} (l : list A) : Z := Z.of_nat (length l).

(** [np.arange(n)]: the indices [np.random.permutation(n)] permutes. *)
Definition arange (n : Z) : list Z := map Z.of_nat (seq 0 (Z.to_nat n)).

End Py.

(** ** Numbers *)

(** binary32, the dtype of the image matrix after [astype(np.float32)]. *)
Module F32.
Definition prec : Z := 24.
Definition emax : Z := 128.
Definition of_Z (z : Z) : spec_float := binary_normalize prec emax z 0 false.
Definition div : spec_float -> spec_float -> spec_float := SFdiv prec emax.
Definition leb : spec_float -> spec_float -> bool := SFleb.
Definition zero : spec_float := of_Z 0.
Definition one : spec_float := of_Z 1.
End F32.

(** binary64, the Python [float]. *)
Module F64.
Definition prec : Z := 53.
Definition emax : Z := 1024.
Definition of_Z (z : Z) : spec_float := binary_normalize prec emax z 0 false.
Definition add : spec_float -> spec_float -> spec_float := SFadd prec emax.
Definition sub : spec_float -> spec_float -> spec_float := SFsub prec emax.
Definition mul : spec_float -> spec_float -> spec_float := SFmul prec emax.
Definition div : spec_float -> spec_float -> spec_float := SFdiv prec emax.
Definition is_zero (f : spec_float) : bool :=
  match f with S754_zero _ => true | _ => false end.
End F64.

(** A Python number as the script has them: the accumulators start as the
    [int] 0 and become [float] at the first [+=]; [N], [N_test] and
    [len(t.data)] are [int].  The integers converted to [float] here are
    array lengths and [N], which binary64 represents exactly. *)
Inductive pynum : Type :=
| PyInt (z : Z)
| PyFloat (f : spec_float).

Definition to_float (a : pynum) : spec_float :=
  match a with
  | PyInt z => F64.of_Z z
  | PyFloat f => f
  end.

Definition py_add (a b : pynum) : pynum :=
  match a, b with
  | PyInt x, PyInt y => PyInt (x + y)
  | _, _ => PyFloat (F64.add (to_float a) (to_float b))
  end.

Definition py_sub (a b : pynum) : pynum :=
  match a, b with
  | PyInt x, PyInt y => PyInt (x - y)
  | _, _ => PyFloat (F64.sub (to_float a) (to_float b))
  end.

Definition py_mul (a b : pynum) : pynum :=
  match a, b with
  | PyInt x, PyInt y => PyInt (x * y)
  | _, _ => PyFloat (F64.mul (to_float a) (to_float b))
  end.

Definition py_is_zero (a : pynum) : bool :=
  match a with
  | PyInt z => z =? 0
  | PyFloat f => F64.is_zero f
  end.

(** [a / b], true division: a zero divisor of either type raises
    [ZeroDivisionError].  (The script divides a [float] by an [int]; the
    one [int / int] it can reach is [0 / N] after a loop that ran no
    minibatch, which Python 2 prints as [0] and Python 3 as [0.0].) *)
Definition py_div (a b : pynum) : result pynum :=
  if py_is_zero b then Raise ZeroDivisionError
  else Ok (PyFloat (F64.div (to_float a) (to_float b))).

(** ** Dataset preparation (lines 51-61) *)

Definition row : Type := list spec_float.   (* one image, binary32 features *)
Definition label : Type := Z.               (* int32 *)

(** What [data.load_mnist_data()] returns: the raw pixel matrix and the
    label vector, before any conversion. *)
Record mnist_raw : Type := {
  raw_data : list (list Z);
  raw_target : list Z
}.

(** [astype(np.int32)] on an integer: wrap to 32 bits, two's complement. *)
Definition astype_int32 (z : Z) : Z := (z + 2 ^ 31) mod 2 ^ 32 - 2 ^ 31.

(** [astype(np.float32)] then [/= 255] on one feature value. *)
Definition normalize_pixel (v : Z) : spec_float :=
  F32.div (F32.of_Z v) (F32.of_Z 255).

Record dataset : Type := {
  x_train : list row;
  x_test : list row;
  y_train : list label;
  y_test : list label;
  N_test : Z
}.

Definition prepare_dataset (N : Z) (mnist : mnist_raw) : dataset :=
  let data := map (map normalize_pixel) (raw_data mnist) in
  let target := map astype_int32 (raw_target mnist) in
  let '(xtr, xte) := Py.split data N in
  let '(ytr, yte) := Py.split target N in
  {| x_train := xtr; x_test := xte; y_train := ytr; y_test := yte;
     N_test := Py.len yte |}.

(** The split point of the script. *)
Definition N_mnist : Z := 60000.

(** A feature value lies in [0,1]. *)
Definition in_unit_interval (f : spec_float) : bool :=
  F32.leb F32.zero f && F32.leb f F32.one.

(** ** Batching (lines 107-109 and 138-142) *)

(** The batches [l[i:i + batchsize]] for [i] in [range(0, n, batchsize)]. *)
Definition batches {A : Type} (l : list A) (n batchsize : Z)
  : result (list (list A)) :=
  match Py.range 0 n batchsize with
  | Raise e => Raise e
  | Ok starts => Ok (map (fun i => Py.slice l i (i + batchsize)) starts)
  end.

(** ** Configuration (lines 27-43) *)

Inductive net_type : Type := normal | bn.

(** The parsed command line.  [argparse] types [gpu], [epoch] and
    [batchsize] as [int] and restricts [net] to its two choices; it checks
    nothing else. *)
Record args : Type := {
  initmodel : string;
  resume : string;
  net : net_type;
  gpu : Z;
  epoch : Z;
  batchsize : Z
}.

Definition WEIGHT_DECAY : Z := 0.
Definition SAVE_IMAGES : bool := true.

(** ** What the script prints and which collaborators it calls *)

Inductive message : Type :=
| MsgConfig (gpu batchsize epoch : Z) (net : net_type)
| MsgLoadDataset
| MsgLoadModel (path : string)
| MsgLoadOptimizer (path : string)
| MsgEpoch (epoch : Z)
| MsgGraphGenerated
| MsgTrain (mean_loss mse throughput : pynum)
| MsgTest (mean_loss mse : pynum)
| MsgSaveModel
| MsgSaveOptimizer.

(** One entry per [print] and per call that leaves the script, logged when
    the call is made (so a call that raises is in the log too). *)
Inductive event : Type :=
| EvPrint (m : message)
| EvLoadData
| EvConstructModel (use_bn : bool)
| EvToGpu (id : Z)
| EvWeightDecay (rate : Z)
| EvSetupOptimizer
| EvLoadModel (path : string)
| EvLoadOptimizer (path : string)
| EvPermutation (n : Z)
| EvTime
| EvUpdate (x : list row) (t : list label)
| EvDumpGraph
| EvForward (volatile : bool) (x : list row) (t : list label)
| EvPlotSetup
| EvVisualize (i : Z) (x : list row)
| EvSaveModel (file : string)
| EvSaveOptimizer (file : string).

(** The collaborators, over a type [W] of everything they own: the model
    and its parameters, the optimizer, NumPy's global random state, the
    clock, the plot window and the files. *)
Record Backend (W : Type) : Type := {
  (* data.load_mnist_data() *)
  load_mnist_data : W -> result (mnist_raw * W);
  (* lines 70-77: the two AutoEncoder chains and CrossEntropyAutoEncoder *)
  construct_model : bool -> W -> result W;
  (* cuda.get_device(id).use(); model.to_gpu() *)
  to_gpu : Z -> W -> result W;
  (* optimizer.add_hook(chainer.optimizer.WeightDecay(rate)) *)
  add_weight_decay : Z -> W -> result W;
  (* optimizers.SGD() and optimizer.setup(model) *)
  setup_optimizer : W -> result W;
  (* serializers.load_npz(path, model) / (path, optimizer) *)
  load_npz_model : string -> W -> result W;
  load_npz_optimizer : string -> W -> result W;
  (* np.random.permutation(n) *)
  random_permutation : Z -> W -> list Z * W;
  (* time.time() *)
  time_time : W -> spec_float * W;
  (* optimizer.update(model, x, t) *)
  optimizer_update : list row -> list label -> W -> result W;
  (* lines 115-118: graph.dot *)
  dump_graph : W -> result W;
  (* model(x, t) on variables with the given volatile flag;
     the value is float(loss.data) *)
  model_call : bool -> list row -> list label -> W -> result (spec_float * W);
  (* float(model.loss.data), float(model.mean_squared_error.data) *)
  model_loss : W -> spec_float;
  model_mean_squared_error : W -> spec_float;
  (* lines 134-136 *)
  plot_setup : W -> result W;
  (* lines 148-169: y = aeback(ae(x)), the image file and its display *)
  visualize : Z -> list row -> W -> result W;
  (* serializers.save_npz(file, model) / (file, optimizer) *)
  save_npz_model : string -> W -> result W;
  save_npz_optimizer : string -> W -> result W
}.

(** ** The script as a state-and-exception monad *)

Section Script.

Variable W : Type.
Variable bk : Backend W.

(** The module-level variables that outlive a statement, the collaborators'
    world and the log. *)
Record state : Type := {
  world : W;
  sum_loss : pynum;
  sum_mean_squared_error : pynum;
  trace : list event
}.

Definition M (A : Type) : Type := state -> result A * state.

Definition ret {A : Type} (a : A) : M A := fun s => (Ok a, s).

Definition bind {A B : Type} (m : M A) (k : A -> M B) : M B :=
  fun s => match m s with
           | (Ok a, s') => k a s'
           | (Raise e, s') => (Raise e, s')
           end.

Definition lift {A : Type} (r : result A) : M A := fun s => (r, s).

Definition get : M state := fun s => (Ok s, s).

Definition log (e : event) (s : state) : state :=
  {| world := world s; sum_loss := sum_loss s;
     sum_mean_squared_error := sum_mean_squared_error s;
     trace := trace s ++ [e] |}.

Definition set_world (w : W) (s : state) : state :=
  {| world := w; sum_loss := sum_loss s;
     sum_mean_squared_error := sum_mean_squared_error s; trace := trace s |}.

Definition set_sum_loss (v : pynum) (s : state) : state :=
  {| world := world s; sum_loss := v;
     sum_mean_squared_error := sum_mean_squared_error s; trace := trace s |}.

Definition set_sum_mean_squared_error (v : pynum) (s : state) : state :=
  {| world := world s; sum_loss := sum_loss s;
     sum_mean_squared_error := v; trace := trace s |}.

Definition emit (e : event) : M unit := fun s => (Ok tt, log e s).

(** A collaborator call without a value: on an exception the world is the
    one before the call. *)
Definition call (f : W -> result W) : M unit :=
  fun s => match f (world s) with
           | Ok w => (Ok tt, set_world w s)
           | Raise e => (Raise e, s)
           end.

Definition call_val {A : Type} (f : W -> result (A * W)) : M A :=
  fun s => match f (world s) with
           | Ok (a, w) => (Ok a, set_world w s)
           | Raise e => (Raise e, s)
           end.

Definition assign_sum_loss (v : pynum) : M unit :=
  fun s => (Ok tt, set_sum_loss v s).

Definition assign_sum_mean_squared_error (v : pynum) : M unit :=
  fun s => (Ok tt, set_sum_mean_squared_error v s).

Fixpoint for_each {A : Type} (l : list A) (body : A -> M unit) : M unit :=
  match l with
  | [] => ret tt
  | a :: l' => bind (body a) (fun _ => for_each l' body)
  end.

End Script.

Arguments ret {W A} a.
Arguments lift {W A} r.
Arguments get {W}.
Arguments emit {W} e.
Arguments assign_sum_loss {W} v.
Arguments assign_sum_mean_squared_error {W} v.
Arguments set_world {W} w s.
Arguments set_sum_loss {W} v s.
Arguments set_sum_mean_squared_error {W} v s.
Arguments log {W} e s.

Notation "x <- m ;; k" := (bind m (fun x => k))
  (at level 61, m at next level, right associativity).
Notation "m ;; k" := (bind m (fun _ => k))
  (at level 61, right associativity).

Section Program.

Variable W : Type.
Variable bk : Backend W.
Variable N : Z.          (* the split point, 60000 in the script *)
Variable a : args.       (* the parsed command line *)

Let n_epoch : Z := epoch a.

(** [time.time()] *)
Definition clock : M W pynum :=
  emit EvTime ;;
  v <- call_val (fun w => let '(v, w') := time_time bk w in Ok (v, w')) ;;
  ret (PyFloat v).

(** ** Lines 51-61 *)
Definition load_dataset : M W dataset :=
  emit (EvPrint MsgLoadDataset) ;;
  emit EvLoadData ;;
  mnist <- call_val (load_mnist_data bk) ;;
  ret (prepare_dataset N mnist).

(** ** Lines 69-88: model, device and optimizer *)
Definition setup : M W unit :=
  emit (EvConstructModel (match net a with normal => false | bn => true end)) ;;
  call (construct_model bk (match net a with normal => false | bn => true end)) ;;
  (if 0 <=? gpu a
   then emit (EvToGpu (gpu a)) ;; call (to_gpu bk (gpu a))
   else ret tt) ;;
  (if 0 <? WEIGHT_DECAY
   then emit (EvWeightDecay WEIGHT_DECAY) ;;
        call (add_weight_decay bk WEIGHT_DECAY)
   else ret tt) ;;
  emit EvSetupOptimizer ;;
  call (setup_optimizer bk).

(** ** Lines 90-96: Init/Resume.  A string is true when it is not empty. *)
Definition init_model : M W unit :=
  if String.eqb (initmodel a) EmptyString then ret tt
  else emit (EvPrint (MsgLoadModel (initmodel a))) ;;
       emit (EvLoadModel (initmodel a)) ;;
       call (load_npz_model bk (initmodel a)).

Definition resume_optimizer : M W unit :=
  if String.eqb (resume a) EmptyString then ret tt
  else emit (EvPrint (MsgLoadOptimizer (resume a))) ;;
       emit (EvLoadOptimizer (resume a)) ;;
       call (load_npz_optimizer bk (resume a)).

Definition init_resume : M W unit :=
  init_model ;;
  resume_optimizer.

Section Loop.

Variable ds : dataset.

(** ** Lines 108-122: one training minibatch.  [chainer.Variable] and
    [xp.asarray] wrap the arrays; the collaborators receive the rows and
    the labels themselves. *)
Definition train_batch (epoch : Z) (perm : list Z) (i : Z) : M W unit :=
  x <- lift (Py.take (x_train ds) (Py.slice perm i (i + batchsize a))) ;;
  t <- lift (Py.take (y_train ds) (Py.slice perm i (i + batchsize a))) ;;
  emit (EvUpdate x t) ;;
  call (optimizer_update bk x t) ;;
  (if (epoch =? 1) && (i =? 0)
   then emit EvDumpGraph ;; call (dump_graph bk) ;;
        emit (EvPrint MsgGraphGenerated)
   else ret tt) ;;
  s <- get ;;
  assign_sum_loss
    (py_add (sum_loss s)
            (py_mul (PyFloat (model_loss bk (world s))) (PyInt (Py.len t)))) ;;
  s <- get ;;
  assign_sum_mean_squared_error
    (py_add (sum_mean_squared_error s)
            (py_mul (PyFloat (model_mean_squared_error bk (world s)))
                    (PyInt (Py.len t)))).

(** ** Lines 103-127: the training phase of one epoch *)
Definition training (epoch : Z) : M W unit :=
  emit (EvPermutation N) ;;
  perm <- call_val (fun w => Ok (random_permutation bk N w)) ;;
  assign_sum_mean_squared_error (PyInt 0) ;;
  assign_sum_loss (PyInt 0) ;;
  start <- clock ;;
  starts <- lift (Py.range 0 N (batchsize a)) ;;
  for_each starts (train_batch epoch perm) ;;
  end_ <- clock ;;
  throughput <- lift (py_div (PyInt N) (py_sub end_ start)) ;;
  s <- get ;;
  mean_loss <- lift (py_div (sum_loss s) (PyInt N)) ;;
  mse <- lift (py_div (sum_mean_squared_error s) (PyInt N)) ;;
  emit (EvPrint (MsgTrain mean_loss mse throughput)).

(** ** Lines 139-169: one evaluation minibatch *)
Definition eval_batch (i : Z) : M W unit :=
  let x := Py.slice (x_test ds) i (i + batchsize a) in
  let t := Py.slice (y_test ds) i (i + batchsize a) in
  emit (EvForward true x t) ;;
  loss <- call_val (model_call bk true x t) ;;
  s <- get ;;
  assign_sum_loss
    (py_add (sum_loss s) (py_mul (PyFloat loss) (PyInt (Py.len t)))) ;;
  s <- get ;;
  assign_sum_mean_squared_error
    (py_add (sum_mean_squared_error s)
            (py_mul (PyFloat (model_mean_squared_error bk (world s)))
                    (PyInt (Py.len t)))) ;;
  (if SAVE_IMAGES && (i =? 0)
   then emit (EvVisualize i x) ;; call (visualize bk i x)
   else ret tt).

(** ** Lines 130-172: the evaluation phase of one epoch *)
Definition evaluation : M W unit :=
  assign_sum_mean_squared_error (PyInt 0) ;;
  assign_sum_loss (PyInt 0) ;;
  (if SAVE_IMAGES then emit EvPlotSetup ;; call (plot_setup bk) else ret tt) ;;
  starts <- lift (Py.range 0 (N_test ds) (batchsize a)) ;;
  for_each starts eval_batch ;;
  s <- get ;;
  mean_loss <- lift (py_div (sum_loss s) (PyInt (N_test ds))) ;;
  mse <- lift (py_div (sum_mean_squared_error s) (PyInt (N_test ds))) ;;
  emit (EvPrint (MsgTest mean_loss mse)).

(** ** Lines 99-172: one epoch, and the learning loop *)
Definition one_epoch (epoch : Z) : M W unit :=
  emit (EvPrint (MsgEpoch epoch)) ;;
  training epoch ;;
  evaluation.

Definition learning_loop : M W unit :=
  epochs <- lift (Py.range 1 (n_epoch + 1) 1) ;;
  for_each epochs one_epoch.

End Loop.

(** ** Lines 174-178 *)
Definition save : M W unit :=
  emit (EvPrint MsgSaveModel) ;;
  emit (EvSaveModel "mlp.model") ;;
  call (save_npz_model bk "mlp.model") ;;
  emit (EvPrint MsgSaveOptimizer) ;;
  emit (EvSaveOptimizer "mlp.state") ;;
  call (save_npz_optimizer bk "mlp.state").

(** ** Lines 45-88: everything before Init/Resume *)
Definition startup : M W dataset :=
  emit (EvPrint (MsgConfig (gpu a) (batchsize a) (epoch a) (net a))) ;;
  ds <- load_dataset ;;
  setup ;;
  ret ds.

(** ** The whole script *)
Definition script : M W unit :=
  ds <- startup ;;
  init_resume ;;
  learning_loop ds ;;
  save.

End Program.

(** The script as it is, with its constant [N = 60000]. *)
Definition train_mnist (W : Type) (bk : Backend W) (a : args) : M W unit :=
  script bk N_mnist a.

(** The state a run starts from: nothing logged, accumulators not yet
    bound (any value does, they are assigned before they are read). *)
Definition initial_state (W : Type) (w : W) : state W :=
  {| world := w; sum_loss := PyInt 0; sum_mean_squared_error := PyInt 0;
     trace := [] |}.

(** ** A small executable backend

    A deterministic stand-in for Chainer and the other collaborators, used
    to run the script on concrete inputs: the "parameters" are an integer
    every update changes, the generator alternates between the identity
    and the reversed order, the clock ticks once per reading, and a
    checkpoint loads when its file is listed. *)

Module Toy.

Record world : Type := {
  files : list string;       (* the checkpoint files that exist *)
  data : mnist_raw;          (* what the dataset files hold *)
  params : Z;                (* network parameters *)
  opt_state : Z;             (* optimizer state *)
  seed : Z;                  (* NumPy's global random state *)
  now : Z;                   (* the clock *)
  loss : spec_float;         (* model.loss *)
  mse : spec_float;          (* model.mean_squared_error *)
  saved : list (string * Z)  (* files written *)
}.

Definition with_model (p : Z) (l m : spec_float) (w : world) : world :=
  {| files := files w; data := data w; params := p; opt_state := opt_state w;
     seed := seed w; now := now w; loss := l; mse := m; saved := saved w |}.

Definition with_opt (o : Z) (w : world) : world :=
  {| files := files w; data := data w; params := params w; opt_state := o;
     seed := seed w; now := now w; loss := loss w; mse := mse w;
     saved := saved w |}.

Definition with_seed (k : Z) (w : world) : world :=
  {| files := files w; data := data w; params := params w;
     opt_state := opt_state w; seed := k; now := now w; loss := loss w;
     mse := mse w; saved := saved w |}.

Definition with_now (k : Z) (w : world) : world :=
  {| files := files w; data := data w; params := params w;
     opt_state := opt_state w; seed := seed w; now := k; loss := loss w;
     mse := mse w; saved := saved w |}.

Definition with_saved (f : string) (v : Z) (w : world) : world :=
  {| files := files w; data := data w; params := params w;
     opt_state := opt_state w; seed := seed w; now := now w; loss := loss w;
     mse := mse w; saved := saved w ++ [(f, v)] |}.

Definition exists_file (f : string) (w : world) : bool :=
  existsb (String.eqb f) (files w).

Definition sum_labels (t : list label) : Z := fold_right Z.add 0 t.

Definition backend : Backend world := {|
  load_mnist_data := fun w => Ok (data w, w);
  construct_model := fun use_bn w =>
    Ok (with_model (if use_bn then 1 else 0) (F64.of_Z 0) (F64.of_Z 0) w);
  to_gpu := fun id w => if id =? 0 then Ok w else Raise (BackendError 1);
  add_weight_decay := fun _ w => Ok w;
  setup_optimizer := fun w => Ok (with_opt 0 w);
  load_npz_model := fun f w =>
    if exists_file f w then Ok (with_model 1000 (loss w) (mse w) w)
    else Raise IOError;
  load_npz_optimizer := fun f w =>
    if exists_file f w then Ok (with_opt 1000 w) else Raise IOError;
  random_permutation := fun n w =>
    (if Z.even (seed w) then Py.arange n else rev (Py.arange n),
     with_seed (seed w + 1) w);
  time_time := fun w => (F64.of_Z (now w), with_now (now w + 1) w);
  optimizer_update := fun x t w =>
    Ok (with_opt (opt_state w + 1)
          (with_model (params w + sum_labels t + 1)
                      (F64.of_Z (sum_labels t)) (F64.of_Z (Py.len x)) w));
  dump_graph := fun w => Ok w;
  model_call := fun _ x t w =>
    Ok (F64.of_Z (sum_labels t),
        with_model (params w) (F64.of_Z (sum_labels t)) (F64.of_Z (Py.len x)) w);
  model_loss := loss;
  model_mean_squared_error := mse;
  plot_setup := fun w => Ok w;
  visualize := fun _ _ w => Ok w;
  save_npz_model := fun f w => Ok (with_saved f (params w) w);
  save_npz_optimizer := fun f w => Ok (with_saved f (opt_state w) w)
|}.

(** A dataset of [n] one-pixel images: image [k] has pixel [k] and label [k]. *)
Definition tiny_data (n : Z) : mnist_raw :=
  {| raw_data := map (fun k => [k]) (Py.arange n); raw_target := Py.arange n |}.

Definition start (n : Z) (fs : list string) : world :=
  {| files := fs; data := tiny_data n; params := 0; opt_state := 0;
     seed := 0; now := 0; loss := S754_zero false; mse := S754_zero false;
     saved := [] |}.

Definition cfg (e b : Z) : args :=
  {| initmodel := EmptyString; resume := EmptyString; net := normal;
     gpu := -1; epoch := e; batchsize := b |}.

(** The same with a model checkpoint and an optimizer snapshot to load. *)
Definition cfg_from (m r : string) (e b : Z) : args :=
  {| initmodel := m; resume := r; net := normal;
     gpu := -1; epoch := e; batchsize := b |}.

(** Nine images, split after the seventh. *)
Definition ds7 : dataset := prepare_dataset 7 (tiny_data 9).

(** Twelve images, split after the seventh: five test images. *)
Definition ds7_test_5 : dataset := prepare_dataset 7 (tiny_data 12).

(** Seven images, split after the seventh: no test image. *)
Definition ds7_no_test : dataset := prepare_dataset 7 (tiny_data 7).

(** The state a run over nine images starts from, and the same with
    another clock. *)
Definition s0 : state world := initial_state (start 9 []).
Definition s0_later : state world := initial_state (with_now 100 (start 9 [])).

(** Network parameters and optimizer state. *)
Definition learned (w : world) : Z * Z := (params w, opt_state w).

End Toy.

(** ** Vocabulary of the properties *)

(** The batch-size-weighted average of the specification: the sum of
    (per-batch value x batch size) over the batches, from zero, in the
    order of the batches, divided by the number of samples. *)
Definition weighted_sum (obs : list (spec_float * Z)) : pynum :=
  fold_left (fun acc o => py_add acc (py_mul (PyFloat (fst o)) (PyInt (snd o))))
            obs (PyInt 0).

Definition weighted_mean (obs : list (spec_float * Z)) (n : Z) : result pynum :=
  py_div (weighted_sum obs) (PyInt n).

(** What one minibatch contributes to the report: the loss value and the
    reconstruction error read after it, and its size. *)
Record observation : Type := {
  obs_loss : spec_float;
  obs_mse : spec_float;
  obs_size : Z
}.

Definition loss_terms (obs : list observation) : list (spec_float * Z) :=
  map (fun o => (obs_loss o, obs_size o)) obs.

Definition mse_terms (obs : list observation) : list (spec_float * Z) :=
  map (fun o => (obs_mse o, obs_size o)) obs.

(** The execution history of a loop: for each iteration that completed,
    the loop variable, the state before it and the state after it. *)
Fixpoint history (W A : Type) (l : list A) (body : A -> M W unit)
                 (s : state W) : list (A * state W * state W) :=
  match l with
  | [] => []
  | x :: l' =>
      match body x s with
      | (Ok _, s') => (x, s, s') :: history l' body s'
      | (Raise _, _) => []
      end
  end.

Definition is_update (e : event) : bool :=
  match e with EvUpdate _ _ => true | _ => false end.

Definition is_save (e : event) : bool :=
  match e with EvSaveModel _ | EvSaveOptimizer _ => true | _ => false end.

Definition is_load (e : event) : bool :=
  match e with EvLoadModel _ | EvLoadOptimizer _ => true | _ => false end.

(** The minibatches handed to [optimizer.update], in order. *)
Definition updates_of (tr : list event) : list (list row * list label) :=
  flat_map (fun e => match e with EvUpdate x t => [(x, t)] | _ => [] end) tr.

(** The minibatches handed to [model(x, t)], in order, with their
    volatile flag. *)
Definition forwards_of (tr : list event)
  : list (bool * list row * list label) :=
  flat_map (fun e => match e with
                     | EvForward v x t => [(v, x, t)]
                     | _ => []
                     end) tr.

(** Every event a computation logs satisfies [P], however it ends. *)
Definition emits (W A : Type) (P : event -> Prop) (m : M W A) : Prop :=
  forall s, exists evs,
    trace (snd (m s)) = trace s ++ evs /\ Forall P evs.

(** A computation keeps a property of the collaborators' world, however
    it ends. *)
Definition keeps (W A : Type) (I : W -> Prop) (m : M W A) : Prop :=
  forall s, I (world s) -> I (world (snd (m s))).

(** ** Two runs side by side *)

Definition rel_result (A B : Type) (R : A -> B -> Prop)
                      (r1 : result A) (r2 : result B) : Prop :=
  match r1, r2 with
  | Ok x, Ok y => R x y
  | Raise e1, Raise e2 => e1 = e2
  | _, _ => False
  end.

(** A backend is deterministic up to [sim] when every collaborator, run in
    two related worlds on the same arguments, raises the same exception
    or returns the same value in related worlds.  The clock is the
    exception: only its effect on the world is constrained, not the time
    it reads. *)
Record deterministic (W : Type) (bk : Backend W) (sim : W -> W -> Prop)
  : Prop := {
  det_load_mnist_data : forall w1 w2, sim w1 w2 ->
    rel_result (fun p q => fst p = fst q /\ sim (snd p) (snd q))
               (load_mnist_data bk w1) (load_mnist_data bk w2);
  det_construct_model : forall u w1 w2, sim w1 w2 ->
    rel_result sim (construct_model bk u w1) (construct_model bk u w2);
  det_to_gpu : forall g w1 w2, sim w1 w2 ->
    rel_result sim (to_gpu bk g w1) (to_gpu bk g w2);
  det_add_weight_decay : forall r w1 w2, sim w1 w2 ->
    rel_result sim (add_weight_decay bk r w1) (add_weight_decay bk r w2);
  det_setup_optimizer : forall w1 w2, sim w1 w2 ->
    rel_result sim (setup_optimizer bk w1) (setup_optimizer bk w2);
  det_load_npz_model : forall f w1 w2, sim w1 w2 ->
    rel_result sim (load_npz_model bk f w1) (load_npz_model bk f w2);
  det_load_npz_optimizer : forall f w1 w2, sim w1 w2 ->
    rel_result sim (load_npz_optimizer bk f w1) (load_npz_optimizer bk f w2);
  det_random_permutation : forall n w1 w2, sim w1 w2 ->
    fst (random_permutation bk n w1) = fst (random_permutation bk n w2) /\
    sim (snd (random_permutation bk n w1)) (snd (random_permutation bk n w2));
  det_time_time : forall w1 w2, sim w1 w2 ->
    sim (snd (time_time bk w1)) (snd (time_time bk w2));
  det_optimizer_update : forall x t w1 w2, sim w1 w2 ->
    rel_result sim (optimizer_update bk x t w1) (optimizer_update bk x t w2);
  det_dump_graph : forall w1 w2, sim w1 w2 ->
    rel_result sim (dump_graph bk w1) (dump_graph bk w2);
  det_model_call : forall v x t w1 w2, sim w1 w2 ->
    rel_result (fun p q => fst p = fst q /\ sim (snd p) (snd q))
               (model_call bk v x t w1) (model_call bk v x t w2);
  det_plot_setup : forall w1 w2, sim w1 w2 ->
    rel_result sim (plot_setup bk w1) (plot_setup bk w2);
  det_visualize : forall i x w1 w2, sim w1 w2 ->
    rel_result sim (visualize bk i x w1) (visualize bk i x w2);
  det_save_npz_model : forall f w1 w2, sim w1 w2 ->
    rel_result sim (save_npz_model bk f w1) (save_npz_model bk f w2);
  det_save_npz_optimizer : forall f w1 w2, sim w1 w2 ->
    rel_result sim (save_npz_optimizer bk f w1) (save_npz_optimizer bk f w2)
}.

(** Two computations started in related worlds: when both complete, their
    values are related by [R] and so are the worlds they end in. *)
Definition simM (W A : Type) (sim : W -> W -> Prop) (R : A -> A -> Prop)
                (m1 m2 : M W A) : Prop :=
  forall s1 s2, sim (world s1) (world s2) ->
    match m1 s1, m2 s2 with
    | (Ok x, s1'), (Ok y, s2') => R x y /\ sim (world s1') (world s2')
    | _, _ => True
    end.

(** In the small backend two worlds are related when they differ at most
    in the clock. *)
Definition toy_sim (w1 w2 : Toy.world) : Prop :=
  Toy.with_now 0 w1 = Toy.with_now 0 w2.

(** ** The minibatch loops, seen from outside *)

Section Observed.

Variable W : Type.
Variable bk : Backend W.
Variable N : Z.
Variable a : args.
Variable ds : dataset.

(** The state in which the minibatch loop of the training phase starts:
    the permutation is drawn, both accumulators are zero and the clock has
    been read. *)
Definition training_entry (s : state W) : state W :=
  let s1 := set_world (snd (random_permutation bk N (world s)))
                      (log (EvPermutation N) s) in
  let s2 := set_sum_loss (PyInt 0)
              (set_sum_mean_squared_error (PyInt 0) s1) in
  set_world (snd (time_time bk (world s2))) (log EvTime s2).

(** What the training phase reads after the minibatch starting at [i]:
    the loss and the reconstruction error of the model as the minibatch
    left it, and the number of labels in the minibatch. *)
Definition train_observed (perm : list Z) (i : Z) (pre post : state W)
                          (o : observation) : Prop :=
  obs_loss o = model_loss bk (world post) /\
  obs_mse o = model_mean_squared_error bk (world post) /\
  exists t, Py.take (y_train ds) (Py.slice perm i (i + batchsize a)) = Ok t /\
            obs_size o = Py.len t.

(** What the evaluation phase reads for the minibatch starting at [i]:
    the loss the forward pass returns, the reconstruction error of the
    model right after it, and the number of labels in the minibatch. *)
Definition eval_observed (i : Z) (pre post : state W)
                         (o : observation) : Prop :=
  let x := Py.slice (x_test ds) i (i + batchsize a) in
  let t := Py.slice (y_test ds) i (i + batchsize a) in
  (exists w, model_call bk true x t (world pre) = Ok (obs_loss o, w) /\
             obs_mse o = model_mean_squared_error bk w) /\
  obs_size o = Py.len t.

(** The state in which the minibatch loop of the evaluation phase starts,
    [w] being the world the plot set-up leaves. *)
Definition evaluation_entry (w : W) (s : state W) : state W :=
  set_world w
    (log EvPlotSetup
       (set_sum_loss (PyInt 0) (set_sum_mean_squared_error (PyInt 0) s))).

End Observed.

(** ** Vocabulary of the further properties *)

Definition is_dump (e : event) : bool :=
  match e with EvDumpGraph => true | _ => false end.

Definition is_visualize (e : event) : bool :=
  match e with EvVisualize _ _ => true | _ => false end.

Definition is_gpu (e : event) : bool :=
  match e with EvToGpu _ => true | _ => false end.

Definition is_permutation (e : event) : bool :=
  match e with EvPermutation _ => true | _ => false end.

Definition is_epoch (e : event) : bool :=
  match e with EvPrint (MsgEpoch _) => true | _ => false end.

(** The epoch numbers printed, in order. *)
Definition epochs_of (tr : list event) : list Z :=
  flat_map (fun e => match e with EvPrint (MsgEpoch k) => [k] | _ => [] end)
           tr.

(** How many logged events satisfy [p]. *)
Definition count (p : event -> bool) (tr : list event) : nat :=
  length (filter p tr).

(** A computation logs at most [n] events that satisfy [p], however it
    ends. *)
Definition at_most (W A : Type) (p : event -> bool) (n : nat) (m : M W A)
  : Prop :=
  forall s, exists evs,
    trace (snd (m s)) = trace s ++ evs /\ (count p evs <= n)%nat.

(** The sum of a list of sizes. *)
Definition total (sizes : list Z) : Z := fold_right Z.add 0 sizes.

(** The time the training phase reads before its minibatch loop
    ([start = time.time()], line 106). *)
Definition training_start_time (W : Type) (bk : Backend W) (N : Z)
                               (s : state W) : spec_float :=
  fst (time_time bk (snd (random_permutation bk N (world s)))).

(** The small backend with a clock that does not advance. *)
Definition toy_frozen : Backend Toy.world := {|
  load_mnist_data := load_mnist_data Toy.backend;
  construct_model := construct_model Toy.backend;
  to_gpu := to_gpu Toy.backend;
  add_weight_decay := add_weight_decay Toy.backend;
  setup_optimizer := setup_optimizer Toy.backend;
  load_npz_model := load_npz_model Toy.backend;
  load_npz_optimizer := load_npz_optimizer Toy.backend;
  random_permutation := random_permutation Toy.backend;
  time_time := fun w => (F64.of_Z (Toy.now w), w);
  optimizer_update := optimizer_update Toy.backend;
  dump_graph := dump_graph Toy.backend;
  model_call := model_call Toy.backend;
  model_loss := model_loss Toy.backend;
  model_mean_squared_error := model_mean_squared_error Toy.backend;
  plot_setup := plot_setup Toy.backend;
  visualize := visualize Toy.backend;
  save_npz_model := save_npz_model Toy.backend;
  save_npz_optimizer := save_npz_optimizer Toy.backend
|}.

(** Five images, split after the seventh: a training set that is too
    short. *)
Definition toy_ds_short : dataset := prepare_dataset 7 (Toy.tiny_data 5).

(** A run on a device that does not exist. *)
Definition toy_cfg_gpu (id e b : Z) : args :=
  {| initmodel := EmptyString; resume := EmptyString; net := normal;
     gpu := id; epoch := e; batchsize := b |}.

(** The events the training phase logs after it has drawn its
    permutation, and the events of the evaluation phase. *)
Definition after_permutation (e : event) : bool :=
  match e with
  | EvTime | EvUpdate _ _ | EvDumpGraph
  | EvPrint MsgGraphGenerated | EvPrint (MsgTrain _ _ _) => true
  | _ => false
  end.

Definition evaluation_event (e : event) : bool :=
  match e with
  | EvPlotSetup | EvForward _ _ _ | EvVisualize _ _
  | EvPrint (MsgTest _ _) => true
  | _ => false
  end.

(** The events of the learning loop. *)
Definition loop_event (e : event) : bool :=
  is_epoch e || is_permutation e || after_permutation e || evaluation_event e.

(** A computation that completes from every state. *)
Definition returns (W A : Type) (m : M W A) : Prop :=
  forall s, exists x s', m s = (Ok x, s').

(** ** Division by 255, stated on rational numbers

    The specification says that every feature value is divided by 255.
    The definitions below say what that means for a binary32 result
    without going through [normalize_pixel]: the result is the binary32
    value nearest to the rational number [v / 255]. *)

(** The rational number a finite binary float denotes. *)
Definition float_value (f : spec_float) : Q :=
  match f with
  | S754_finite s m e => (inject_Z (if s then Z.neg m else Z.pos m) * 2 ^ e)%Q
  | _ => 0%Q
  end.

Definition is_finite (f : spec_float) : bool :=
  match f with S754_zero _ | S754_finite _ _ _ => true | _ => false end.

Definition distance (q : Q) (f : spec_float) : Q := Qabs (float_value f - q).

(** [f] is a finite binary32 value and neither the binary32 value just
    below it nor the one just above it is closer to [q]. *)
Definition nearest_binary32 (q : Q) (f : spec_float) : bool :=
  valid_binary F32.prec F32.emax f && is_finite f &&
  Qle_bool (distance q f) (distance q (SFpred F32.prec F32.emax f)) &&
  Qle_bool (distance q f) (distance q (SFsucc F32.prec F32.emax f)).

(** [f] is [v] divided by 255, in binary32. *)
Definition quotient_by_255 (v : Z) (f : spec_float) : bool :=
  nearest_binary32 (inject_Z v / inject_Z 255) f.

(** A dataset of 60003 two-pixel images: 60000 images with a black and a
    white pixel and the label 5, then three more images.  Split at row
    60000 it leaves three test images. *)
Definition sample_mnist : mnist_raw :=
  {| raw_data := repeat [0; 255] (Z.to_nat N_mnist)
                 ++ [[96; 159]; [97; 158]; [98; 157]];
     raw_target := repeat 5 (Z.to_nat N_mnist) ++ [0; 1; 2] |}.

(** ** Where the graph dump sits in the log *)

(** An event that is no update, no graph dump and no epoch line. *)
Definition preliminary (e : event) : bool :=
  negb (is_update e || is_dump e || is_epoch e).

(** The events [evs] hold one graph dump: it directly follows the first
    update of [evs], and [E] are the epoch numbers printed before it. *)
Definition dump_follows_first_update (E : list Z) (evs : list event) : Prop :=
  exists A x t B,
    evs = A ++ EvUpdate x t :: EvDumpGraph :: B /\
    updates_of A = [] /\
    Forall (fun e => is_dump e = false) A /\
    epochs_of A = E /\
    Forall (fun e => is_dump e = false) B.

(** However the computation ends, it has logged no graph dump, or one
    that directly follows its first update, after the epoch lines [E]. *)
Definition dumps_first (W A : Type) (E : list Z) (m : M W A) : Prop :=
  forall s, exists evs,
    trace (snd (m s)) = trace s ++ evs /\
    (Forall (fun e => is_dump e = false) evs \/
     dump_follows_first_update E evs).

(** * Properties *)

(** ** Ranges and slices *)

Section PyFacts.

Context {A : Type}.
Implicit Types l : list A.

Lemma range_len_up (n b : Z) :
  0 < b -> 0 <= n -> Py.range_len 0 n b = (n + b - 1) / b.
Proof.
  intros Hb Hn. unfold Py.range_len.
  destruct (0 <? b) eqn:E; [|apply Z.ltb_ge in E; lia].
  destruct (0 <? n) eqn:En.
  - apply Z.ltb_lt in En.
    replace (n + b - 1) with (n - 0 - 1 + 1 * b) by lia.
    rewrite Z.div_add by lia. lia.
  - apply Z.ltb_ge in En. assert (n = 0) by lia. subst n.
    rewrite Z.div_small; lia.
Qed.

Lemma range_step_pos (n b : Z) :
  0 < b ->
  Py.range 0 n b =
  Ok (map (fun k => Z.of_nat k * b) (seq 0 (Z.to_nat (Py.range_len 0 n b)))).
Proof.
  intros Hb. unfold Py.range.
  destruct (b =? 0) eqn:E; [apply Z.eqb_eq in E; lia|].
  reflexivity.
Qed.

Lemma range_step_zero (lo n : Z) : Py.range lo n 0 = Raise ValueError.
Proof. reflexivity. Qed.

Lemma range_step_neg (n b : Z) : b < 0 -> 0 <= n -> Py.range 0 n b = Ok [].
Proof.
  intros Hb Hn. unfold Py.range, Py.range_len.
  destruct (b =? 0) eqn:E; [apply Z.eqb_eq in E; lia|].
  destruct (0 <? b) eqn:E1; [apply Z.ltb_lt in E1; lia|].
  destruct (b <? 0) eqn:E2; [|reflexivity].
  destruct (n <? 0) eqn:E3; [apply Z.ltb_lt in E3; lia|reflexivity].
Qed.

Lemma range_empty (lo hi : Z) : hi <= lo -> Py.range lo hi 1 = Ok [].
Proof.
  intros H. unfold Py.range, Py.range_len. simpl.
  destruct (lo <? hi) eqn:E; [apply Z.ltb_lt in E; lia|reflexivity].
Qed.

Lemma range_first (hi : Z) :
  1 < hi -> exists rest, Py.range 1 hi 1 = Ok (1 :: rest).
Proof.
  intros H. unfold Py.range, Py.range_len. simpl.
  destruct (1 <? hi) eqn:E; [|apply Z.ltb_ge in E; lia].
  rewrite Z.div_1_r.
  replace (Z.to_nat (hi - 1 - 1 + 1)) with (S (Z.to_nat (hi - 2))) by lia.
  simpl. eexists. reflexivity.
Qed.

Lemma slice_from_nonneg l (i j : Z) :
  0 <= i -> i <= j ->
  Py.slice l i j = firstn (Z.to_nat (j - i)) (skipn (Z.to_nat i) l).
Proof.
  intros Hi Hj. unfold Py.slice, Py.clamp_index.
  destruct (i <? 0) eqn:Ei; [apply Z.ltb_lt in Ei; lia|].
  destruct (j <? 0) eqn:Ej; [apply Z.ltb_lt in Ej; lia|].
  set (n := Z.of_nat (length l)).
  destruct (Z_le_gt_dec i n) as [Hin|Hin].
  - rewrite (Z.min_l i n) by lia.
    destruct (Z_le_gt_dec j n) as [Hjn|Hjn].
    + rewrite (Z.min_l j n) by lia. reflexivity.
    + rewrite (Z.min_r j n) by lia.
      rewrite !firstn_all2; try reflexivity; rewrite length_skipn; subst n; lia.
  - rewrite (Z.min_r i n), (Z.min_r j n) by lia.
    rewrite (skipn_all2 (n:=Z.to_nat n)) by (subst n; lia).
    rewrite (skipn_all2 (n:=Z.to_nat i)) by (subst n; lia).
    now rewrite !firstn_nil.
Qed.

Lemma slice_length l (i j : Z) :
  0 <= i -> i <= j ->
  Py.len (Py.slice l i j) = Z.max 0 (Z.min (j - i) (Py.len l - i)).
Proof.
  intros Hi Hj. rewrite slice_from_nonneg by assumption.
  unfold Py.len. rewrite length_firstn, length_skipn. lia.
Qed.

Lemma firstn_add_skipn (p q : nat) l :
  firstn (p + q) l = firstn p l ++ firstn q (skipn p l).
Proof.
  revert l. induction p as [|p IH]; intros l; simpl.
  - reflexivity.
  - destruct l as [|x l]; simpl.
    + now rewrite firstn_nil.
    + now rewrite IH.
Qed.

(** The first [m] slices of width [b] put end to end are the first [m * b]
    elements. *)
Lemma concat_slices l (b : Z) (m : nat) :
  0 < b ->
  concat (map (fun i => Py.slice l i (i + b))
              (map (fun k => Z.of_nat k * b) (seq 0 m)))
  = firstn (Z.to_nat (Z.of_nat m * b)) l.
Proof.
  intros Hb. induction m as [|m IH].
  - reflexivity.
  - replace (Z.to_nat (Z.of_nat (S m) * b))
      with (Z.to_nat (Z.of_nat m * b) + Z.to_nat b)%nat by lia.
    rewrite firstn_add_skipn, seq_S, !map_app, concat_app, IH.
    f_equal. cbn [map concat Nat.add]. rewrite app_nil_r.
    rewrite slice_from_nonneg by lia.
    f_equal. lia.
Qed.

(** For a positive batch size the batches of a list put end to end are the
    list: nothing is dropped, repeated or added. *)
Lemma batches_concat l (b : Z) :
  0 < b ->
  exists bs, batches l (Py.len l) b = Ok bs /\ concat bs = l.
Proof.
  intros Hb. unfold batches. rewrite range_step_pos by assumption.
  eexists. split; [reflexivity|].
  rewrite concat_slices by assumption.
  apply firstn_all2.
  rewrite range_len_up by (unfold Py.len; lia).
  unfold Py.len.
  set (n := Z.of_nat (length l)).
  assert (0 <= n) by (subst n; lia).
  assert (n <= (n + b - 1) / b * b).
  { pose proof (Z.mod_pos_bound (n + b - 1) b Hb).
    pose proof (Z.div_mod (n + b - 1) b ltac:(lia)). nia. }
  assert (0 <= (n + b - 1) / b) by (apply Z.div_pos; lia).
  rewrite Z2Nat.id by assumption. subst n. lia.
Qed.

Lemma map_seq_const (B : Type) (f : nat -> B) (v : B) (m : nat) :
  (forall k, (k < m)%nat -> f k = v) -> map f (seq 0 m) = repeat v m.
Proof.
  induction m as [|m IH]; intros H.
  - reflexivity.
  - rewrite seq_S, map_app, IH by (intros; apply H; lia).
    simpl. rewrite (H m) by lia.
    change (repeat v m ++ [v] = repeat v (S m)).
    rewrite <- repeat_cons. reflexivity.
Qed.

End PyFacts.

(** When the batch size [b] is positive and does not divide the length [n]
    of a list, its batches are [n / b] batches of [b] elements followed by
    one batch of [n mod b] elements, and put end to end they are the list. *)
Lemma batches_partial (A : Type) (l : list A) (b : Z) :
  0 < b ->
  Py.len l mod b <> 0 ->
  exists bs,
    batches l (Py.len l) b = Ok bs /\
    map Py.len bs = repeat b (Z.to_nat (Py.len l / b)) ++ [Py.len l mod b] /\
    concat bs = l.
Proof.
  intros Hb Hr.
  destruct (batches_concat l Hb) as (bs & Hbs & Hcat).
  exists bs. split; [assumption|split; [|assumption]].
  unfold batches in Hbs. rewrite range_step_pos in Hbs by assumption.
  injection Hbs as <-.
  set (n := Py.len l) in *.
  assert (Hn : 0 <= n) by (subst n; unfold Py.len; lia).
  pose proof (Z.mod_pos_bound n b Hb) as Hm.
  pose proof (Z.div_mod n b ltac:(lia)) as Hd.
  assert (Hq : 0 <= n / b) by (apply Z.div_pos; lia).
  rewrite range_len_up by assumption.
  replace ((n + b - 1) / b) with (n / b + 1).
  2:{ apply (Z.div_unique (n + b - 1) b (n / b + 1) (n mod b - 1)); lia. }
  replace (Z.to_nat (n / b + 1)) with (S (Z.to_nat (n / b))) by lia.
  rewrite seq_S, !map_app, !map_map. f_equal.
  - apply map_seq_const. intros k Hk.
    rewrite slice_length by lia. fold n. nia.
  - cbn [map Nat.add]. f_equal.
    rewrite slice_length by lia. fold n.
    rewrite Z2Nat.id by assumption. nia.
Qed.

(** ** Dataset preparation *)

Lemma split_at (A : Type) (l : list A) (n : Z) :
  0 <= n ->
  Py.split l n = (firstn (Z.to_nat n) l, skipn (Z.to_nat n) l).
Proof.
  intros Hn. unfold Py.split. f_equal.
  - rewrite slice_from_nonneg by lia. simpl. f_equal. lia.
  - destruct (Z_le_gt_dec n (Z.of_nat (length l))) as [H|H].
    + rewrite slice_from_nonneg by lia.
      apply firstn_all2. rewrite length_skipn. lia.
    + rewrite (skipn_all2 (n:=Z.to_nat n)) by lia.
      unfold Py.slice, Py.clamp_index.
      destruct (n <? 0) eqn:E; [apply Z.ltb_lt in E; lia|].
      destruct (Z.of_nat (length l) <? 0) eqn:E'; [apply Z.ltb_lt in E'; lia|].
      rewrite !Z.min_r, Z.sub_diag by lia. reflexivity.
Qed.

Lemma normalize_pixel_unit (v : Z) :
  0 <= v <= 255 -> in_unit_interval (normalize_pixel v) = true.
Proof.
  intros Hv.
  assert (H : forallb (fun k => in_unit_interval (normalize_pixel (Z.of_nat k)))
                      (seq 0 256) = true) by (vm_compute; reflexivity).
  rewrite forallb_forall in H.
  specialize (H (Z.to_nat v)).
  rewrite Z2Nat.id in H by lia.
  apply H, in_seq. lia.
Qed.

Lemma prepare_dataset_split (N : Z) (m : mnist_raw) :
  0 <= N ->
  let data := map (map normalize_pixel) (raw_data m) in
  let target := map astype_int32 (raw_target m) in
  prepare_dataset N m =
  {| x_train := firstn (Z.to_nat N) data; x_test := skipn (Z.to_nat N) data;
     y_train := firstn (Z.to_nat N) target; y_test := skipn (Z.to_nat N) target;
     N_test := Py.len (skipn (Z.to_nat N) target) |}.
Proof.
  intros HN data target. unfold prepare_dataset.
  fold data. fold target.
  rewrite !split_at by assumption. reflexivity.
Qed.

Lemma astype_int32_small (z : Z) :
  - 2 ^ 31 <= z < 2 ^ 31 -> astype_int32 z = z.
Proof.
  intros H. unfold astype_int32.
  rewrite Z.mod_small by lia. lia.
Qed.

Lemma astype_int32_fits (l : list Z) :
  Forall (fun z => - 2 ^ 31 <= z < 2 ^ 31) l -> map astype_int32 l = l.
Proof.
  induction 1 as [|z l Hz _ IH]; simpl; [reflexivity|].
  now rewrite IH, astype_int32_small.
Qed.

(** The feature [normalize_pixel] computes from a byte is the binary32
    value nearest to the rational quotient of the byte by 255. *)
Lemma normalize_pixel_quotient (v : Z) :
  0 <= v <= 255 -> quotient_by_255 v (normalize_pixel v) = true.
Proof.
  intros Hv.
  assert (H : forallb (fun k => quotient_by_255 (Z.of_nat k)
                                  (normalize_pixel (Z.of_nat k)))
                      (seq 0 256) = true) by (vm_compute; reflexivity).
  rewrite forallb_forall in H.
  specialize (H (Z.to_nat v)).
  rewrite Z2Nat.id in H by lia.
  apply H, in_seq. lia.
Qed.

Lemma Forall2_map_of (A B : Type) (R : A -> B -> Prop) (f : A -> B)
      (l : list A) :
  Forall (fun x => R x (f x)) l -> Forall2 R l (map f l).
Proof.
  induction 1; simpl; constructor; assumption.
Qed.

Lemma Forall_firstn_of (A : Type) (P : A -> Prop) (n : nat) (l : list A) :
  Forall P l -> Forall P (firstn n l).
Proof.
  intros H. revert n. induction H; intros [|n]; simpl; constructor; auto.
Qed.

Lemma Forall_skipn_of (A : Type) (P : A -> Prop) (n : nat) (l : list A) :
  Forall P l -> Forall P (skipn n l).
Proof.
  intros H. revert n.
  induction H; intros [|n]; simpl; try constructor; auto.
Qed.

Lemma rows_quotient (rows : list (list Z)) :
  Forall (Forall (fun v => 0 <= v <= 255)) rows ->
  Forall2 (Forall2 (fun v f => quotient_by_255 v f = true))
          rows (map (map normalize_pixel) rows).
Proof.
  intros H. apply Forall2_map_of.
  induction H as [|r rs Hr _ IH]; constructor; [|exact IH].
  apply Forall2_map_of.
  induction Hr as [|v vs Hv _ IHr]; constructor; [|exact IHr].
  now apply normalize_pixel_quotient.
Qed.

(** C8.  Dataset preparation divides every feature value by 255 and
    splits at row 60000.  Row by row and feature by feature, the training
    features are the first 60000 raw rows and the test features the
    remaining raw rows, each raw byte [v] replaced by the binary32 value
    nearest to the rational number [v / 255]; these are the values
    [normalize_pixel] computes, and they lie in [0,1].  The training
    labels are the first 60000 targets and the test labels the remaining
    targets, converted to int32, which leaves every target that fits in 32
    bits as it is; [N_test] is the number of remaining targets. *)
Theorem dataset_preparation (m : mnist_raw) :
  Forall (Forall (fun v => 0 <= v <= 255)) (raw_data m) ->
  let ds := prepare_dataset N_mnist m in
  Forall2 (Forall2 (fun v f => quotient_by_255 v f = true))
          (firstn (Z.to_nat N_mnist) (raw_data m)) (x_train ds) /\
  Forall2 (Forall2 (fun v f => quotient_by_255 v f = true))
          (skipn (Z.to_nat N_mnist) (raw_data m)) (x_test ds) /\
  (Forall (fun z => - 2 ^ 31 <= z < 2 ^ 31) (raw_target m) ->
   y_train ds = firstn (Z.to_nat N_mnist) (raw_target m) /\
   y_test ds = skipn (Z.to_nat N_mnist) (raw_target m)) /\
  x_train ds = firstn (Z.to_nat N_mnist) (map (map normalize_pixel) (raw_data m)) /\
  x_test ds = skipn (Z.to_nat N_mnist) (map (map normalize_pixel) (raw_data m)) /\
  y_train ds = firstn (Z.to_nat N_mnist) (map astype_int32 (raw_target m)) /\
  y_test ds = skipn (Z.to_nat N_mnist) (map astype_int32 (raw_target m)) /\
  N_test ds = Py.len (skipn (Z.to_nat N_mnist) (raw_target m)) /\
  Forall (Forall (fun f => in_unit_interval f = true))
         (x_train ds ++ x_test ds).
Proof.
  intros Hbytes ds. subst ds.
  rewrite prepare_dataset_split by (unfold N_mnist; lia).
  cbn [x_train x_test y_train y_test N_test].
  split; [|split; [|split]].
  - rewrite firstn_map. apply rows_quotient.
    now apply Forall_firstn_of.
  - rewrite skipn_map. apply rows_quotient.
    now apply Forall_skipn_of.
  - intros Hfit. now rewrite (astype_int32_fits Hfit).
  - repeat split.
    + unfold Py.len. now rewrite !length_skipn, length_map.
    + rewrite firstn_skipn.
      induction Hbytes as [|r rs Hr _ IH]; constructor; [|exact IH].
      induction Hr as [|v vs Hv _ IHr]; constructor; [|exact IHr].
      now apply normalize_pixel_unit.
Qed.

Lemma sample_mnist_bytes :
  Forall (Forall (fun v => 0 <= v <= 255)) (raw_data sample_mnist).
Proof.
  unfold sample_mnist. cbn [raw_data].
  apply Forall_app. split.
  - apply Forall_forall. intros r Hr.
    apply repeat_spec in Hr. subst r. repeat constructor; lia.
  - repeat constructor; lia.
Qed.

Lemma sample_mnist_digits :
  Forall (fun z => - 2 ^ 31 <= z < 2 ^ 31) (raw_target sample_mnist).
Proof.
  unfold sample_mnist. cbn [raw_target].
  apply Forall_app. split.
  - apply Forall_forall. intros z Hz.
    apply repeat_spec in Hz. subst z. lia.
  - repeat constructor; lia.
Qed.

Lemma skipn_repeat_app (A : Type) (x : A) (n : nat) (l : list A) :
  skipn n (repeat x n ++ l) = l.
Proof.
  induction n; simpl; [reflexivity|assumption].
Qed.

(** The 60003 images of [sample_mnist]: 60000 training images and three
    test images, the features of the test images being the quotients by
    255 of the raw bytes of rows 60000 to 60002. *)
Lemma dataset_preparation_witness :
  Forall (Forall (fun v => 0 <= v <= 255)) (raw_data sample_mnist) /\
  Py.len (x_train (prepare_dataset N_mnist sample_mnist)) = 60000 /\
  N_test (prepare_dataset N_mnist sample_mnist) = 3 /\
  Forall2 (Forall2 (fun v f => quotient_by_255 v f = true))
          [[96; 159]; [97; 158]; [98; 157]]
          (x_test (prepare_dataset N_mnist sample_mnist)) /\
  y_test (prepare_dataset N_mnist sample_mnist) = [0; 1; 2] /\
  Forall (Forall (fun f => in_unit_interval f = true))
         (x_train (prepare_dataset N_mnist sample_mnist)
          ++ x_test (prepare_dataset N_mnist sample_mnist)).
Proof.
  destruct (@dataset_preparation sample_mnist sample_mnist_bytes)
    as (_ & Hte & Hy & Hx & _ & _ & _ & Hn & Hu).
  destruct (Hy sample_mnist_digits) as (_ & Hyte).
  split; [exact sample_mnist_bytes|].
  split; [|split; [|split; [|split]]].
  - rewrite Hx. unfold Py.len, sample_mnist. cbn [raw_data].
    rewrite length_firstn, length_map, length_app, repeat_length.
    cbn [length]. unfold N_mnist. lia.
  - rewrite Hn. unfold sample_mnist. cbn [raw_target].
    rewrite skipn_repeat_app. reflexivity.
  - unfold sample_mnist in Hte. cbn [raw_data] in Hte.
    rewrite skipn_repeat_app in Hte. exact Hte.
  - rewrite Hyte. unfold sample_mnist. cbn [raw_target].
    apply skipn_repeat_app.
  - exact Hu.
Defined.


(** ** Running the monad *)

Section MonadFacts.

Context {W : Type}.
Implicit Types s : state W.

Lemma bind_assoc (A B C : Type) (m : M W A) (f : A -> M W B) (g : B -> M W C) s :
  bind (bind m f) g s = bind m (fun x => bind (f x) g) s.
Proof. unfold bind. destruct (m s) as [[x|e] s1]; reflexivity. Qed.

Lemma bind_ret (A B : Type) (x : A) (k : A -> M W B) s :
  bind (ret x) k s = k x s.
Proof. reflexivity. Qed.

Lemma bind_emit (B : Type) (e : event) (k : unit -> M W B) s :
  bind (emit e) k s = k tt (log e s).
Proof. reflexivity. Qed.

Lemma bind_get (B : Type) (k : state W -> M W B) s :
  bind get k s = k s s.
Proof. reflexivity. Qed.

Lemma bind_lift_Ok (A B : Type) (x : A) (k : A -> M W B) s :
  bind (lift (Ok x)) k s = k x s.
Proof. reflexivity. Qed.

Lemma bind_lift_Raise (A B : Type) (e : exn) (k : A -> M W B) s :
  bind (lift (Raise e)) k s = (Raise e, s).
Proof. reflexivity. Qed.

Lemma bind_assign_sum_loss (B : Type) v (k : unit -> M W B) s :
  bind (assign_sum_loss v) k s = k tt (set_sum_loss v s).
Proof. reflexivity. Qed.

Lemma bind_assign_sum_mean_squared_error (B : Type) v (k : unit -> M W B) s :
  bind (assign_sum_mean_squared_error v) k s
  = k tt (set_sum_mean_squared_error v s).
Proof. reflexivity. Qed.

Lemma bind_call (B : Type) (f : W -> result W) (k : unit -> M W B) s :
  bind (call f) k s =
  match f (world s) with
  | Ok w => k tt (set_world w s)
  | Raise e => (Raise e, s)
  end.
Proof. unfold bind, call. destruct (f (world s)); reflexivity. Qed.

Lemma bind_call_val (A B : Type) (f : W -> result (A * W)) (k : A -> M W B) s :
  bind (call_val f) k s =
  match f (world s) with
  | Ok (x, w) => k x (set_world w s)
  | Raise e => (Raise e, s)
  end.
Proof. unfold bind, call_val. destruct (f (world s)) as [[x w]|e]; reflexivity. Qed.

Lemma bind_Ok_inv (A B : Type) (m : M W A) (k : A -> M W B) s (y : B) s' :
  bind m k s = (Ok y, s') ->
  exists x s1, m s = (Ok x, s1) /\ k x s1 = (Ok y, s').
Proof.
  unfold bind. destruct (m s) as [[x|e] s1]; intros H.
  - exists x, s1. split; [reflexivity|assumption].
  - discriminate.
Qed.

Lemma bind_clock (bk : Backend W) (B : Type) (k : pynum -> M W B) s :
  bind (clock bk) k s =
  k (PyFloat (fst (time_time bk (world s))))
    (set_world (snd (time_time bk (world s))) (log EvTime s)).
Proof.
  unfold clock. rewrite bind_assoc, bind_emit, bind_assoc, bind_call_val.
  cbn [world log]. destruct (time_time bk (world s)) as [v w]. reflexivity.
Qed.

(** *** What a computation may log *)

Section Emits.

Variable P : event -> Prop.

Lemma emits_ret (A : Type) (x : A) : emits P (ret (W:=W) x).
Proof. intros s. exists []. simpl. rewrite app_nil_r. auto. Qed.

Lemma emits_lift (A : Type) (r : result A) : emits P (lift (W:=W) r).
Proof. intros s. exists []. simpl. rewrite app_nil_r. auto. Qed.

Lemma emits_get : emits P (get (W:=W)).
Proof. intros s. exists []. simpl. rewrite app_nil_r. auto. Qed.

Lemma emits_emit (e : event) : P e -> emits P (emit (W:=W) e).
Proof. intros H s. exists [e]. simpl. auto. Qed.

Lemma emits_assign_sum_loss v : emits P (assign_sum_loss (W:=W) v).
Proof. intros s. exists []. simpl. rewrite app_nil_r. auto. Qed.

Lemma emits_assign_sum_mean_squared_error v :
  emits P (assign_sum_mean_squared_error (W:=W) v).
Proof. intros s. exists []. simpl. rewrite app_nil_r. auto. Qed.

Lemma emits_call (f : W -> result W) : emits P (call f).
Proof.
  intros s. exists []. unfold call.
  destruct (f (world s)); simpl; rewrite app_nil_r; auto.
Qed.

Lemma emits_call_val (A : Type) (f : W -> result (A * W)) :
  emits P (call_val f).
Proof.
  intros s. exists []. unfold call_val.
  destruct (f (world s)) as [[x w]|e]; simpl; rewrite app_nil_r; auto.
Qed.

Lemma emits_bind (A B : Type) (m : M W A) (k : A -> M W B) :
  emits P m -> (forall x, emits P (k x)) -> emits P (bind m k).
Proof.
  intros Hm Hk s. unfold bind.
  destruct (Hm s) as (evs1 & E1 & F1).
  destruct (m s) as [[x|e] s1]; simpl in E1.
  - destruct (Hk x s1) as (evs2 & E2 & F2).
    exists (evs1 ++ evs2). rewrite E2, E1, app_assoc. split; [reflexivity|].
    apply Forall_app; auto.
  - exists evs1. simpl. auto.
Qed.

(** When the first step is a pure value, only the continuation at that
    value matters. *)
Lemma emits_bind_lift (A B : Type) (r : result A) (k : A -> M W B) :
  (forall x, r = Ok x -> emits P (k x)) -> emits P (bind (lift r) k).
Proof.
  intros Hk s. destruct r as [x|e].
  - rewrite bind_lift_Ok. apply Hk. reflexivity.
  - rewrite bind_lift_Raise. exists []. simpl. rewrite app_nil_r. auto.
Qed.

Lemma emits_for_each (A : Type) (l : list A) (body : A -> M W unit) :
  (forall x, In x l -> emits P (body x)) -> emits P (for_each l body).
Proof.
  induction l as [|x l IH]; intros H; simpl.
  - apply emits_ret.
  - apply emits_bind.
    + apply H. now left.
    + intros _. apply IH. intros y Hy. apply H. now right.
Qed.

Lemma emits_if (A : Type) (c : bool) (m1 m2 : M W A) :
  emits P m1 -> emits P m2 -> emits P (if c then m1 else m2).
Proof. destruct c; auto. Qed.

Lemma emits_clock (bk : Backend W) : P EvTime -> emits P (clock bk).
Proof.
  intros H. unfold clock.
  apply emits_bind; [now apply emits_emit|intros _].
  apply emits_bind; [apply emits_call_val|intros v; apply emits_ret].
Qed.

End Emits.

Lemma emits_weaken (A : Type) (P Q : event -> Prop) (m : M W A) :
  (forall e, P e -> Q e) -> emits P m -> emits Q m.
Proof.
  intros HPQ H s. destruct (H s) as (evs & E & F).
  exists evs. split; [assumption|].
  eapply Forall_impl; eauto.
Qed.

End MonadFacts.

Create HintDb emits.
#[export] Hint Resolve emits_ret emits_lift emits_get emits_emit
  emits_assign_sum_loss emits_assign_sum_mean_squared_error emits_call
  emits_call_val emits_clock emits_if : emits.

(** Solves [emits P m] for a straight-line [m] whose logged events satisfy
    [P] by computation. *)
Ltac emits_steps :=
  repeat first
    [ apply emits_bind; [|intros ?]
    | apply emits_if
    | apply emits_clock
    | apply emits_emit
    | apply emits_ret | apply emits_lift | apply emits_get
    | apply emits_assign_sum_loss | apply emits_assign_sum_mean_squared_error
    | apply emits_call | apply emits_call_val
    | reflexivity | exact I | solve [repeat split; reflexivity] ].

(** ** The minibatch loops *)

Ltac msimpl H :=
  cbn [world sum_loss sum_mean_squared_error trace log set_world
       set_sum_loss set_sum_mean_squared_error] in H.

(** One step of symbolic execution of a hypothesis [H : m s = (r, s')]. *)
Ltac mstep_pure H :=
  msimpl H;
  lazymatch type of H with
  | bind (bind _ _) _ _ = _ => rewrite bind_assoc in H
  | bind (ret _) _ _ = _ => rewrite bind_ret in H
  | bind (emit _) _ _ = _ => rewrite bind_emit in H
  | bind get _ _ = _ => rewrite bind_get in H
  | bind (assign_sum_loss _) _ _ = _ => rewrite bind_assign_sum_loss in H
  | bind (assign_sum_mean_squared_error _) _ _ = _ =>
      rewrite bind_assign_sum_mean_squared_error in H
  | bind (clock _) _ _ = _ => rewrite bind_clock in H
  end.

(** A pure value that may be an exception: [x] names the value. *)
Ltac mstep_lift H x :=
  msimpl H;
  lazymatch type of H with
  | bind (lift ?r) _ _ = _ =>
      let E := fresh "E" in
      destruct r as [x|?] eqn:E;
      [rewrite bind_lift_Ok in H | rewrite bind_lift_Raise in H]
  end.

(** A collaborator call: [w] names the world it returns. *)
Ltac mstep_call H w :=
  msimpl H;
  lazymatch type of H with
  | bind (call ?f) _ ?s = _ =>
      let E := fresh "E" in
      rewrite bind_call in H; msimpl H;
      lazymatch type of H with
      | match ?c with _ => _ end = _ => destruct c as [w|?] eqn:E
      end
  end.

Ltac mstep_call_val H x w :=
  msimpl H;
  lazymatch type of H with
  | bind (call_val ?f) _ ?s = _ =>
      let E := fresh "E" in
      rewrite bind_call_val in H; msimpl H;
      lazymatch type of H with
      | match ?c with _ => _ end = _ => destruct c as [[x w]|?] eqn:E
      end
  end.

Ltac mstep_if H :=
  msimpl H;
  lazymatch type of H with
  | bind (if ?c then _ else _) _ _ = _ =>
      let E := fresh "E" in destruct c eqn:E
  end.

Section Loops.

Variable W : Type.
Variable bk : Backend W.
Variable N : Z.
Variable a : args.
Variable ds : dataset.

Lemma take_length (A : Type) (l : list A) (idx : list Z) (rs : list A) :
  Py.take l idx = Ok rs -> length rs = length idx.
Proof.
  revert rs. induction idx as [|k idx IH]; intros rs H; simpl in H.
  - injection H as <-. reflexivity.
  - destruct (Py.item l k); [|discriminate].
    destruct (Py.take l idx); [|discriminate].
    injection H as <-. simpl. f_equal. now apply IH.
Qed.

Lemma history_complete (A : Type) (body : A -> M W unit) (l : list A) s s' :
  for_each l body s = (Ok tt, s') ->
  map (fun h => fst (fst h)) (history l body s) = l.
Proof.
  revert s. induction l as [|x l IH]; intros s H; simpl in *.
  - reflexivity.
  - apply bind_Ok_inv in H. destruct H as ([] & s1 & Hb & Hl).
    rewrite Hb. simpl. f_equal. eauto.
Qed.

(** The accumulators after a loop, from what each iteration adds. *)
Lemma for_each_observed (A : Type) (body : A -> M W unit)
      (R : A -> state W -> state W -> observation -> Prop) :
  (forall x pre post, body x pre = (Ok tt, post) ->
     exists o, R x pre post o /\
       sum_loss post =
         py_add (sum_loss pre) (py_mul (PyFloat (obs_loss o)) (PyInt (obs_size o))) /\
       sum_mean_squared_error post =
         py_add (sum_mean_squared_error pre)
                (py_mul (PyFloat (obs_mse o)) (PyInt (obs_size o)))) ->
  forall l s s', for_each l body s = (Ok tt, s') ->
  exists obs,
    Forall2 (fun h o => R (fst (fst h)) (snd (fst h)) (snd h) o)
            (history l body s) obs /\
    sum_loss s' =
      fold_left (fun acc o => py_add acc (py_mul (PyFloat (fst o)) (PyInt (snd o))))
                (loss_terms obs) (sum_loss s) /\
    sum_mean_squared_error s' =
      fold_left (fun acc o => py_add acc (py_mul (PyFloat (fst o)) (PyInt (snd o))))
                (mse_terms obs) (sum_mean_squared_error s).
Proof.
  intros Hbody l. induction l as [|x l IH]; intros s s' H; simpl in H.
  - injection H as <-. exists []. simpl. repeat split. constructor.
  - apply bind_Ok_inv in H. destruct H as ([] & s1 & Hb & Hl).
    destruct (Hbody _ _ _ Hb) as (o & HR & HL & HM).
    destruct (IH _ _ Hl) as (obs & HF & HL' & HM').
    exists (o :: obs). simpl. rewrite Hb. repeat split.
    + constructor; assumption.
    + now rewrite HL', HL.
    + now rewrite HM', HM.
Qed.

(** The projection of the log after a loop, from what each iteration
    logs. *)
Lemma for_each_logged (A X : Type) (f : event -> list X)
      (body : A -> M W unit) (R : A -> X -> Prop) :
  (forall x pre post, body x pre = (Ok tt, post) ->
     exists y, R x y /\
       flat_map f (trace post) = flat_map f (trace pre) ++ [y]) ->
  forall l s s', for_each l body s = (Ok tt, s') ->
  exists ys, Forall2 R l ys /\
    flat_map f (trace s') = flat_map f (trace s) ++ ys.
Proof.
  intros Hbody l. induction l as [|x l IH]; intros s s' H; simpl in H.
  - injection H as <-. exists []. rewrite app_nil_r. split; constructor.
  - apply bind_Ok_inv in H. destruct H as ([] & s1 & Hb & Hl).
    destruct (Hbody _ _ _ Hb) as (y & HR & HT).
    destruct (IH _ _ Hl) as (ys & HF & HT').
    exists (y :: ys). split; [constructor; assumption|].
    rewrite HT', HT, <- app_assoc. reflexivity.
Qed.

(** *** One training minibatch *)

Lemma train_batch_Ok (epoch : Z) (perm : list Z) (i : Z) s s' :
  train_batch bk a ds epoch perm i s = (Ok tt, s') ->
  exists x t w,
    Py.take (x_train ds) (Py.slice perm i (i + batchsize a)) = Ok x /\
    Py.take (y_train ds) (Py.slice perm i (i + batchsize a)) = Ok t /\
    optimizer_update bk x t (world s) = Ok w /\
    sum_loss s' =
      py_add (sum_loss s)
             (py_mul (PyFloat (model_loss bk (world s'))) (PyInt (Py.len t))) /\
    sum_mean_squared_error s' =
      py_add (sum_mean_squared_error s)
             (py_mul (PyFloat (model_mean_squared_error bk (world s')))
                     (PyInt (Py.len t))) /\
    updates_of (trace s') = updates_of (trace s) ++ [(x, t)].
Proof.
  unfold train_batch. intros H.
  mstep_lift H x; [|discriminate].
  mstep_lift H t; [|discriminate].
  mstep_pure H. mstep_call H w; [|discriminate].
  exists x, t, w.
  mstep_if H.
  - do 3 mstep_pure H. mstep_call H w'; [|discriminate].
    repeat mstep_pure H. msimpl H.
    unfold assign_sum_mean_squared_error in H. injection H as <-.
    cbn. unfold updates_of. rewrite !flat_map_app. cbn. rewrite ?app_nil_r.
    repeat split; auto.
  - repeat mstep_pure H. msimpl H.
    unfold assign_sum_mean_squared_error in H. injection H as <-.
    cbn. unfold updates_of. rewrite !flat_map_app. cbn. rewrite ?app_nil_r.
    repeat split; auto.
Qed.

(** *** One evaluation minibatch *)

Lemma eval_batch_Ok (i : Z) s s' :
  eval_batch bk a ds i s = (Ok tt, s') ->
  let x := Py.slice (x_test ds) i (i + batchsize a) in
  let t := Py.slice (y_test ds) i (i + batchsize a) in
  exists v w,
    model_call bk true x t (world s) = Ok (v, w) /\
    sum_loss s' =
      py_add (sum_loss s) (py_mul (PyFloat v) (PyInt (Py.len t))) /\
    sum_mean_squared_error s' =
      py_add (sum_mean_squared_error s)
             (py_mul (PyFloat (model_mean_squared_error bk w))
                     (PyInt (Py.len t))) /\
    forwards_of (trace s') = forwards_of (trace s) ++ [(true, x, t)] /\
    Forall (fun e => is_update e = false)
           (skipn (length (trace s)) (trace s')).
Proof.
  intros H x t. unfold eval_batch in H. fold x in H. fold t in H.
  mstep_pure H. mstep_call_val H v w; [|discriminate].
  exists v, w.
  repeat mstep_pure H. msimpl H.
  destruct (SAVE_IMAGES && (i =? 0)).
  - mstep_pure H. unfold call in H. msimpl H.
    destruct (visualize bk i x w) as [w'|]; [|discriminate].
    injection H as <-.
    cbn. unfold forwards_of. rewrite !flat_map_app. cbn. rewrite ?app_nil_r.
    rewrite <- app_assoc, skipn_app, Nat.sub_diag, skipn_all. cbn.
    repeat split; auto.
  - msimpl H. injection H as <-.
    cbn. unfold forwards_of. rewrite !flat_map_app. cbn. rewrite ?app_nil_r.
    rewrite skipn_app, Nat.sub_diag, skipn_all. cbn.
    repeat split; auto.
Qed.

End Loops.

(** ** The two phases of an epoch *)

Section Phases.

Variable W : Type.
Variable bk : Backend W.
Variable N : Z.
Variable a : args.
Variable ds : dataset.

(** A training phase that completes: the loop ran over the whole range
    from [training_entry], and the report divides the accumulators the
    loop left. *)
Lemma training_Ok (epoch : Z) s s' :
  training bk N a ds epoch s = (Ok tt, s') ->
  let perm := fst (random_permutation bk N (world s)) in
  exists starts s1 L Mse thr,
    Py.range 0 N (batchsize a) = Ok starts /\
    for_each starts (train_batch bk a ds epoch perm) (training_entry bk N s)
      = (Ok tt, s1) /\
    py_div (sum_loss s1) (PyInt N) = Ok L /\
    py_div (sum_mean_squared_error s1) (PyInt N) = Ok Mse /\
    s' = log (EvPrint (MsgTrain L Mse thr))
             (set_world (snd (time_time bk (world s1))) (log EvTime s1)).
Proof.
  intros H perm. unfold training in H.
  mstep_pure H. rewrite bind_call_val in H. msimpl H.
  destruct (random_permutation bk N (world s)) as [p w0] eqn:Ep.
  subst perm. cbn [fst].
  do 3 mstep_pure H.
  mstep_lift H starts; [|discriminate].
  exists starts. msimpl H.
  match type of H with
  | bind (for_each _ _) _ ?s0 = _ =>
      replace s0 with (training_entry bk N s) in H
        by (unfold training_entry; rewrite Ep; reflexivity)
  end.
  apply bind_Ok_inv in H. destruct H as ([] & s1 & Hloop & H).
  exists s1.
  mstep_pure H. mstep_lift H thr; [|discriminate].
  mstep_pure H. mstep_lift H L; [|discriminate].
  mstep_lift H Mse; [|discriminate].
  exists L, Mse, thr. msimpl H. injection H as <-.
  repeat split; assumption.
Qed.

(** An evaluation phase that completes. *)
Lemma evaluation_Ok s s' :
  evaluation bk a ds s = (Ok tt, s') ->
  exists w starts s1 L Mse,
    plot_setup bk (world s) = Ok w /\
    Py.range 0 (N_test ds) (batchsize a) = Ok starts /\
    for_each starts (eval_batch bk a ds) (evaluation_entry w s) = (Ok tt, s1) /\
    py_div (sum_loss s1) (PyInt (N_test ds)) = Ok L /\
    py_div (sum_mean_squared_error s1) (PyInt (N_test ds)) = Ok Mse /\
    s' = log (EvPrint (MsgTest L Mse)) s1.
Proof.
  intros H. unfold evaluation in H.
  do 2 mstep_pure H. change SAVE_IMAGES with true in H. cbv iota in H.
  do 2 mstep_pure H. mstep_call H w; [|discriminate].
  exists w.
  mstep_lift H starts; [|discriminate].
  exists starts. msimpl H.
  apply bind_Ok_inv in H. destruct H as ([] & s1 & Hloop & H).
  exists s1.
  mstep_pure H. mstep_lift H L; [|discriminate].
  mstep_lift H Mse; [|discriminate].
  exists L, Mse. msimpl H. injection H as <-.
  repeat split; assumption.
Qed.

Lemma train_batch_observed (epoch : Z) (perm : list Z) (i : Z) pre post :
  train_batch bk a ds epoch perm i pre = (Ok tt, post) ->
  exists o, train_observed bk a ds perm i pre post o /\
    sum_loss post =
      py_add (sum_loss pre)
             (py_mul (PyFloat (obs_loss o)) (PyInt (obs_size o))) /\
    sum_mean_squared_error post =
      py_add (sum_mean_squared_error pre)
             (py_mul (PyFloat (obs_mse o)) (PyInt (obs_size o))).
Proof.
  intros H. apply train_batch_Ok in H.
  destruct H as (x & t & w & Hx & Ht & _ & HL & HM & _).
  exists {| obs_loss := model_loss bk (world post);
            obs_mse := model_mean_squared_error bk (world post);
            obs_size := Py.len t |}.
  unfold train_observed. cbn [obs_loss obs_mse obs_size].
  repeat split; try assumption.
  exists t. split; [assumption|reflexivity].
Qed.

Lemma eval_batch_observed (i : Z) pre post :
  eval_batch bk a ds i pre = (Ok tt, post) ->
  exists o, eval_observed bk a ds i pre post o /\
    sum_loss post =
      py_add (sum_loss pre)
             (py_mul (PyFloat (obs_loss o)) (PyInt (obs_size o))) /\
    sum_mean_squared_error post =
      py_add (sum_mean_squared_error pre)
             (py_mul (PyFloat (obs_mse o)) (PyInt (obs_size o))).
Proof.
  intros H. apply eval_batch_Ok in H. cbv zeta in H.
  destruct H as (v & w & Hc & HL & HM & _).
  exists {| obs_loss := v;
            obs_mse := model_mean_squared_error bk w;
            obs_size := Py.len (Py.slice (y_test ds) i (i + batchsize a)) |}.
  unfold eval_observed. cbn [obs_loss obs_mse obs_size].
  repeat split; try assumption.
  exists w. split; [assumption|reflexivity].
Qed.

End Phases.

(** C1.  The means an epoch reports are batch-size-weighted averages.  When
    the training phase completes, its report line carries the weighted
    mean of the per-minibatch losses and the weighted mean of the
    per-minibatch reconstruction errors: each is the sum, from zero and in
    minibatch order, of (value read after the minibatch x number of labels
    in the minibatch), divided by [N].  There is one observation per
    minibatch of the range.  The evaluation phase reports the same way,
    with the values of the forward passes and the divisor [N_test]. *)
Theorem epoch_means (W : Type) (bk : Backend W) (N : Z) (a : args)
                    (ds : dataset) :
  (forall epoch s s',
     training bk N a ds epoch s = (Ok tt, s') ->
     let perm := fst (random_permutation bk N (world s)) in
     exists starts obs L Mse thr,
       Py.range 0 N (batchsize a) = Ok starts /\
       map (fun h => fst (fst h))
           (history starts (train_batch bk a ds epoch perm)
                    (training_entry bk N s)) = starts /\
       Forall2 (fun h o =>
                  train_observed bk a ds perm (fst (fst h)) (snd (fst h))
                                 (snd h) o)
               (history starts (train_batch bk a ds epoch perm)
                        (training_entry bk N s)) obs /\
       weighted_mean (loss_terms obs) N = Ok L /\
       weighted_mean (mse_terms obs) N = Ok Mse /\
       last (trace s') EvTime = EvPrint (MsgTrain L Mse thr)) /\
  (forall s s',
     evaluation bk a ds s = (Ok tt, s') ->
     exists w starts obs L Mse,
       plot_setup bk (world s) = Ok w /\
       Py.range 0 (N_test ds) (batchsize a) = Ok starts /\
       map (fun h => fst (fst h))
           (history starts (eval_batch bk a ds) (evaluation_entry w s))
         = starts /\
       Forall2 (fun h o =>
                  eval_observed bk a ds (fst (fst h)) (snd (fst h)) (snd h) o)
               (history starts (eval_batch bk a ds) (evaluation_entry w s))
               obs /\
       weighted_mean (loss_terms obs) (N_test ds) = Ok L /\
       weighted_mean (mse_terms obs) (N_test ds) = Ok Mse /\
       last (trace s') EvTime = EvPrint (MsgTest L Mse)).
Proof.
  split.
  - intros epoch s s' H perm.
    apply training_Ok in H. cbv zeta in H. fold perm in H.
    destruct H as (starts & s1 & L & Mse & thr & Hr & Hloop & HL & HM & ->).
    destruct (for_each_observed _ (train_observed bk a ds perm)
                (@train_batch_observed _ bk a ds epoch perm) _ _ Hloop)
      as (obs & HF & HsL & HsM).
    exists starts, obs, L, Mse, thr.
    split; [assumption|]. split; [eapply history_complete; eassumption|].
    split; [assumption|].
    unfold weighted_mean, weighted_sum.
    rewrite HsL in HL. rewrite HsM in HM.
    repeat split; try assumption.
    cbn [trace log set_world]. apply last_last.
  - intros s s' H.
    apply evaluation_Ok in H.
    destruct H as (w & starts & s1 & L & Mse & Hp & Hr & Hloop & HL & HM & ->).
    destruct (for_each_observed _ (eval_observed bk a ds)
                (@eval_batch_observed _ bk a ds) _ _ Hloop)
      as (obs & HF & HsL & HsM).
    exists w, starts, obs, L, Mse.
    split; [assumption|]. split; [assumption|].
    split; [eapply history_complete; eassumption|].
    split; [assumption|].
    unfold weighted_mean, weighted_sum.
    rewrite HsL in HL. rewrite HsM in HM.
    repeat split; try assumption.
    cbn [trace log]. apply last_last.
Qed.

(** ** One epoch is one pass over the training set *)

Section TakeFacts.

Context {A : Type}.
Implicit Types l : list A.

Lemma take_app l (i1 i2 : list Z) (r1 r2 : list A) :
  Py.take l i1 = Ok r1 -> Py.take l i2 = Ok r2 ->
  Py.take l (i1 ++ i2) = Ok (r1 ++ r2).
Proof.
  revert r1. induction i1 as [|k i1 IH]; intros r1 H1 H2; simpl in *.
  - injection H1 as <-. assumption.
  - destruct (Py.item l k); [|discriminate].
    destruct (Py.take l i1) as [r|]; [|discriminate].
    injection H1 as <-. now rewrite (IH r eq_refl H2).
Qed.

Lemma take_concat l (idx : list (list Z)) (rs : list (list A)) :
  Forall2 (fun ix r => Py.take l ix = Ok r) idx rs ->
  Py.take l (concat idx) = Ok (concat rs).
Proof.
  induction 1 as [|ix r idx rs H _ IH]; simpl.
  - reflexivity.
  - now apply take_app.
Qed.

Lemma take_nth l (d : A) (idx : list Z) (rs : list A) :
  Forall (fun k => 0 <= k) idx ->
  Py.take l idx = Ok rs ->
  rs = map (fun k => nth (Z.to_nat k) l d) idx.
Proof.
  intros Hpos. revert rs.
  induction Hpos as [|k idx Hk _ IH]; intros rs H; simpl in H.
  - injection H as <-. reflexivity.
  - unfold Py.item in H.
    destruct ((k <? - Z.of_nat (length l)) || (Z.of_nat (length l) <=? k));
      [discriminate|].
    destruct (k <? 0) eqn:E; [apply Z.ltb_lt in E; lia|].
    destruct (nth_error l (Z.to_nat k)) as [x|] eqn:En; [|discriminate].
    destruct (Py.take l idx) as [r|]; [|discriminate].
    injection H as <-. simpl. f_equal.
    + symmetry. now apply nth_error_nth.
    + now apply IH.
Qed.

Lemma map_nth_seq l (d : A) :
  map (fun k => nth k l d) (seq 0 (length l)) = l.
Proof.
  induction l as [|x l IH]; simpl.
  - reflexivity.
  - f_equal. rewrite <- seq_shift, map_map. exact IH.
Qed.

(** Indexing by a permutation of all the positions of [l] gives the
    elements of [l], each once. *)
Lemma take_permutation l (idx : list Z) (rs : list A) :
  Permutation idx (Py.arange (Py.len l)) ->
  Py.take l idx = Ok rs ->
  Permutation rs l.
Proof.
  intros Hp H.
  destruct l as [|d l'] eqn:El.
  - apply Permutation_sym, Permutation_nil in Hp. subst idx.
    injection H as <-. constructor.
  - rewrite <- El in *.
    assert (Hpos : Forall (fun k => 0 <= k) idx).
    { apply Forall_forall. intros k Hk.
      apply (Permutation_in _ Hp) in Hk. unfold Py.arange in Hk.
      apply in_map_iff in Hk. destruct Hk as (n & <- & _). lia. }
    rewrite (take_nth l d Hpos H).
    assert (E : map (fun k => nth (Z.to_nat k) l d) (Py.arange (Py.len l)) = l).
    { unfold Py.arange, Py.len. rewrite map_map, Nat2Z.id.
      erewrite map_ext; [apply (map_nth_seq l d)|].
      intros n. cbv beta. now rewrite Nat2Z.id. }
    eapply Permutation_trans; [apply Permutation_map, Hp|].
    rewrite E. apply Permutation_refl.
Qed.

End TakeFacts.

Section OnePass.

Variable W : Type.
Variable bk : Backend W.
Variable N : Z.
Variable a : args.
Variable ds : dataset.

Let no_update (e : event) : Prop := is_update e = false.

Lemma eval_batch_no_update (i : Z) : emits no_update (eval_batch bk a ds i).
Proof. unfold eval_batch. emits_steps. Qed.

Lemma evaluation_no_update : emits no_update (evaluation bk a ds).
Proof.
  unfold evaluation.
  do 4 (apply emits_bind; [emits_steps|intros ?]).
  apply emits_bind; [|intros ?; emits_steps].
  apply emits_for_each. intros i _. apply eval_batch_no_update.
Qed.

Lemma train_batch_logs (epoch : Z) (perm : list Z) (i : Z) :
  emits (fun _ => True) (train_batch bk a ds epoch perm i).
Proof. unfold train_batch. emits_steps. Qed.

(** The minibatches a completed training phase hands to the optimizer:
    one per start index, the rows and the labels at the permuted indices
    of its slice. *)
Lemma training_updates (epoch : Z) s s' :
  training bk N a ds epoch s = (Ok tt, s') ->
  let perm := fst (random_permutation bk N (world s)) in
  exists starts tr ups,
    Py.range 0 N (batchsize a) = Ok starts /\
    trace s' = trace s ++ EvPermutation N :: tr /\
    updates_of tr = ups /\
    Forall2 (fun i xt =>
               Py.take (x_train ds) (Py.slice perm i (i + batchsize a))
                 = Ok (fst xt) /\
               Py.take (y_train ds) (Py.slice perm i (i + batchsize a))
                 = Ok (snd xt))
            starts ups.
Proof.
  intros H perm. apply training_Ok in H. cbv zeta in H. fold perm in H.
  destruct H as (starts & s1 & L & Mse & thr & Hr & Hloop & _ & _ & ->).
  assert (Hbody : forall i pre post,
             train_batch bk a ds epoch perm i pre = (Ok tt, post) ->
             exists xt : list row * list label,
               (Py.take (x_train ds) (Py.slice perm i (i + batchsize a))
                  = Ok (fst xt) /\
                Py.take (y_train ds) (Py.slice perm i (i + batchsize a))
                  = Ok (snd xt)) /\
               updates_of (trace post) = updates_of (trace pre) ++ [xt]).
  { intros i pre post Hb. apply train_batch_Ok in Hb.
    destruct Hb as (x & t & w & Hx & Ht & _ & _ & _ & Hu).
    exists (x, t). split; [split; assumption|exact Hu]. }
  destruct (@for_each_logged W Z _ _ _ _ Hbody _ _ _ Hloop)
    as (ups & HF & Hups).
  destruct (emits_for_each (P:=fun _ => True) starts
              (train_batch bk a ds epoch perm)
              (fun i _ => train_batch_logs epoch perm i)
              (training_entry bk N s)) as (evs & Hevs & _).
  rewrite Hloop in Hevs. cbn [snd] in Hevs.
  exists starts,
    ([EvTime] ++ evs ++ [EvTime; EvPrint (MsgTrain L Mse thr)]), ups.
  split; [assumption|]. split; [|split; [|assumption]].
  - cbn [trace log set_world]. rewrite Hevs.
    unfold training_entry. cbn [trace log set_world set_sum_loss
      set_sum_mean_squared_error].
    rewrite <- !app_assoc. reflexivity.
  - fold (updates_of (trace s1)) in Hups.
    rewrite Hevs in Hups. unfold updates_of in *.
    rewrite !flat_map_app in Hups. rewrite !flat_map_app.
    unfold training_entry in Hups.
    cbn [trace log set_world set_sum_loss set_sum_mean_squared_error] in Hups.
    rewrite !flat_map_app in Hups. cbn in Hups. cbn.
    rewrite !app_nil_r in *.
    apply app_inv_head in Hups. exact Hups.
Qed.

End OnePass.

Lemma updates_of_none (tr : list event) :
  Forall (fun e => is_update e = false) tr -> updates_of tr = [].
Proof.
  induction 1 as [|e tr He _ IH]; [reflexivity|].
  unfold updates_of in *. simpl. rewrite IH.
  destruct e; try reflexivity; discriminate.
Qed.

Lemma one_epoch_Ok (W : Type) (bk : Backend W) (N : Z) (a : args)
      (ds : dataset) (epoch : Z) (s s' : state W) :
  one_epoch bk N a ds epoch s = (Ok tt, s') ->
  exists s1,
    training bk N a ds epoch (log (EvPrint (MsgEpoch epoch)) s) = (Ok tt, s1) /\
    evaluation bk a ds s1 = (Ok tt, s').
Proof.
  unfold one_epoch. intros H. rewrite bind_emit in H.
  apply bind_Ok_inv in H. destruct H as ([] & s1 & H1 & H2).
  exists s1. split; assumption.
Qed.

(** C4.  Every epoch starts by drawing a permutation of the [N] training
    indices, and hands each training sample to the optimizer in exactly one
    minibatch: for a positive batch size and a training set of [N] rows,
    the index slices of the minibatches put end to end are the permutation,
    each minibatch holds the rows and labels at its slice, and the rows
    (and the labels) of all the minibatches of the epoch are a permutation
    of the training set.  The evaluation phase that closes the epoch hands
    nothing to the optimizer. *)
Theorem epoch_is_one_pass (W : Type) (bk : Backend W) (N : Z) (a : args)
        (ds : dataset) (epoch : Z) (s s' : state W) :
  0 < batchsize a ->
  Permutation (fst (random_permutation bk N (world s))) (Py.arange N) ->
  Py.len (x_train ds) = N ->
  Py.len (y_train ds) = N ->
  one_epoch bk N a ds epoch s = (Ok tt, s') ->
  exists tr idx,
    trace s' = trace s ++ EvPrint (MsgEpoch epoch) :: EvPermutation N :: tr /\
    batches (fst (random_permutation bk N (world s))) N (batchsize a) = Ok idx /\
    concat idx = fst (random_permutation bk N (world s)) /\
    Forall2 (fun ix xt => Py.take (x_train ds) ix = Ok (fst xt) /\
                          Py.take (y_train ds) ix = Ok (snd xt))
            idx (updates_of tr) /\
    Permutation (concat (map fst (updates_of tr))) (x_train ds) /\
    Permutation (concat (map snd (updates_of tr))) (y_train ds).
Proof.
  intros Hb Hperm Hx Hy H.
  set (perm := fst (random_permutation bk N (world s))) in *.
  apply one_epoch_Ok in H. destruct H as (s1 & Ht & He).
  apply training_updates in Ht. cbv zeta in Ht.
  cbn [world log] in Ht. fold perm in Ht.
  destruct Ht as (starts & tr1 & ups & Hr & Htr & Hups & HF).
  destruct (evaluation_no_update bk a ds s1) as (evs & Hevs & Hno).
  rewrite He in Hevs. cbn [snd] in Hevs.
  assert (Hlen : Py.len perm = N).
  { unfold Py.len. rewrite (Permutation_length Hperm).
    unfold Py.arange. rewrite length_map, length_seq.
    unfold Py.len in Hx. lia. }
  destruct (batches_concat perm Hb) as (idx & Hidx & Hcat).
  rewrite Hlen in Hidx.
  assert (Eidx : idx = map (fun i => Py.slice perm i (i + batchsize a)) starts).
  { unfold batches in Hidx. rewrite Hr in Hidx. now injection Hidx as <-. }
  assert (HF' : Forall2 (fun ix (xt : list row * list label) =>
                           Py.take (x_train ds) ix = Ok (fst xt) /\
                           Py.take (y_train ds) ix = Ok (snd xt)) idx ups).
  { rewrite Eidx. clear - HF.
    induction HF as [|i xt starts ups Hi _ IH]; simpl; constructor; assumption. }
  assert (Hu : updates_of (tr1 ++ evs) = ups).
  { unfold updates_of in *. rewrite flat_map_app, Hups.
    fold (updates_of evs). rewrite (updates_of_none Hno). apply app_nil_r. }
  exists (tr1 ++ evs), idx. rewrite Hu.
  split; [|split; [assumption|split; [assumption|split; [assumption|]]]].
  - rewrite Hevs, Htr. cbn [trace log]. rewrite <- !app_assoc. reflexivity.
  - split.
    + apply take_permutation with (idx := perm).
      * now rewrite Hx.
      * rewrite <- Hcat. apply take_concat.
        clear - HF'. induction HF' as [|ix xt idx ups [H1 _] _ IH]; simpl;
          constructor; assumption.
    + apply take_permutation with (idx := perm).
      * now rewrite Hy.
      * rewrite <- Hcat. apply take_concat.
        clear - HF'. induction HF' as [|ix xt idx ups [_ H2] _ IH]; simpl;
          constructor; assumption.
Qed.

(** ** The evaluation phase is read-only *)

Section Keeps.

Context {W : Type}.
Variable I : W -> Prop.

Lemma keeps_ret (A : Type) (x : A) : keeps I (ret (W:=W) x).
Proof. intros s H. exact H. Qed.

Lemma keeps_lift (A : Type) (r : result A) : keeps I (lift (W:=W) r).
Proof. intros s H. exact H. Qed.

Lemma keeps_get : keeps I (get (W:=W)).
Proof. intros s H. exact H. Qed.

Lemma keeps_emit (e : event) : keeps I (emit (W:=W) e).
Proof. intros s H. exact H. Qed.

Lemma keeps_assign_sum_loss v : keeps I (assign_sum_loss (W:=W) v).
Proof. intros s H. exact H. Qed.

Lemma keeps_assign_sum_mean_squared_error v :
  keeps I (assign_sum_mean_squared_error (W:=W) v).
Proof. intros s H. exact H. Qed.

Lemma keeps_call (f : W -> result W) :
  (forall w w', I w -> f w = Ok w' -> I w') -> keeps I (call f).
Proof.
  intros Hf s H. unfold call.
  destruct (f (world s)) as [w'|e] eqn:E; simpl; eauto.
Qed.

Lemma keeps_call_val (A : Type) (f : W -> result (A * W)) :
  (forall w x w', I w -> f w = Ok (x, w') -> I w') -> keeps I (call_val f).
Proof.
  intros Hf s H. unfold call_val.
  destruct (f (world s)) as [[x w']|e] eqn:E; simpl; eauto.
Qed.

Lemma keeps_bind (A B : Type) (m : M W A) (k : A -> M W B) :
  keeps I m -> (forall x, keeps I (k x)) -> keeps I (bind m k).
Proof.
  intros Hm Hk s H. unfold bind.
  specialize (Hm s H).
  destruct (m s) as [[x|e] s1]; simpl in Hm.
  - apply Hk. assumption.
  - assumption.
Qed.

Lemma keeps_for_each (A : Type) (l : list A) (body : A -> M W unit) :
  (forall x, keeps I (body x)) -> keeps I (for_each l body).
Proof.
  intros H. induction l as [|x l IH]; simpl.
  - apply keeps_ret.
  - apply keeps_bind; [apply H|intros _; exact IH].
Qed.

Lemma keeps_if (A : Type) (c : bool) (m1 m2 : M W A) :
  keeps I m1 -> keeps I m2 -> keeps I (if c then m1 else m2).
Proof. destruct c; auto. Qed.

End Keeps.

Ltac keeps_steps :=
  repeat first
    [ apply keeps_bind; [|intros ?]
    | apply keeps_if
    | apply keeps_emit
    | apply keeps_ret | apply keeps_lift | apply keeps_get
    | apply keeps_assign_sum_loss
    | apply keeps_assign_sum_mean_squared_error ].

Section Evaluation.

Variable W : Type.
Variable bk : Backend W.
Variable a : args.
Variable ds : dataset.

(** The forward passes of a completed evaluation loop: one per start
    index, on the slice of the test rows and of the test labels at that
    index, with volatile variables. *)
Lemma eval_loop_forwards (starts : list Z) s s' :
  for_each starts (eval_batch bk a ds) s = (Ok tt, s') ->
  forwards_of (trace s') =
  forwards_of (trace s) ++
  map (fun i => (true, Py.slice (x_test ds) i (i + batchsize a),
                       Py.slice (y_test ds) i (i + batchsize a))) starts.
Proof.
  revert s. induction starts as [|i starts IH]; intros s H; simpl in H.
  - injection H as <-. simpl. now rewrite app_nil_r.
  - apply bind_Ok_inv in H. destruct H as ([] & s1 & Hb & Hl).
    apply eval_batch_Ok in Hb. cbv zeta in Hb.
    destruct Hb as (v & w & _ & _ & _ & Hf & _).
    rewrite (IH _ Hl), Hf, <- app_assoc. reflexivity.
Qed.

(** A completed evaluation phase: what it logs, and its forward passes. *)
Lemma evaluation_forwards s s' :
  evaluation bk a ds s = (Ok tt, s') ->
  exists starts evs,
    Py.range 0 (N_test ds) (batchsize a) = Ok starts /\
    trace s' = trace s ++ evs /\
    Forall (fun e => is_update e = false) evs /\
    forwards_of evs =
    map (fun i => (true, Py.slice (x_test ds) i (i + batchsize a),
                         Py.slice (y_test ds) i (i + batchsize a))) starts.
Proof.
  intros H.
  destruct (evaluation_no_update bk a ds s) as (evs & Hevs & Hno).
  rewrite H in Hevs. cbn [snd] in Hevs.
  apply evaluation_Ok in H.
  destruct H as (w & starts & s1 & L & Mse & _ & Hr & Hloop & _ & _ & ->).
  exists starts, evs.
  split; [assumption|split; [assumption|split; [assumption|]]].
  apply eval_loop_forwards in Hloop.
  cbn [trace log] in Hevs.
  assert (E : forwards_of (trace s ++ evs)
              = forwards_of (trace s) ++ forwards_of evs)
    by apply flat_map_app.
  rewrite <- Hevs in E. unfold forwards_of at 1 in E.
  rewrite flat_map_app in E. cbn [flat_map app] in E.
  rewrite app_nil_r in E. fold (forwards_of (trace s1)) in E.
  rewrite Hloop in E.
  unfold evaluation_entry in E.
  cbn [trace log set_world set_sum_loss set_sum_mean_squared_error] in E.
  unfold forwards_of at 1 in E. rewrite flat_map_app in E.
  cbn [flat_map app] in E. rewrite app_nil_r in E.
  fold (forwards_of (trace s)) in E.
  apply app_inv_head in E. symmetry. exact E.
Qed.

End Evaluation.

(** C5.  The evaluation phase only reads the model.  It never calls the
    optimizer; whenever it completes, its forward passes are [model(x, t)]
    on volatile variables (no gradient bookkeeping) over the consecutive
    slices of the test rows and test labels, in order and without any
    permutation; and, the forward pass, the plot set-up and the image
    output leaving the network parameters and the optimizer state as they
    are, so does the whole phase, however it ends. *)
Theorem evaluation_read_only (W : Type) (bk : Backend W) (a : args)
        (ds : dataset) (P : Type) (parameters : W -> P)
        (s : state W) (r : result unit) (s' : state W) :
  (forall v x t w l w',
     model_call bk v x t w = Ok (l, w') -> parameters w' = parameters w) ->
  (forall w w', plot_setup bk w = Ok w' -> parameters w' = parameters w) ->
  (forall i x w w',
     visualize bk i x w = Ok w' -> parameters w' = parameters w) ->
  evaluation bk a ds s = (r, s') ->
  parameters (world s') = parameters (world s) /\
  exists evs,
    trace s' = trace s ++ evs /\
    Forall (fun e => is_update e = false) evs /\
    (r = Ok tt ->
     exists xs ts,
       batches (x_test ds) (N_test ds) (batchsize a) = Ok xs /\
       batches (y_test ds) (N_test ds) (batchsize a) = Ok ts /\
       forwards_of evs = map (fun xt => (true, fst xt, snd xt)) (combine xs ts)).
Proof.
  intros Hcall Hplot Hvis H.
  split; [|].
  - assert (K : keeps (fun w => parameters w = parameters (world s))
                      (evaluation bk a ds)).
    { unfold evaluation.
      do 2 (apply keeps_bind; [keeps_steps|intros ?]).
      apply keeps_bind.
      { apply keeps_if; [|apply keeps_ret].
        apply keeps_bind; [apply keeps_emit|intros _].
        apply keeps_call. intros w w' Hw E.
        now rewrite (Hplot _ _ E). }
      intros _.
      apply keeps_bind; [apply keeps_lift|intros starts].
      apply keeps_bind; [|intros ?; keeps_steps].
      apply keeps_for_each. intros i. unfold eval_batch.
      apply keeps_bind; [apply keeps_emit|intros _].
      apply keeps_bind.
      { apply keeps_call_val. intros w l w' Hw E.
        now rewrite (Hcall _ _ _ _ _ _ E). }
      intros l. do 4 (apply keeps_bind; [keeps_steps|intros ?]).
      apply keeps_if; [|apply keeps_ret].
      apply keeps_bind; [apply keeps_emit|intros _].
      apply keeps_call. intros w w' Hw E.
      now rewrite (Hvis _ _ _ _ E). }
    specialize (K s eq_refl). rewrite H in K. exact K.
  - destruct (evaluation_no_update bk a ds s) as (evs & Hevs & Hno).
    rewrite H in Hevs. cbn [snd] in Hevs.
    exists evs. split; [assumption|split; [assumption|]].
    intros ->. apply evaluation_forwards in H.
    destruct H as (starts & evs' & Hr & Hevs' & _ & Hf).
    rewrite Hevs in Hevs'. apply app_inv_head in Hevs'. subst evs'.
    unfold batches. rewrite Hr. do 2 eexists.
    split; [reflexivity|split; [reflexivity|]].
    rewrite Hf.
    clear. induction starts as [|i starts IH]; simpl; [reflexivity|].
    now rewrite IH.
Qed.

(** ** Batch sizes *)

(** C2.  With a positive batch size [b] that does not divide the number
    [n] of elements, the batches are [n / b] batches of [b] elements
    followed by one batch of [n mod b] elements, and put end to end they are
    the batched list itself: nothing is dropped and nothing is added.  This
    is so for the batches of any list, for the minibatches a completed
    training phase hands to the optimizer (slices of the permutation of the
    [N] training indices), and for the minibatches a completed evaluation
    phase runs the model on (slices of the test set, in its own order). *)
Theorem partial_final_batch (W : Type) (bk : Backend W) (N : Z) (a : args)
        (ds : dataset) :
  0 < batchsize a ->
  (forall (A : Type) (l : list A),
     Py.len l mod batchsize a <> 0 ->
     exists bs,
       batches l (Py.len l) (batchsize a) = Ok bs /\
       map Py.len bs =
         repeat (batchsize a) (Z.to_nat (Py.len l / batchsize a))
         ++ [Py.len l mod batchsize a] /\
       concat bs = l) /\
  (forall epoch s s',
     N mod batchsize a <> 0 ->
     Py.len (fst (random_permutation bk N (world s))) = N ->
     training bk N a ds epoch s = (Ok tt, s') ->
     exists tr,
       trace s' = trace s ++ tr /\
       map (fun xt => Py.len (fst xt)) (updates_of tr) =
         repeat (batchsize a) (Z.to_nat (N / batchsize a))
         ++ [N mod batchsize a] /\
       map (fun xt => Py.len (snd xt)) (updates_of tr) =
         repeat (batchsize a) (Z.to_nat (N / batchsize a))
         ++ [N mod batchsize a]) /\
  (forall s s',
     N_test ds mod batchsize a <> 0 ->
     Py.len (x_test ds) = N_test ds ->
     Py.len (y_test ds) = N_test ds ->
     evaluation bk a ds s = (Ok tt, s') ->
     exists tr,
       trace s' = trace s ++ tr /\
       map (fun vxt => Py.len (snd (fst vxt))) (forwards_of tr) =
         repeat (batchsize a) (Z.to_nat (N_test ds / batchsize a))
         ++ [N_test ds mod batchsize a] /\
       map (fun vxt => Py.len (snd vxt)) (forwards_of tr) =
         repeat (batchsize a) (Z.to_nat (N_test ds / batchsize a))
         ++ [N_test ds mod batchsize a] /\
       concat (map (fun vxt => snd (fst vxt)) (forwards_of tr)) = x_test ds /\
       concat (map (fun vxt => snd vxt) (forwards_of tr)) = y_test ds).
Proof.
  intros Hb. split; [|split].
  - intros A l Hr. now apply batches_partial.
  - intros epoch s s' Hr Hlen H.
    set (perm := fst (random_permutation bk N (world s))) in *.
    apply training_updates in H. cbv zeta in H. fold perm in H.
    destruct H as (starts & tr & ups & Hrange & Htr & Hups & HF).
    exists (EvPermutation N :: tr).
    split; [assumption|].
    change (updates_of (EvPermutation N :: tr)) with (updates_of tr).
    rewrite Hups.
    destruct (batches_partial perm Hb) as (bs & Hbs & Hsz & _).
    { now rewrite Hlen. }
    rewrite Hlen in Hbs, Hsz.
    unfold batches in Hbs. rewrite Hrange in Hbs. injection Hbs as <-.
    rewrite <- Hsz, map_map.
    clear - HF. split.
    + induction HF as [|i xt starts ups [Hx _] _ IH]; simpl; [reflexivity|].
      rewrite IH. f_equal. unfold Py.len. f_equal.
      now apply take_length in Hx.
    + induction HF as [|i xt starts ups [_ Ht] _ IH]; simpl; [reflexivity|].
      rewrite IH. f_equal. unfold Py.len. f_equal.
      now apply take_length in Ht.
  - intros s s' Hr Hx Hy H.
    apply evaluation_forwards in H.
    destruct H as (starts & evs & Hrange & Hevs & _ & Hf).
    exists evs. split; [assumption|].
    rewrite Hf, !map_map. cbn [fst snd].
    destruct (batches_partial (x_test ds) Hb) as (xs & Hxs & Hxsz & Hxcat).
    { now rewrite Hx. }
    destruct (batches_partial (y_test ds) Hb) as (ts & Hts & Htsz & Htcat).
    { now rewrite Hy. }
    rewrite Hx in Hxs, Hxsz. rewrite Hy in Hts, Htsz.
    unfold batches in Hxs, Hts. rewrite Hrange in Hxs, Hts.
    injection Hxs as <-. injection Hts as <-.
    rewrite map_map in Hxsz, Htsz.
    repeat split; assumption.
Qed.

(** Seven training images and two test images, in batches of three and of
    three: sizes 3, 3, 1 in the training phase. *)
Lemma partial_final_batch_witness :
  (exists bs,
     batches [10; 11; 12; 13; 14; 15; 16] 7 3 = Ok bs /\
     map Py.len bs = [3; 3; 1] /\
     concat bs = [10; 11; 12; 13; 14; 15; 16]) /\
  (exists tr,
     trace (snd (training Toy.backend 7 (Toy.cfg 1 3) Toy.ds7 1 Toy.s0))
       = trace Toy.s0 ++ tr /\
     map (fun xt => Py.len (fst xt)) (updates_of tr) = [3; 3; 1]) /\
  (exists tr,
     trace (snd (evaluation Toy.backend (Toy.cfg 1 3) Toy.ds7_test_5 Toy.s0))
       = trace Toy.s0 ++ tr /\
     map (fun vxt => Py.len (snd vxt)) (forwards_of tr) = [3; 2]).
Proof.
  destruct (@partial_final_batch _ Toy.backend 7 (Toy.cfg 1 3) Toy.ds7
              ltac:(simpl; lia)) as (Hl & Ht & _).
  destruct (@partial_final_batch _ Toy.backend 7 (Toy.cfg 1 3) Toy.ds7_test_5
              ltac:(simpl; lia)) as (_ & _ & He).
  split; [|split].
  - destruct (Hl Z [10; 11; 12; 13; 14; 15; 16]) as (bs & H1 & H2 & H3).
    + vm_compute. discriminate.
    + exists bs. repeat split; assumption.
  - destruct (Ht 1 Toy.s0
                (snd (training Toy.backend 7 (Toy.cfg 1 3) Toy.ds7 1 Toy.s0)))
      as (tr & H1 & H2 & _).
    + vm_compute. discriminate.
    + reflexivity.
    + vm_compute. reflexivity.
    + exists tr. split; assumption.
  - destruct (He Toy.s0
                (snd (evaluation Toy.backend (Toy.cfg 1 3) Toy.ds7_test_5
                        Toy.s0)))
      as (tr & H1 & _ & H2 & _).
    + vm_compute. discriminate.
    + reflexivity.
    + reflexivity.
    + vm_compute. reflexivity.
    + exists tr. split; assumption.
Defined.

(** ** Accumulators *)

Section Reset.

Variable W : Type.
Variable bk : Backend W.
Variable N : Z.
Variable a : args.
Variable ds : dataset.

(** A training phase whose range has no minibatch: whatever its outcome,
    it ends with the accumulators as its two assignments left them. *)
Lemma training_no_batch (epoch : Z) (s : state W) r s' :
  Py.range 0 N (batchsize a) = Ok [] ->
  training bk N a ds epoch s = (r, s') ->
  sum_loss s' = PyInt 0 /\ sum_mean_squared_error s' = PyInt 0.
Proof.
  intros Hr H. unfold training in H.
  mstep_pure H. rewrite bind_call_val in H. msimpl H.
  destruct (random_permutation bk N (world s)) as [p w0].
  do 3 mstep_pure H.
  msimpl H. rewrite Hr, bind_lift_Ok in H. cbn [for_each] in H.
  do 2 mstep_pure H.
  mstep_lift H thr; [|injection H as <- <-; split; reflexivity].
  mstep_pure H.
  mstep_lift H L; [|injection H as <- <-; split; reflexivity].
  mstep_lift H Mse; [|injection H as <- <-; split; reflexivity].
  msimpl H. injection H as <- <-. split; reflexivity.
Qed.

(** The same for the evaluation phase. *)
Lemma evaluation_no_batch (s : state W) r s' :
  Py.range 0 (N_test ds) (batchsize a) = Ok [] ->
  evaluation bk a ds s = (r, s') ->
  sum_loss s' = PyInt 0 /\ sum_mean_squared_error s' = PyInt 0.
Proof.
  intros Hr H. unfold evaluation in H.
  do 2 mstep_pure H. change SAVE_IMAGES with true in H. cbv iota in H.
  do 2 mstep_pure H.
  mstep_call H w; [|injection H as <- <-; split; reflexivity].
  msimpl H. rewrite Hr, bind_lift_Ok in H. cbn [for_each] in H.
  do 2 mstep_pure H.
  mstep_lift H L; [|injection H as <- <-; split; reflexivity].
  mstep_lift H Mse; [|injection H as <- <-; split; reflexivity].
  msimpl H. injection H as <- <-. split; reflexivity.
Qed.

(** A training phase that completes ends with the sums, from the integer
    zero, of what its own minibatches contributed. *)
Lemma training_sums (epoch : Z) (s s' : state W) :
  training bk N a ds epoch s = (Ok tt, s') ->
  let perm := fst (random_permutation bk N (world s)) in
  exists starts obs,
    Py.range 0 N (batchsize a) = Ok starts /\
    Forall2 (fun h o =>
               train_observed bk a ds perm (fst (fst h)) (snd (fst h))
                              (snd h) o)
            (history starts (train_batch bk a ds epoch perm)
                     (training_entry bk N s)) obs /\
    sum_loss s' = weighted_sum (loss_terms obs) /\
    sum_mean_squared_error s' = weighted_sum (mse_terms obs).
Proof.
  intros H perm.
  apply training_Ok in H. cbv zeta in H. fold perm in H.
  destruct H as (starts & s1 & L & Mse & thr & Hr & Hloop & _ & _ & ->).
  destruct (for_each_observed _ (train_observed bk a ds perm)
              (@train_batch_observed _ bk a ds epoch perm) _ _ Hloop)
    as (obs & HF & HsL & HsM).
  exists starts, obs.
  cbn [sum_loss sum_mean_squared_error log set_world].
  repeat split; assumption.
Qed.

Lemma evaluation_sums (s s' : state W) :
  evaluation bk a ds s = (Ok tt, s') ->
  exists w starts obs,
    plot_setup bk (world s) = Ok w /\
    Py.range 0 (N_test ds) (batchsize a) = Ok starts /\
    Forall2 (fun h o =>
               eval_observed bk a ds (fst (fst h)) (snd (fst h)) (snd h) o)
            (history starts (eval_batch bk a ds) (evaluation_entry w s)) obs /\
    sum_loss s' = weighted_sum (loss_terms obs) /\
    sum_mean_squared_error s' = weighted_sum (mse_terms obs).
Proof.
  intros H.
  apply evaluation_Ok in H.
  destruct H as (w & starts & s1 & L & Mse & Hp & Hr & Hloop & _ & _ & ->).
  destruct (for_each_observed _ (eval_observed bk a ds)
              (@eval_batch_observed _ bk a ds) _ _ Hloop)
    as (obs & HF & HsL & HsM).
  exists w, starts, obs.
  cbn [sum_loss sum_mean_squared_error log].
  repeat split; assumption.
Qed.

End Reset.

(** C9.  Both accumulators are reset to zero at the start of each phase of
    each epoch, so that no phase counts what an earlier phase or epoch
    added.  Whatever [sum_loss] and [sum_mean_squared_error] hold when
    [training] or [evaluation] starts:
    - the phase behaves exactly as it does from any other values (same
      outcome, same report, same final state);
    - a phase whose range has no minibatch ends, in every outcome, with
      both accumulators equal to the integer zero;
    - a phase that completes ends with [sum_loss] and
      [sum_mean_squared_error] equal to the sums, from the integer zero
      and in minibatch order, of (value x number of labels) over the
      minibatches of this phase alone;
    - both are the integer zero in the state in which the minibatch loop
      of the phase starts. *)
Theorem accumulators_reset (W : Type) (bk : Backend W) (N : Z) (a : args)
        (ds : dataset) (epoch : Z) (s : state W) (v1 v2 : pynum) :
  training bk N a ds epoch
    (set_sum_loss v1 (set_sum_mean_squared_error v2 s))
  = training bk N a ds epoch s /\
  evaluation bk a ds (set_sum_loss v1 (set_sum_mean_squared_error v2 s))
  = evaluation bk a ds s /\
  (Py.range 0 N (batchsize a) = Ok [] ->
   sum_loss (snd (training bk N a ds epoch s)) = PyInt 0 /\
   sum_mean_squared_error (snd (training bk N a ds epoch s)) = PyInt 0) /\
  (Py.range 0 (N_test ds) (batchsize a) = Ok [] ->
   sum_loss (snd (evaluation bk a ds s)) = PyInt 0 /\
   sum_mean_squared_error (snd (evaluation bk a ds s)) = PyInt 0) /\
  (forall s',
     training bk N a ds epoch s = (Ok tt, s') ->
     let perm := fst (random_permutation bk N (world s)) in
     exists starts obs,
       Py.range 0 N (batchsize a) = Ok starts /\
       Forall2 (fun h o =>
                  train_observed bk a ds perm (fst (fst h)) (snd (fst h))
                                 (snd h) o)
               (history starts (train_batch bk a ds epoch perm)
                        (training_entry bk N s)) obs /\
       sum_loss s' = weighted_sum (loss_terms obs) /\
       sum_mean_squared_error s' = weighted_sum (mse_terms obs)) /\
  (forall s',
     evaluation bk a ds s = (Ok tt, s') ->
     exists w starts obs,
       plot_setup bk (world s) = Ok w /\
       Py.range 0 (N_test ds) (batchsize a) = Ok starts /\
       Forall2 (fun h o =>
                  eval_observed bk a ds (fst (fst h)) (snd (fst h)) (snd h) o)
               (history starts (eval_batch bk a ds) (evaluation_entry w s))
               obs /\
       sum_loss s' = weighted_sum (loss_terms obs) /\
       sum_mean_squared_error s' = weighted_sum (mse_terms obs)) /\
  sum_loss (training_entry bk N s) = PyInt 0 /\
  sum_mean_squared_error (training_entry bk N s) = PyInt 0 /\
  (forall w, sum_loss (evaluation_entry w s) = PyInt 0 /\
             sum_mean_squared_error (evaluation_entry w s) = PyInt 0).
Proof.
  split; [|split; [|split; [|split; [|split; [|split; [|repeat split]]]]]].
  - unfold training. rewrite !bind_emit, !bind_call_val.
    cbn [world log set_sum_loss set_sum_mean_squared_error].
    destruct (random_permutation bk N (world s)) as [perm w].
    rewrite !bind_assign_sum_mean_squared_error, !bind_assign_sum_loss.
    reflexivity.
  - unfold evaluation.
    rewrite !bind_assign_sum_mean_squared_error, !bind_assign_sum_loss.
    reflexivity.
  - intros Hr.
    destruct (training bk N a ds epoch s) as [r s'] eqn:H.
    eapply training_no_batch; eassumption.
  - intros Hr.
    destruct (evaluation bk a ds s) as [r s'] eqn:H.
    eapply evaluation_no_batch; eassumption.
  - intros s' H. apply training_sums. exact H.
  - intros s' H. apply evaluation_sums. exact H.
Qed.

(** ** An empty test split *)

Lemma range_zero_stop (b : Z) : b <> 0 -> Py.range 0 0 b = Ok [].
Proof.
  intros Hb. unfold Py.range, Py.range_len.
  destruct (b =? 0) eqn:E; [apply Z.eqb_eq in E; contradiction|].
  destruct (0 <? b), (b <? 0); reflexivity.
Qed.

(** C10.  A dataset of exactly 60000 samples leaves an empty test split,
    [N_test = 0].  With [N_test = 0] (and a batch size [range] accepts) the
    evaluation phase runs no minibatch and its report divides the zero
    accumulators by zero: the phase ends in [ZeroDivisionError], in the
    state in which its loop started.  The division of the report is
    defined exactly when the divisor is not zero, so for every
    [N_test > 0]. *)
Theorem empty_test_split (W : Type) (bk : Backend W) (a : args) :
  (forall m, Py.len (raw_target m) = N_mnist ->
             N_test (prepare_dataset N_mnist m) = 0) /\
  (forall ds (s : state W) w,
     N_test ds = 0 -> batchsize a <> 0 ->
     plot_setup bk (world s) = Ok w ->
     evaluation bk a ds s = (Raise ZeroDivisionError, evaluation_entry w s)) /\
  (forall acc n, 0 < n -> exists q, py_div acc (PyInt n) = Ok q) /\
  (forall acc, py_div acc (PyInt 0) = Raise ZeroDivisionError).
Proof.
  split; [|split; [|split]].
  - intros m Hm. rewrite prepare_dataset_split by (unfold N_mnist; lia).
    cbn [N_test]. unfold Py.len in *.
    rewrite length_skipn, length_map. lia.
  - intros ds s w Hn Hb Hp. unfold evaluation.
    rewrite bind_assign_sum_mean_squared_error, bind_assign_sum_loss.
    change SAVE_IMAGES with true. cbv beta iota.
    rewrite bind_assoc, bind_emit, bind_call.
    cbn [world log set_sum_loss set_sum_mean_squared_error].
    rewrite Hp. cbv beta iota.
    rewrite Hn, range_zero_stop by assumption.
    rewrite bind_lift_Ok. cbn [for_each]. rewrite bind_ret, bind_get.
    reflexivity.
  - intros acc n Hn. unfold py_div. cbn [py_is_zero].
    destruct (n =? 0) eqn:E; [apply Z.eqb_eq in E; lia|].
    eexists. reflexivity.
  - intros acc. reflexivity.
Qed.

(** ** What each part of the script may log *)

Section Parts.

Variable W : Type.
Variable bk : Backend W.
Variable N : Z.
Variable a : args.

Lemma startup_quiet :
  emits (fun e => is_update e = false /\ is_save e = false /\
                  is_load e = false)
        (startup bk N a).
Proof. unfold startup, load_dataset, setup. emits_steps. Qed.

Lemma init_resume_quiet :
  emits (fun e => is_update e = false /\ is_save e = false)
        (init_resume bk a).
Proof. unfold init_resume, init_model, resume_optimizer. emits_steps. Qed.

Lemma save_quiet :
  emits (fun e => is_update e = false /\ is_load e = false) (save bk).
Proof. unfold save. emits_steps. Qed.

Lemma learning_loop_quiet (ds : dataset) :
  emits (fun e => is_load e = false /\ is_save e = false)
        (learning_loop bk N a ds).
Proof.
  unfold learning_loop.
  apply emits_bind; [apply emits_lift|intros epochs].
  apply emits_for_each. intros epoch _. unfold one_epoch.
  apply emits_bind; [emits_steps|intros _].
  apply emits_bind.
  - unfold training.
    do 6 (apply emits_bind; [emits_steps|intros ?]).
    apply emits_bind; [|intros ?; emits_steps].
    apply emits_for_each. intros i _. unfold train_batch. emits_steps.
  - intros _. unfold evaluation.
    do 4 (apply emits_bind; [emits_steps|intros ?]).
    apply emits_bind; [|intros ?; emits_steps].
    apply emits_for_each. intros i _. unfold eval_batch. emits_steps.
Qed.

(** With a non-positive epoch count or batch size the learning loop hands
    nothing to the optimizer. *)
Lemma learning_loop_idle (ds : dataset) :
  0 <= N ->
  epoch a <= 0 \/ batchsize a <= 0 ->
  emits (fun e => is_update e = false) (learning_loop bk N a ds).
Proof.
  intros HN Hc. unfold learning_loop.
  apply emits_bind_lift. intros epochs He.
  destruct (Z_le_gt_dec (epoch a) 0) as [Hle|Hgt].
  - rewrite range_empty in He by lia. injection He as <-. apply emits_ret.
  - assert (Hb : batchsize a <= 0) by lia.
    apply emits_for_each. intros ep _. unfold one_epoch.
    apply emits_bind; [emits_steps|intros _].
    apply emits_bind; [|intros _; apply evaluation_no_update].
    unfold training.
    do 5 (apply emits_bind; [emits_steps|intros ?]).
    apply emits_bind_lift. intros starts Hs.
    destruct (Z.eq_dec (batchsize a) 0) as [E|E].
    + rewrite E in Hs. discriminate.
    + rewrite range_step_neg in Hs by lia. injection Hs as <-.
      cbn [for_each]. emits_steps.
Qed.

Lemma learning_loop_no_epoch (ds : dataset) (s : state W) :
  epoch a <= 0 -> learning_loop bk N a ds s = (Ok tt, s).
Proof.
  intros H. unfold learning_loop.
  rewrite range_empty by lia. reflexivity.
Qed.

(** With batch size zero the first epoch stops at [range]. *)
Lemma learning_loop_zero_batch (ds : dataset) (s : state W) :
  0 < epoch a -> batchsize a = 0 ->
  exists s',
    learning_loop bk N a ds s = (Raise ValueError, s') /\
    trace s' = trace s ++ [EvPrint (MsgEpoch 1); EvPermutation N; EvTime].
Proof.
  intros He Hb. unfold learning_loop.
  destruct (range_first (hi:=epoch a + 1) ltac:(lia)) as (rest & ->).
  rewrite bind_lift_Ok. cbn [for_each].
  unfold one_epoch at 1. rewrite !bind_assoc, bind_emit. cbv beta.
  unfold training. rewrite !bind_assoc, bind_emit. cbv beta.
  rewrite !bind_assoc, bind_call_val. cbn [world log].
  destruct (random_permutation bk N (world s)) as [perm w].
  rewrite !bind_assoc, bind_assign_sum_mean_squared_error. cbv beta.
  rewrite !bind_assoc, bind_assign_sum_loss. cbv beta.
  rewrite !bind_assoc, bind_clock. cbv beta.
  rewrite !bind_assoc, Hb, range_step_zero, bind_lift_Raise.
  eexists. split; [reflexivity|].
  cbn [trace log set_world set_sum_loss set_sum_mean_squared_error].
  rewrite <- !app_assoc. reflexivity.
Qed.

End Parts.

(** C6, as the script has it.  The script does not validate the epoch
    count or the batch size.  With either of them non-positive no
    minibatch is ever handed to the optimizer.  With a non-positive epoch
    count the learning loop is skipped without an error, and the run goes
    on to save the model and the optimizer exactly as the script without
    its learning loop would.  With a positive epoch count and batch size
    zero, once start-up and Init/Resume have completed, the run stops in
    the first epoch with the [ValueError] of [range], after printing the
    epoch, drawing the permutation and reading the clock; nothing has been
    trained and nothing is saved. *)
Theorem nonpositive_config (W : Type) (bk : Backend W) (a : args) :
  (epoch a <= 0 \/ batchsize a <= 0 ->
   emits (fun e => is_update e = false) (train_mnist bk a)) /\
  (epoch a <= 0 ->
   forall s,
     train_mnist bk a s =
     (startup bk N_mnist a ;; init_resume bk a ;; save bk) s) /\
  (0 < epoch a -> batchsize a = 0 ->
   forall s ds s1 s2,
     startup bk N_mnist a s = (Ok ds, s1) ->
     init_resume bk a s1 = (Ok tt, s2) ->
     exists s' evs,
       train_mnist bk a s = (Raise ValueError, s') /\
       trace s' =
         trace s2 ++ [EvPrint (MsgEpoch 1); EvPermutation N_mnist; EvTime] /\
       trace s' = trace s ++ evs /\
       Forall (fun e => is_update e = false /\ is_save e = false) evs).
Proof.
  split; [|split].
  - intros Hc. unfold train_mnist, script.
    apply emits_bind.
    { eapply emits_weaken; [|apply startup_quiet]. now intros e (H & _). }
    intros ds. apply emits_bind.
    { eapply emits_weaken; [|apply init_resume_quiet]. now intros e (H & _). }
    intros _. apply emits_bind.
    { apply learning_loop_idle; [unfold N_mnist; lia|assumption]. }
    intros _. eapply emits_weaken; [|apply save_quiet]. now intros e (H & _).
  - intros He s. unfold train_mnist, script, bind.
    destruct (startup bk N_mnist a s) as [[ds|e] s1]; [|reflexivity].
    destruct (init_resume bk a s1) as [[[]|e] s2]; [|reflexivity].
    now rewrite learning_loop_no_epoch.
  - intros He Hb s ds s1 s2 Hs Hi.
    destruct (learning_loop_zero_batch bk N_mnist a ds s2 He Hb)
      as (s' & Hl & Ht).
    destruct (startup_quiet bk N_mnist a s) as (evs1 & E1 & F1).
    destruct (init_resume_quiet bk a s1) as (evs2 & E2 & F2).
    rewrite Hs in E1. rewrite Hi in E2. cbn [snd] in E1, E2.
    exists s', (evs1 ++ evs2 ++
                [EvPrint (MsgEpoch 1); EvPermutation N_mnist; EvTime]).
    split; [|split; [assumption|split]].
    + unfold train_mnist, script, bind. rewrite Hs, Hi, Hl. reflexivity.
    + rewrite Ht, E2, E1, <- !app_assoc. reflexivity.
    + apply Forall_app. split.
      * eapply Forall_impl; [|exact F1]. now intros e (H1 & H2 & _).
      * apply Forall_app. split; [exact F2|].
        repeat constructor.
Qed.

(** With epoch count 0 the run raises nothing and saves the untrained
    model. *)
Lemma nonpositive_config_counterexample :
  epoch (Toy.cfg 0 100) <= 0 /\
  fst (train_mnist Toy.backend (Toy.cfg 0 100) Toy.s0) = Ok tt /\
  trace (snd (train_mnist Toy.backend (Toy.cfg 0 100) Toy.s0)) =
    [EvPrint (MsgConfig (-1) 100 0 normal); EvPrint MsgLoadDataset;
     EvLoadData; EvConstructModel false; EvSetupOptimizer;
     EvPrint MsgSaveModel; EvSaveModel "mlp.model";
     EvPrint MsgSaveOptimizer; EvSaveOptimizer "mlp.state"] /\
  Toy.saved (world (snd (train_mnist Toy.backend (Toy.cfg 0 100) Toy.s0))) =
    [("mlp.model"%string, 0); ("mlp.state"%string, 0)].
Proof.
  vm_compute. repeat split. discriminate.
Qed.

(** ** Checkpoints *)

Lemma last_two (A : Type) (l : list A) (x y d : A) :
  last (l ++ [x; y]) d = y.
Proof.
  change (l ++ [x; y]) with (l ++ [x] ++ [y]).
  rewrite app_assoc. apply last_last.
Qed.

Section Checkpoints.

Variable W : Type.
Variable bk : Backend W.
Variable N : Z.
Variable a : args.

Lemma init_model_failure (s : state W) (e : exn) :
  initmodel a <> EmptyString ->
  load_npz_model bk (initmodel a) (world s) = Raise e ->
  init_model bk a s =
  (Raise e, log (EvLoadModel (initmodel a))
              (log (EvPrint (MsgLoadModel (initmodel a))) s)).
Proof.
  intros Hne Hl. unfold init_model.
  destruct (String.eqb (initmodel a) EmptyString) eqn:E.
  - apply String.eqb_eq in E. contradiction.
  - rewrite !bind_emit. unfold call. cbn [world log]. now rewrite Hl.
Qed.

Lemma resume_optimizer_failure (s : state W) (e : exn) :
  resume a <> EmptyString ->
  load_npz_optimizer bk (resume a) (world s) = Raise e ->
  resume_optimizer bk a s =
  (Raise e, log (EvLoadOptimizer (resume a))
              (log (EvPrint (MsgLoadOptimizer (resume a))) s)).
Proof.
  intros Hne Hl. unfold resume_optimizer.
  destruct (String.eqb (resume a) EmptyString) eqn:E.
  - apply String.eqb_eq in E. contradiction.
  - rewrite !bind_emit. unfold call. cbn [world log]. now rewrite Hl.
Qed.

Lemma init_model_quiet :
  emits (fun e => is_update e = false /\ is_save e = false) (init_model bk a).
Proof. unfold init_model. emits_steps. Qed.

Lemma init_resume_skipped (s : state W) :
  initmodel a = EmptyString -> resume a = EmptyString ->
  init_resume bk a s = (Ok tt, s).
Proof.
  intros H1 H2. unfold init_resume, init_model, resume_optimizer.
  rewrite H1, H2. reflexivity.
Qed.

Lemma script_no_load :
  initmodel a = EmptyString -> resume a = EmptyString ->
  emits (fun e => is_load e = false) (script bk N a).
Proof.
  intros H1 H2. unfold script.
  apply emits_bind.
  { eapply emits_weaken; [|apply startup_quiet]. now intros e (_ & _ & H). }
  intros ds. apply emits_bind.
  { unfold init_resume, init_model, resume_optimizer. rewrite H1, H2.
    cbn [String.eqb]. emits_steps. }
  intros _. apply emits_bind.
  { eapply emits_weaken; [|apply learning_loop_quiet]. now intros e (H & _). }
  intros _. eapply emits_weaken; [|apply save_quiet]. now intros e (_ & H).
Qed.

End Checkpoints.

(** C7.  A checkpoint that fails to load stops the run.  When
    [--initmodel] is given and [load_npz] raises on it, the run ends with
    that exception right after the load attempt; when [--resume] is given
    and [load_npz] raises on it (the model checkpoint, if any, having
    loaded), likewise.  In both cases nothing has been handed to the
    optimizer and nothing is saved: there is no fallback to the fresh
    initialisation.  When neither path is given the run attempts no load
    at all and Init/Resume leaves the freshly built model and optimizer
    untouched. *)
Theorem checkpoint_load_failure (W : Type) (bk : Backend W) (N : Z)
        (a : args) :
  (forall s ds s1 e,
     startup bk N a s = (Ok ds, s1) ->
     initmodel a <> EmptyString ->
     load_npz_model bk (initmodel a) (world s1) = Raise e ->
     exists s' evs,
       script bk N a s = (Raise e, s') /\
       world s' = world s1 /\
       trace s' = trace s ++ evs /\
       last evs EvTime = EvLoadModel (initmodel a) /\
       Forall (fun ev => is_update ev = false /\ is_save ev = false) evs) /\
  (forall s ds s1 s2 e,
     startup bk N a s = (Ok ds, s1) ->
     init_model bk a s1 = (Ok tt, s2) ->
     resume a <> EmptyString ->
     load_npz_optimizer bk (resume a) (world s2) = Raise e ->
     exists s' evs,
       script bk N a s = (Raise e, s') /\
       world s' = world s2 /\
       trace s' = trace s ++ evs /\
       last evs EvTime = EvLoadOptimizer (resume a) /\
       Forall (fun ev => is_update ev = false /\ is_save ev = false) evs) /\
  (initmodel a = EmptyString -> resume a = EmptyString ->
   emits (fun ev => is_load ev = false) (script bk N a) /\
   forall s, init_resume bk a s = (Ok tt, s)).
Proof.
  split; [|split].
  - intros s ds s1 e Hs Hne Hl.
    destruct (startup_quiet bk N a s) as (evs1 & E1 & F1).
    rewrite Hs in E1. cbn [snd] in E1.
    eexists. exists (evs1 ++ [EvPrint (MsgLoadModel (initmodel a));
                              EvLoadModel (initmodel a)]).
    split; [|split; [|split; [|split]]].
    + unfold script, bind at 1. rewrite Hs.
      unfold init_resume. rewrite bind_assoc. unfold bind at 1.
      rewrite (init_model_failure bk a s1 Hne Hl). reflexivity.
    + reflexivity.
    + cbn [trace log]. rewrite E1, <- !app_assoc. reflexivity.
    + apply last_two.
    + apply Forall_app. split.
      * eapply Forall_impl; [|exact F1]. now intros ev (H1 & H2 & _).
      * repeat constructor.
  - intros s ds s1 s2 e Hs Hm Hne Hl.
    destruct (startup_quiet bk N a s) as (evs1 & E1 & F1).
    rewrite Hs in E1. cbn [snd] in E1.
    destruct (init_model_quiet bk a s1) as (evs2 & E2 & F2).
    rewrite Hm in E2. cbn [snd] in E2.
    eexists. exists (evs1 ++ evs2 ++
                     [EvPrint (MsgLoadOptimizer (resume a));
                      EvLoadOptimizer (resume a)]).
    split; [|split; [|split; [|split]]].
    + unfold script, bind at 1. rewrite Hs.
      unfold init_resume. rewrite !bind_assoc. unfold bind at 1.
      rewrite Hm. unfold bind at 1.
      rewrite (resume_optimizer_failure bk a s2 Hne Hl). reflexivity.
    + reflexivity.
    + cbn [trace log]. rewrite E2, E1, <- !app_assoc. reflexivity.
    + rewrite app_assoc. apply last_two.
    + apply Forall_app. split.
      * eapply Forall_impl; [|exact F1]. now intros ev (H1 & H2 & _).
      * apply Forall_app. split; [exact F2|repeat constructor].
  - intros H1 H2. split.
    + now apply script_no_load.
    + intros s. now apply init_resume_skipped.
Qed.

(** ** Two runs from related worlds *)

Section Determinism.

Variable W : Type.
Variable bk : Backend W.
Variable sim : W -> W -> Prop.
Hypothesis det : deterministic bk sim.

Let any (A : Type) : A -> A -> Prop := fun _ _ => True.
Let related : state W -> state W -> Prop :=
  fun s1 s2 => sim (world s1) (world s2).

Lemma simM_ret (A : Type) (R : A -> A -> Prop) (x y : A) :
  R x y -> simM sim R (ret x) (ret y).
Proof. intros H s1 s2 Hs. simpl. auto. Qed.

Lemma simM_lift (A : Type) (r : result A) : simM sim eq (lift r) (lift r).
Proof. intros s1 s2 Hs. simpl. destruct r; auto. Qed.

Lemma simM_lift_any (A : Type) (r1 r2 : result A) :
  simM sim (@any A) (lift r1) (lift r2).
Proof. intros s1 s2 Hs. simpl. destruct r1, r2; unfold any; auto. Qed.

Lemma simM_get : simM sim related get get.
Proof. intros s1 s2 Hs. simpl. auto. Qed.

Lemma simM_emit (e1 e2 : event) : simM sim (@any unit) (emit e1) (emit e2).
Proof. intros s1 s2 Hs. simpl. unfold any. auto. Qed.

Lemma simM_assign_sum_loss (v1 v2 : pynum) :
  simM sim (@any unit) (assign_sum_loss v1) (assign_sum_loss v2).
Proof. intros s1 s2 Hs. simpl. unfold any. auto. Qed.

Lemma simM_assign_sum_mean_squared_error (v1 v2 : pynum) :
  simM sim (@any unit) (assign_sum_mean_squared_error v1)
       (assign_sum_mean_squared_error v2).
Proof. intros s1 s2 Hs. simpl. unfold any. auto. Qed.

Lemma simM_call (f : W -> result W) :
  (forall w1 w2, sim w1 w2 -> rel_result sim (f w1) (f w2)) ->
  simM sim (@any unit) (call f) (call f).
Proof.
  intros Hf s1 s2 Hs. unfold call. specialize (Hf _ _ Hs).
  destruct (f (world s1)), (f (world s2)); simpl in *; unfold any; auto.
Qed.

Lemma simM_call_val (A : Type) (R : A -> A -> Prop)
      (f : W -> result (A * W)) :
  (forall w1 w2, sim w1 w2 ->
     rel_result (fun p q => R (fst p) (fst q) /\ sim (snd p) (snd q))
                (f w1) (f w2)) ->
  simM sim R (call_val f) (call_val f).
Proof.
  intros Hf s1 s2 Hs. unfold call_val. specialize (Hf _ _ Hs).
  destruct (f (world s1)) as [[x1 w1]|], (f (world s2)) as [[x2 w2]|];
    simpl in *; auto.
Qed.

Lemma simM_bind (A B : Type) (RA : A -> A -> Prop) (RB : B -> B -> Prop)
      (m1 m2 : M W A) (k1 k2 : A -> M W B) :
  simM sim RA m1 m2 ->
  (forall x y, RA x y -> simM sim RB (k1 x) (k2 y)) ->
  simM sim RB (bind m1 k1) (bind m2 k2).
Proof.
  intros Hm Hk s1 s2 Hs. unfold bind. specialize (Hm _ _ Hs).
  destruct (m1 s1) as [[x|e1] s1'].
  - destruct (m2 s2) as [[y|e2] s2'].
    + destruct Hm as [HR Hs']. exact (Hk _ _ HR _ _ Hs').
    + destruct (k1 x s1') as [[?|?] ?]; exact I.
  - exact I.
Qed.

Lemma simM_for_each (A : Type) (l : list A) (b1 b2 : A -> M W unit) :
  (forall x, simM sim (@any unit) (b1 x) (b2 x)) ->
  simM sim (@any unit) (for_each l b1) (for_each l b2).
Proof.
  intros Hb. induction l as [|x l IH]; simpl.
  - apply simM_ret. exact I.
  - eapply simM_bind; [apply Hb|intros _ _ _; exact IH].
Qed.

Lemma simM_if (A : Type) (R : A -> A -> Prop) (c : bool)
      (m1 m2 n1 n2 : M W A) :
  simM sim R m1 n1 -> simM sim R m2 n2 ->
  simM sim R (if c then m1 else m2) (if c then n1 else n2).
Proof. destruct c; auto. Qed.

Lemma simM_clock : simM sim (@any pynum) (clock bk) (clock bk).
Proof.
  unfold clock.
  eapply simM_bind; [apply simM_emit|intros _ _ _].
  eapply simM_bind with (RA := @any spec_float).
  - apply simM_call_val. intros w1 w2 Hw.
    pose proof (det_time_time det _ _ Hw) as H.
    destruct (time_time bk w1), (time_time bk w2). simpl in *.
    unfold any. auto.
  - intros x y _. apply simM_ret. exact I.
Qed.

(** Steps that neither read a value the other run may not have nor
    call a collaborator. *)
Ltac sim_plain :=
  first [ apply simM_emit | apply simM_assign_sum_loss
        | apply simM_assign_sum_mean_squared_error | apply simM_clock
        | apply simM_lift_any | apply simM_ret; exact I ].

Ltac sim_seq := eapply simM_bind; [sim_plain|intros ? ? _].

Variable N : Z.
Variable a : args.

Lemma simM_train_batch (ds : dataset) (epoch : Z) (perm : list Z) (i : Z) :
  simM sim (@any unit) (train_batch bk a ds epoch perm i)
       (train_batch bk a ds epoch perm i).
Proof.
  unfold train_batch.
  eapply simM_bind; [apply simM_lift|intros x ? <-].
  eapply simM_bind; [apply simM_lift|intros t ? <-].
  sim_seq.
  eapply simM_bind;
    [apply simM_call; intros; now apply (det_optimizer_update det)
    |intros _ _ _].
  eapply simM_bind with (RA := @any unit).
  { apply simM_if; [|apply simM_ret; exact I].
    sim_seq.
    eapply simM_bind;
      [apply simM_call; intros; now apply (det_dump_graph det)|intros _ _ _].
    sim_plain. }
  intros _ _ _.
  eapply simM_bind; [apply simM_get|intros s1 s2 _].
  sim_seq.
  eapply simM_bind; [apply simM_get|intros s3 s4 _].
  sim_plain.
Qed.

Lemma simM_eval_batch (ds : dataset) (i : Z) :
  simM sim (@any unit) (eval_batch bk a ds i) (eval_batch bk a ds i).
Proof.
  unfold eval_batch.
  sim_seq.
  eapply simM_bind with (RA := eq).
  { apply simM_call_val. intros w1 w2 Hw.
    exact (det_model_call det _ _ _ _ _ Hw). }
  intros l ? <-.
  eapply simM_bind; [apply simM_get|intros s1 s2 _].
  sim_seq.
  eapply simM_bind; [apply simM_get|intros s3 s4 _].
  sim_seq.
  apply simM_if; [|apply simM_ret; exact I].
  sim_seq.
  apply simM_call; intros; now apply (det_visualize det).
Qed.

Lemma simM_training (ds : dataset) (epoch : Z) :
  simM sim (@any unit) (training bk N a ds epoch) (training bk N a ds epoch).
Proof.
  unfold training.
  sim_seq.
  eapply simM_bind with (RA := eq).
  { apply simM_call_val. intros w1 w2 Hw. simpl.
    exact (det_random_permutation det N _ _ Hw). }
  intros perm ? <-.
  do 3 sim_seq.
  eapply simM_bind; [apply simM_lift|intros starts ? <-].
  eapply simM_bind;
    [apply simM_for_each; intros i; apply simM_train_batch|intros _ _ _].
  do 2 sim_seq.
  eapply simM_bind; [apply simM_get|intros s1 s2 _].
  do 2 sim_seq.
  sim_plain.
Qed.

Lemma simM_evaluation (ds : dataset) :
  simM sim (@any unit) (evaluation bk a ds) (evaluation bk a ds).
Proof.
  unfold evaluation.
  do 2 sim_seq.
  eapply simM_bind with (RA := @any unit).
  { apply simM_if; [|apply simM_ret; exact I].
    sim_seq. apply simM_call; intros; now apply (det_plot_setup det). }
  intros _ _ _.
  eapply simM_bind; [apply simM_lift|intros starts ? <-].
  eapply simM_bind;
    [apply simM_for_each; intros i; apply simM_eval_batch|intros _ _ _].
  eapply simM_bind; [apply simM_get|intros s1 s2 _].
  do 2 sim_seq.
  sim_plain.
Qed.

Lemma simM_startup : simM sim eq (startup bk N a) (startup bk N a).
Proof.
  unfold startup, load_dataset, setup.
  sim_seq.
  eapply simM_bind with (RA := eq).
  { do 2 sim_seq.
    eapply simM_bind with (RA := eq).
    - apply simM_call_val. intros w1 w2 Hw.
      exact (det_load_mnist_data det _ _ Hw).
    - intros m ? <-. now apply simM_ret. }
  intros ds ? <-.
  eapply simM_bind with (RA := @any unit); [|intros _ _ _; now apply simM_ret].
  sim_seq.
  eapply simM_bind;
    [apply simM_call; intros; now apply (det_construct_model det)
    |intros _ _ _].
  eapply simM_bind with (RA := @any unit).
  { apply simM_if; [|apply simM_ret; exact I].
    sim_seq. apply simM_call; intros; now apply (det_to_gpu det). }
  intros _ _ _.
  eapply simM_bind with (RA := @any unit).
  { apply simM_if; [|apply simM_ret; exact I].
    sim_seq. apply simM_call; intros; now apply (det_add_weight_decay det). }
  intros _ _ _.
  sim_seq.
  apply simM_call; intros; now apply (det_setup_optimizer det).
Qed.

Lemma simM_script : simM sim (@any unit) (script bk N a) (script bk N a).
Proof.
  unfold script.
  eapply simM_bind; [apply simM_startup|intros ds ? <-].
  eapply simM_bind with (RA := @any unit).
  { unfold init_resume, init_model, resume_optimizer.
    eapply simM_bind with (RA := @any unit).
    - apply simM_if; [apply simM_ret; exact I|].
      do 2 sim_seq.
      apply simM_call; intros; now apply (det_load_npz_model det).
    - intros _ _ _.
      apply simM_if; [apply simM_ret; exact I|].
      do 2 sim_seq.
      apply simM_call; intros; now apply (det_load_npz_optimizer det). }
  intros _ _ _.
  eapply simM_bind with (RA := @any unit).
  { unfold learning_loop.
    eapply simM_bind; [apply simM_lift|intros epochs ? <-].
    apply simM_for_each. intros epoch. unfold one_epoch.
    sim_seq.
    eapply simM_bind; [apply simM_training|intros _ _ _].
    apply simM_evaluation. }
  intros _ _ _. unfold save.
  do 2 sim_seq.
  eapply simM_bind;
    [apply simM_call; intros; now apply (det_save_npz_model det)|intros _ _ _].
  do 2 sim_seq.
  apply simM_call; intros; now apply (det_save_npz_optimizer det).
Qed.

End Determinism.

(** C3.  Two complete runs of the script with the same configuration,
    started in worlds that are related (the same random state, the same
    files, the same devices; the clocks may differ), over a backend whose
    operations are deterministic up to that relation, end in related
    worlds; the final network parameters, being a function of the world
    that respects the relation, are identical. *)
Theorem runs_are_reproducible (W : Type) (bk : Backend W)
        (sim : W -> W -> Prop) (P : Type) (parameters : W -> P)
        (N : Z) (a : args) (s1 s2 s1' s2' : state W) :
  deterministic bk sim ->
  (forall w1 w2, sim w1 w2 -> parameters w1 = parameters w2) ->
  sim (world s1) (world s2) ->
  script bk N a s1 = (Ok tt, s1') ->
  script bk N a s2 = (Ok tt, s2') ->
  sim (world s1') (world s2') /\
  parameters (world s1') = parameters (world s2').
Proof.
  intros Hdet Hpar Hs H1 H2.
  pose proof (simM_script Hdet N a s1 s2 Hs) as H.
  rewrite H1, H2 in H. destruct H as [_ H].
  split; [exact H|apply Hpar, H].
Qed.

(** ** The properties on the small backend *)

Ltac toy_det :=
  intros;
  repeat match goal with w : Toy.world |- _ => destruct w end;
  match goal with
  | H : toy_sim _ _ |- _ =>
      unfold toy_sim, Toy.with_now in H; simpl in H; injection H; intros; subst
  end;
  unfold rel_result, toy_sim; simpl; unfold Toy.exists_file; simpl;
  repeat match goal with
         | |- context [if ?c then _ else _] =>
             lazymatch type of c with bool => destruct c end
         end;
  simpl; auto.

Lemma toy_deterministic : deterministic Toy.backend toy_sim.
Proof. constructor; toy_det. Qed.

Lemma toy_sim_learned (w1 w2 : Toy.world) :
  toy_sim w1 w2 -> Toy.learned w1 = Toy.learned w2.
Proof.
  unfold toy_sim. intros H.
  exact (f_equal Toy.learned H).
Qed.

(** One epoch over seven training images in batches of three. *)
Lemma epoch_means_witness :
  (exists L Mse thr obs,
     last (trace (snd (training Toy.backend 7 (Toy.cfg 1 3) Toy.ds7 1 Toy.s0)))
          EvTime = EvPrint (MsgTrain L Mse thr) /\
     weighted_mean (loss_terms obs) 7 = Ok L /\
     weighted_mean (mse_terms obs) 7 = Ok Mse) /\
  (exists L Mse obs,
     last (trace (snd (evaluation Toy.backend (Toy.cfg 1 3) Toy.ds7 Toy.s0)))
          EvTime = EvPrint (MsgTest L Mse) /\
     weighted_mean (loss_terms obs) (N_test Toy.ds7) = Ok L /\
     weighted_mean (mse_terms obs) (N_test Toy.ds7) = Ok Mse).
Proof.
  destruct (epoch_means Toy.backend 7 (Toy.cfg 1 3) Toy.ds7) as [Ht He].
  split.
  - destruct (Ht 1 Toy.s0
                (snd (training Toy.backend 7 (Toy.cfg 1 3) Toy.ds7 1 Toy.s0)))
      as (starts & obs & L & Mse & thr & _ & _ & _ & HL & HM & Hlast).
    { vm_compute. reflexivity. }
    exists L, Mse, thr, obs. repeat split; assumption.
  - destruct (He Toy.s0
                (snd (evaluation Toy.backend (Toy.cfg 1 3) Toy.ds7 Toy.s0)))
      as (w & starts & obs & L & Mse & _ & _ & _ & _ & HL & HM & Hlast).
    { vm_compute. reflexivity. }
    exists L, Mse, obs. repeat split; assumption.
Defined.

(** Two runs of two epochs whose clocks differ by a hundred ticks. *)
Lemma runs_are_reproducible_witness :
  toy_sim (world (snd (script Toy.backend 7 (Toy.cfg 2 3) Toy.s0)))
          (world (snd (script Toy.backend 7 (Toy.cfg 2 3) Toy.s0_later))) /\
  Toy.learned (world (snd (script Toy.backend 7 (Toy.cfg 2 3) Toy.s0))) =
  Toy.learned (world (snd (script Toy.backend 7 (Toy.cfg 2 3) Toy.s0_later))).
Proof.
  apply (@runs_are_reproducible _ Toy.backend toy_sim _ Toy.learned 7
           (Toy.cfg 2 3) Toy.s0 Toy.s0_later).
  - exact toy_deterministic.
  - exact toy_sim_learned.
  - reflexivity.
  - vm_compute. reflexivity.
  - vm_compute. reflexivity.
Defined.

(** The first epoch over seven training images in batches of three. *)
Lemma epoch_is_one_pass_witness :
  exists tr,
    trace (snd (one_epoch Toy.backend 7 (Toy.cfg 1 3) Toy.ds7 1 Toy.s0)) =
      trace Toy.s0 ++ EvPrint (MsgEpoch 1) :: EvPermutation 7 :: tr /\
    Permutation (concat (map fst (updates_of tr))) (x_train Toy.ds7) /\
    Permutation (concat (map snd (updates_of tr))) (y_train Toy.ds7).
Proof.
  destruct (@epoch_is_one_pass _ Toy.backend 7 (Toy.cfg 1 3) Toy.ds7 1 Toy.s0
              (snd (one_epoch Toy.backend 7 (Toy.cfg 1 3) Toy.ds7 1 Toy.s0)))
    as (tr & idx & Htr & _ & _ & _ & Hx & Hy).
  - simpl. lia.
  - vm_compute. apply Permutation_refl.
  - reflexivity.
  - reflexivity.
  - vm_compute. reflexivity.
  - exists tr. repeat split; assumption.
Defined.

(** The evaluation phase over the two test images. *)
Lemma evaluation_read_only_witness :
  Toy.learned
    (world (snd (evaluation Toy.backend (Toy.cfg 1 3) Toy.ds7 Toy.s0)))
  = Toy.learned (world Toy.s0).
Proof.
  apply (@evaluation_read_only _ Toy.backend (Toy.cfg 1 3) Toy.ds7 _
           Toy.learned Toy.s0
           (fst (evaluation Toy.backend (Toy.cfg 1 3) Toy.ds7 Toy.s0))
           (snd (evaluation Toy.backend (Toy.cfg 1 3) Toy.ds7 Toy.s0))).
  - intros v x t w l w' H. simpl in H. injection H as _ <-. reflexivity.
  - intros w w' H. simpl in H. injection H as <-. reflexivity.
  - intros i x w w' H. simpl in H. injection H as <-. reflexivity.
  - apply surjective_pairing.
Defined.

(** A dataset of seven images split after the seventh, and a run with
    batch size zero. *)
Lemma empty_test_split_witness :
  evaluation Toy.backend (Toy.cfg 1 3) Toy.ds7_no_test Toy.s0
  = (Raise ZeroDivisionError, evaluation_entry (world Toy.s0) Toy.s0) /\
  (exists q, py_div (PyInt 0) (PyInt 2) = Ok q).
Proof.
  destruct (empty_test_split Toy.backend (Toy.cfg 1 3)) as (_ & He & Hd & _).
  split.
  - apply He.
    + reflexivity.
    + simpl. discriminate.
    + reflexivity.
  - apply Hd. lia.
Defined.

Lemma nonpositive_config_witness :
  emits (fun e => is_update e = false)
        (train_mnist Toy.backend (Toy.cfg 0 100)) /\
  (exists s' evs,
     train_mnist Toy.backend (Toy.cfg 1 0) Toy.s0 = (Raise ValueError, s') /\
     trace s' = trace Toy.s0 ++ evs /\
     Forall (fun e => is_update e = false /\ is_save e = false) evs).
Proof.
  split.
  - apply (nonpositive_config Toy.backend (Toy.cfg 0 100)).
    left. simpl. lia.
  - destruct (nonpositive_config Toy.backend (Toy.cfg 1 0)) as (_ & _ & H).
    destruct (H ltac:(simpl; lia) eq_refl Toy.s0
                (prepare_dataset N_mnist (Toy.tiny_data 9))
                (snd (startup Toy.backend N_mnist (Toy.cfg 1 0) Toy.s0))
                (snd (startup Toy.backend N_mnist (Toy.cfg 1 0) Toy.s0)))
      as (s' & evs & Hr & _ & Ht & Hf).
    + vm_compute. reflexivity.
    + vm_compute. reflexivity.
    + exists s', evs. repeat split; assumption.
Defined.

(** A model checkpoint that does not exist. *)
Lemma checkpoint_load_failure_witness :
  exists s' evs,
    script Toy.backend 7 (Toy.cfg_from "absent.model" "" 1 3) Toy.s0
      = (Raise IOError, s') /\
    trace s' = trace Toy.s0 ++ evs /\
    last evs EvTime = EvLoadModel "absent.model" /\
    Forall (fun ev => is_update ev = false /\ is_save ev = false) evs.
Proof.
  destruct (checkpoint_load_failure Toy.backend 7
              (Toy.cfg_from "absent.model" "" 1 3)) as (H & _ & _).
  destruct (H Toy.s0 Toy.ds7
              (snd (startup Toy.backend 7
                      (Toy.cfg_from "absent.model" "" 1 3) Toy.s0))
              IOError)
    as (s' & evs & Hr & _ & Ht & Hl & Hf).
  - vm_compute. reflexivity.
  - simpl. discriminate.
  - reflexivity.
  - exists s', evs. repeat split; assumption.
Defined.

(** Seven training images in batches of three and a test split without
    images, both phases entered with 5 and 9 in the accumulators. *)
Lemma accumulators_reset_witness :
  Py.range 0 (N_test Toy.ds7_no_test) (batchsize (Toy.cfg 1 3)) = Ok [] /\
  sum_loss (snd (evaluation Toy.backend (Toy.cfg 1 3) Toy.ds7_no_test
                   (set_sum_loss (PyInt 5)
                      (set_sum_mean_squared_error (PyInt 9) Toy.s0))))
  = PyInt 0 /\
  sum_mean_squared_error
    (snd (evaluation Toy.backend (Toy.cfg 1 3) Toy.ds7_no_test
            (set_sum_loss (PyInt 5)
               (set_sum_mean_squared_error (PyInt 9) Toy.s0))))
  = PyInt 0 /\
  (exists obs,
     sum_loss (snd (training Toy.backend 7 (Toy.cfg 1 3) Toy.ds7_no_test 1
                      (set_sum_loss (PyInt 5)
                         (set_sum_mean_squared_error (PyInt 9) Toy.s0))))
     = weighted_sum (loss_terms obs) /\
     sum_mean_squared_error
       (snd (training Toy.backend 7 (Toy.cfg 1 3) Toy.ds7_no_test 1
               (set_sum_loss (PyInt 5)
                  (set_sum_mean_squared_error (PyInt 9) Toy.s0))))
     = weighted_sum (mse_terms obs)).
Proof.
  destruct (@accumulators_reset _ Toy.backend 7 (Toy.cfg 1 3) Toy.ds7_no_test 1
              (set_sum_loss (PyInt 5)
                 (set_sum_mean_squared_error (PyInt 9) Toy.s0))
              (PyInt 0) (PyInt 0))
    as (_ & _ & _ & He & Ht & _).
  assert (Hr : Py.range 0 (N_test Toy.ds7_no_test) (batchsize (Toy.cfg 1 3))
               = Ok []) by (vm_compute; reflexivity).
  destruct (He Hr) as [HL HM].
  destruct (Ht (snd (training Toy.backend 7 (Toy.cfg 1 3) Toy.ds7_no_test 1
                       (set_sum_loss (PyInt 5)
                          (set_sum_mean_squared_error (PyInt 9) Toy.s0)))))
    as (starts & obs & _ & _ & HsL & HsM).
  { vm_compute. reflexivity. }
  split; [exact Hr|]. split; [exact HL|]. split; [exact HM|].
  exists obs. split; assumption.
Defined.

(** * Further properties *)

(** ** The dataset after preparation *)

(** X1.  The split loses nothing and keeps rows and labels aligned.  For a
    dataset with as many rows as labels and a split point [N >= 0], the
    training and test rows put end to end are the normalised rows in their
    original order, the training set has [min N n] rows and as many
    labels, the test set has the remaining [max 0 (n - N)] rows, which is
    [N_test], and labels that fit in 32 bits come through unchanged. *)
Theorem split_keeps_alignment (N : Z) (m : mnist_raw) :
  0 <= N ->
  Py.len (raw_data m) = Py.len (raw_target m) ->
  Forall (fun z => - 2 ^ 31 <= z < 2 ^ 31) (raw_target m) ->
  x_train (prepare_dataset N m) ++ x_test (prepare_dataset N m)
    = map (map normalize_pixel) (raw_data m) /\
  y_train (prepare_dataset N m) ++ y_test (prepare_dataset N m)
    = raw_target m /\
  Py.len (x_train (prepare_dataset N m)) = Z.min N (Py.len (raw_data m)) /\
  Py.len (y_train (prepare_dataset N m))
    = Py.len (x_train (prepare_dataset N m)) /\
  Py.len (x_test (prepare_dataset N m)) = N_test (prepare_dataset N m) /\
  Py.len (y_test (prepare_dataset N m)) = N_test (prepare_dataset N m) /\
  N_test (prepare_dataset N m) = Z.max 0 (Py.len (raw_data m) - N).
Proof.
  intros HN Hlen Hfit.
  rewrite prepare_dataset_split by assumption.
  cbn [x_train x_test y_train y_test N_test].
  assert (Hid : map astype_int32 (raw_target m) = raw_target m).
  { clear - Hfit. induction Hfit as [|z l Hz _ IH]; simpl; [reflexivity|].
    now rewrite IH, astype_int32_small. }
  rewrite Hid, !firstn_skipn.
  unfold Py.len in *.
  rewrite !length_firstn, !length_skipn, !length_map.
  repeat split; lia.
Qed.

(** Three images of two pixels, split after the second. *)
Lemma split_keeps_alignment_witness :
  x_train (prepare_dataset 2 (Build_mnist_raw [[0; 1]; [2; 3]; [4; 5]] [7; 8; 9]))
  ++ x_test (prepare_dataset 2 (Build_mnist_raw [[0; 1]; [2; 3]; [4; 5]] [7; 8; 9]))
  = map (map normalize_pixel) [[0; 1]; [2; 3]; [4; 5]] /\
  N_test (prepare_dataset 2 (Build_mnist_raw [[0; 1]; [2; 3]; [4; 5]] [7; 8; 9]))
  = Z.max 0 (3 - 2).
Proof.
  destruct (@split_keeps_alignment 2
              (Build_mnist_raw [[0; 1]; [2; 3]; [4; 5]] [7; 8; 9]))
    as (Hx & _ & _ & _ & _ & _ & Hn).
  - lia.
  - reflexivity.
  - repeat constructor; simpl; lia.
  - split; [exact Hx|exact Hn].
Defined.

(** X2.  Normalisation loses no information on bytes: it is strictly
    increasing on the byte values (so two different pixel values never
    become the same feature), it sends 0 to 0.0 and 255 to 1.0 exactly. *)
Theorem normalize_pixel_increasing (u v : Z) :
  0 <= u -> u < v -> v <= 255 ->
  SFltb (normalize_pixel u) (normalize_pixel v) = true /\
  normalize_pixel 0 = F32.zero /\
  normalize_pixel 255 = F32.one.
Proof.
  intros Hu Huv Hv.
  split; [|split; vm_compute; reflexivity].
  assert (H : forallb
                (fun i => forallb
                   (fun j => if (i <? j)%nat
                             then SFltb (normalize_pixel (Z.of_nat i))
                                        (normalize_pixel (Z.of_nat j))
                             else true)
                   (seq 0 256))
                (seq 0 256) = true) by (vm_compute; reflexivity).
  rewrite forallb_forall in H.
  specialize (H (Z.to_nat u) ltac:(apply in_seq; lia)).
  rewrite forallb_forall in H.
  specialize (H (Z.to_nat v) ltac:(apply in_seq; lia)).
  destruct (Z.to_nat u <? Z.to_nat v)%nat eqn:E.
  - now rewrite !Z2Nat.id in H by lia.
  - apply Nat.ltb_ge in E. lia.
Qed.

Lemma normalize_pixel_increasing_witness :
  SFltb (normalize_pixel 127) (normalize_pixel 128) = true /\
  normalize_pixel 0 = F32.zero /\
  normalize_pixel 255 = F32.one.
Proof.
  apply (@normalize_pixel_increasing 127 128); lia.
Defined.

(** ** Batching: the other cases *)

(** X3.  Batching at its edges, for a list [l] of [n] elements.  A zero
    batch size is refused with [ValueError]; a negative one gives no batch
    at all; a positive batch size that divides [n] gives [n / b] batches
    of exactly [b] elements that put end to end are [l]; a batch size of
    [n] or more gives the single batch [l]; and an empty list gives no
    batch. *)
Theorem batches_edge_cases (A : Type) (l : list A) (b : Z) :
  batches l (Py.len l) 0 = Raise ValueError /\
  (b < 0 -> batches l (Py.len l) b = Ok []) /\
  (0 < b -> Py.len l mod b = 0 ->
   exists bs,
     batches l (Py.len l) b = Ok bs /\
     map Py.len bs = repeat b (Z.to_nat (Py.len l / b)) /\
     concat bs = l) /\
  (0 < Py.len l <= b -> batches l (Py.len l) b = Ok [l]) /\
  (0 < b -> batches (@nil A) 0 b = Ok []).
Proof.
  split; [reflexivity|]. split; [|split; [|split]].
  - intros Hb. unfold batches.
    rewrite range_step_neg by (unfold Py.len; lia). reflexivity.
  - intros Hb Hr.
    destruct (batches_concat l Hb) as (bs & Hbs & Hcat).
    exists bs. split; [assumption|split; [|assumption]].
    unfold batches in Hbs. rewrite range_step_pos in Hbs by assumption.
    injection Hbs as <-.
    set (n := Py.len l) in *.
    assert (Hn : 0 <= n) by (subst n; unfold Py.len; lia).
    pose proof (Z.div_mod n b ltac:(lia)) as Hd.
    assert (Hq : 0 <= n / b) by (apply Z.div_pos; lia).
    rewrite range_len_up by assumption.
    replace ((n + b - 1) / b) with (n / b)
      by (apply (Z.div_unique (n + b - 1) b (n / b) (b - 1)); lia).
    rewrite !map_map.
    apply map_seq_const. intros k Hk.
    rewrite slice_length by lia. fold n. nia.
  - intros [Hn Hb]. unfold batches.
    rewrite range_step_pos by lia.
    rewrite range_len_up by lia.
    replace ((Py.len l + b - 1) / b) with 1
      by (apply (Z.div_unique (Py.len l + b - 1) b 1 (Py.len l - 1)); lia).
    change (Z.to_nat 1) with 1%nat. cbn [seq map].
    rewrite slice_from_nonneg by lia.
    change (Z.to_nat (Z.of_nat 0 * b)) with 0%nat. cbn [skipn].
    rewrite firstn_all2 by (unfold Py.len in *; lia). reflexivity.
  - intros Hb. unfold batches.
    rewrite range_zero_stop by lia. reflexivity.
Qed.

(** Six elements in batches of three, of six and of ten. *)
Lemma batches_edge_cases_witness :
  (exists bs,
     batches [1; 2; 3; 4; 5; 6] 6 3 = Ok bs /\
     map Py.len bs = [3; 3] /\
     concat bs = [1; 2; 3; 4; 5; 6]) /\
  batches [1; 2; 3; 4; 5; 6] 6 10 = Ok [[1; 2; 3; 4; 5; 6]] /\
  batches [1; 2; 3; 4; 5; 6] 6 (-2) = Ok [].
Proof.
  destruct (@batches_edge_cases Z [1; 2; 3; 4; 5; 6] 3)
    as (_ & _ & Hd & _ & _).
  destruct (@batches_edge_cases Z [1; 2; 3; 4; 5; 6] 10)
    as (_ & _ & _ & Hb & _).
  destruct (@batches_edge_cases Z [1; 2; 3; 4; 5; 6] (-2))
    as (_ & Hn & _).
  split; [|split].
  - apply Hd; reflexivity.
  - apply Hb. split; [reflexivity|discriminate].
  - apply Hn. reflexivity.
Defined.

(** ** Shuffling, then batching *)

Section TakeSlices.

Context {A : Type}.
Implicit Types l : list A.

Lemma take_firstn l (k : nat) (idx : list Z) (rs : list A) :
  Py.take l idx = Ok rs -> Py.take l (firstn k idx) = Ok (firstn k rs).
Proof.
  revert k rs. induction idx as [|i idx IH]; intros k rs H; simpl in H.
  - injection H as <-. now rewrite !firstn_nil.
  - destruct (Py.item l i) as [r|] eqn:Ei; [|discriminate].
    destruct (Py.take l idx) as [rs'|] eqn:Et; [|discriminate].
    injection H as <-.
    destruct k as [|k]; simpl; [reflexivity|].
    now rewrite Ei, (IH k rs' eq_refl).
Qed.

Lemma take_skipn l (k : nat) (idx : list Z) (rs : list A) :
  Py.take l idx = Ok rs -> Py.take l (skipn k idx) = Ok (skipn k rs).
Proof.
  revert k rs. induction idx as [|i idx IH]; intros k rs H; simpl in H.
  - injection H as <-. now rewrite !skipn_nil.
  - destruct (Py.item l i) as [r|] eqn:Ei; [|discriminate].
    destruct (Py.take l idx) as [rs'|] eqn:Et; [|discriminate].
    injection H as <-.
    destruct k as [|k]; simpl.
    + now rewrite Ei, Et.
    + now apply IH.
Qed.

(** Indexing by a slice of the indices is slicing the indexed list. *)
Lemma take_slice l (idx : list Z) (rs : list A) (i j : Z) :
  Py.take l idx = Ok rs ->
  Py.take l (Py.slice idx i j) = Ok (Py.slice rs i j).
Proof.
  intros H. unfold Py.slice.
  rewrite (take_length _ _ H).
  now apply take_firstn, take_skipn.
Qed.

End TakeSlices.

(** X4.  Drawing minibatches by slicing the permutation is shuffling the
    training set and then cutting it into consecutive pieces: in a
    completed training phase with a positive batch size (the permutation
    having [N] entries), the training rows and the training labels indexed
    by the whole permutation exist, and the minibatches handed to the
    optimizer are, in order, the batches of those shuffled rows paired with
    the batches of those shuffled labels. *)
Theorem minibatches_of_shuffled_set (W : Type) (bk : Backend W) (N : Z)
        (a : args) (ds : dataset) (epoch : Z) (s s' : state W) :
  0 < batchsize a ->
  Py.len (fst (random_permutation bk N (world s))) = N ->
  training bk N a ds epoch s = (Ok tt, s') ->
  exists tr xs ys bx bt,
    trace s' = trace s ++ tr /\
    Py.take (x_train ds) (fst (random_permutation bk N (world s))) = Ok xs /\
    Py.take (y_train ds) (fst (random_permutation bk N (world s))) = Ok ys /\
    batches xs N (batchsize a) = Ok bx /\
    batches ys N (batchsize a) = Ok bt /\
    updates_of tr = combine bx bt.
Proof.
  intros Hb Hlen H.
  set (perm := fst (random_permutation bk N (world s))) in *.
  apply training_updates in H. cbv zeta in H. fold perm in H.
  destruct H as (starts & tr & ups & Hr & Htr & Hups & HF).
  destruct (batches_concat perm Hb) as (idx & Hidx & Hcat).
  rewrite Hlen in Hidx.
  unfold batches in Hidx. rewrite Hr in Hidx. injection Hidx as <-.
  assert (Hx : Py.take (x_train ds) perm = Ok (concat (map fst ups))).
  { rewrite <- Hcat. apply take_concat.
    clear - HF. induction HF as [|i xt starts ups [H1 _] _ IH]; simpl;
      constructor; assumption. }
  assert (Hy : Py.take (y_train ds) perm = Ok (concat (map snd ups))).
  { rewrite <- Hcat. apply take_concat.
    clear - HF. induction HF as [|i xt starts ups [_ H2] _ IH]; simpl;
      constructor; assumption. }
  exists (EvPermutation N :: tr), (concat (map fst ups)),
         (concat (map snd ups)).
  unfold batches. rewrite Hr. do 2 eexists.
  split; [assumption|].
  split; [assumption|split; [assumption|]].
  split; [reflexivity|split; [reflexivity|]].
  change (updates_of (EvPermutation N :: tr)) with (updates_of tr).
  rewrite Hups.
  set (xs := concat (map fst ups)) in *.
  set (ys := concat (map snd ups)) in *.
  clearbody xs ys. clear - HF Hx Hy.
  induction HF as [|i [x t] starts ups [H1 H2] _ IH]; simpl; [reflexivity|].
  rewrite (@take_slice _ _ _ _ i (i + batchsize a) Hx) in H1.
  rewrite (@take_slice _ _ _ _ i (i + batchsize a) Hy) in H2.
  cbn [fst snd] in H1, H2.
  injection H1 as <-. injection H2 as <-.
  now rewrite IH.
Qed.

Lemma minibatches_of_shuffled_set_witness :
  exists tr xs ys bx bt,
    trace (snd (training Toy.backend 7 (Toy.cfg 1 3) Toy.ds7 1 Toy.s0))
      = trace Toy.s0 ++ tr /\
    Py.take (x_train Toy.ds7)
            (fst (random_permutation Toy.backend 7 (world Toy.s0))) = Ok xs /\
    Py.take (y_train Toy.ds7)
            (fst (random_permutation Toy.backend 7 (world Toy.s0))) = Ok ys /\
    batches xs 7 3 = Ok bx /\
    batches ys 7 3 = Ok bt /\
    updates_of tr = combine bx bt.
Proof.
  apply (@minibatches_of_shuffled_set _ Toy.backend 7 (Toy.cfg 1 3) Toy.ds7 1
           Toy.s0
           (snd (training Toy.backend 7 (Toy.cfg 1 3) Toy.ds7 1 Toy.s0))).
  - simpl. lia.
  - reflexivity.
  - vm_compute. reflexivity.
Defined.

(** ** The shape of the minibatches *)

Lemma range_bounds (n b : Z) (starts : list Z) :
  0 < b -> Py.range 0 n b = Ok starts ->
  Forall (fun i => 0 <= i < n) starts.
Proof.
  intros Hb H. rewrite range_step_pos in H by assumption.
  injection H as <-. apply Forall_forall. intros i Hi.
  apply in_map_iff in Hi. destruct Hi as (k & <- & Hk).
  apply in_seq in Hk. unfold Py.range_len in Hk.
  destruct (0 <? b) eqn:E; [|apply Z.ltb_ge in E; lia].
  destruct (0 <? n) eqn:En; [|simpl in Hk; lia].
  apply Z.ltb_lt in En.
  assert (Hq : 0 <= (n - 0 - 1) / b) by (apply Z.div_pos; lia).
  assert (Hk' : Z.of_nat k <= (n - 0 - 1) / b) by lia.
  pose proof (Z.mul_div_le (n - 0 - 1) b Hb).
  split; [lia|nia].
Qed.

Lemma total_lengths (A : Type) (bs : list (list A)) :
  total (map Py.len bs) = Py.len (concat bs).
Proof.
  induction bs as [|c bs IH]; simpl; [reflexivity|].
  unfold total in *. simpl. rewrite IH. unfold Py.len.
  rewrite length_app. lia.
Qed.

(** X5.  No minibatch is empty, oversized or misaligned.  With a positive
    batch size [b], every minibatch a completed training phase hands to the
    optimizer has as many rows as labels, at least one and at most [b]
    (the permutation having [N] entries); the same holds for every
    minibatch a completed evaluation phase runs the model on, when the
    test set has [N_test] rows and [N_test] labels. *)
Theorem minibatch_shape (W : Type) (bk : Backend W) (N : Z) (a : args)
        (ds : dataset) :
  0 < batchsize a ->
  (forall epoch s s',
     Py.len (fst (random_permutation bk N (world s))) = N ->
     training bk N a ds epoch s = (Ok tt, s') ->
     exists tr,
       trace s' = trace s ++ tr /\
       Forall (fun xt => Py.len (fst xt) = Py.len (snd xt) /\
                         0 < Py.len (fst xt) <= batchsize a)
              (updates_of tr)) /\
  (forall s s',
     Py.len (x_test ds) = N_test ds ->
     Py.len (y_test ds) = N_test ds ->
     evaluation bk a ds s = (Ok tt, s') ->
     exists tr,
       trace s' = trace s ++ tr /\
       Forall (fun vxt => Py.len (snd (fst vxt)) = Py.len (snd vxt) /\
                          0 < Py.len (snd (fst vxt)) <= batchsize a)
              (forwards_of tr)).
Proof.
  intros Hb. split.
  - intros epoch s s' Hlen H.
    set (perm := fst (random_permutation bk N (world s))) in *.
    apply training_updates in H. cbv zeta in H. fold perm in H.
    destruct H as (starts & tr & ups & Hr & Htr & Hups & HF).
    exists (EvPermutation N :: tr). split; [assumption|].
    change (updates_of (EvPermutation N :: tr)) with (updates_of tr).
    rewrite Hups.
    pose proof (@range_bounds _ _ _ Hb Hr) as Hin.
    clearbody perm. clear - HF Hin Hlen Hb.
    induction HF as [|i xt starts ups [Hx Ht] _ IH]; constructor.
    + apply take_length in Hx. apply take_length in Ht.
      inversion Hin as [|? ? Hi _]; subst.
      assert (Hs : Py.len (Py.slice perm i (i + batchsize a))
                   = Z.max 0 (Z.min (i + batchsize a - i) (Py.len perm - i)))
        by (apply slice_length; lia).
      unfold Py.len in *. lia.
    + apply IH. now inversion Hin.
  - intros s s' Hx Hy H.
    apply evaluation_forwards in H.
    destruct H as (starts & evs & Hr & Hevs & _ & Hf).
    exists evs. split; [assumption|]. rewrite Hf.
    pose proof (@range_bounds _ _ _ Hb Hr) as Hin.
    apply Forall_forall. intros vxt Hv.
    apply in_map_iff in Hv. destruct Hv as (i & <- & Hi).
    rewrite Forall_forall in Hin. specialize (Hin i Hi).
    cbn [fst snd].
    rewrite !slice_length by lia. lia.
Qed.

Lemma minibatch_shape_witness :
  exists tr,
    trace (snd (training Toy.backend 7 (Toy.cfg 1 3) Toy.ds7 1 Toy.s0))
      = trace Toy.s0 ++ tr /\
    Forall (fun xt => Py.len (fst xt) = Py.len (snd xt) /\
                      0 < Py.len (fst xt) <= 3)
           (updates_of tr).
Proof.
  destruct (@minibatch_shape _ Toy.backend 7 (Toy.cfg 1 3) Toy.ds7
              ltac:(simpl; lia)) as (Ht & _).
  apply (Ht 1 Toy.s0
           (snd (training Toy.backend 7 (Toy.cfg 1 3) Toy.ds7 1 Toy.s0))).
  - reflexivity.
  - vm_compute. reflexivity.
Defined.

(** X6.  The weights of a reported mean add up to its divisor.  In a
    completed training phase with a positive batch size (the permutation
    having [N] entries) the sizes of the minibatches observed, whatever
    values were read with them, add up to [N]; in a completed evaluation
    phase over [N_test] test labels they add up to [N_test]. *)
Theorem weights_add_up (W : Type) (bk : Backend W) (N : Z) (a : args)
        (ds : dataset) :
  0 < batchsize a ->
  (forall epoch s s' starts obs,
     Py.len (fst (random_permutation bk N (world s))) = N ->
     training bk N a ds epoch s = (Ok tt, s') ->
     Py.range 0 N (batchsize a) = Ok starts ->
     Forall2 (fun h o =>
                train_observed bk a ds
                  (fst (random_permutation bk N (world s)))
                  (fst (fst h)) (snd (fst h)) (snd h) o)
             (history starts
                (train_batch bk a ds epoch
                   (fst (random_permutation bk N (world s))))
                (training_entry bk N s)) obs ->
     total (map obs_size obs) = N) /\
  (forall s s' w starts obs,
     Py.len (y_test ds) = N_test ds ->
     evaluation bk a ds s = (Ok tt, s') ->
     plot_setup bk (world s) = Ok w ->
     Py.range 0 (N_test ds) (batchsize a) = Ok starts ->
     Forall2 (fun h o =>
                eval_observed bk a ds (fst (fst h)) (snd (fst h)) (snd h) o)
             (history starts (eval_batch bk a ds) (evaluation_entry w s))
             obs ->
     total (map obs_size obs) = N_test ds).
Proof.
  intros Hb. split.
  - intros epoch s s' starts obs Hlen H Hr HF.
    set (perm := fst (random_permutation bk N (world s))) in *.
    apply training_Ok in H. cbv zeta in H. fold perm in H.
    destruct H as (starts' & s1 & _ & _ & _ & Hr' & Hloop & _).
    rewrite Hr in Hr'. injection Hr' as <-.
    pose proof (history_complete _ _ _ Hloop) as Hc.
    destruct (batches_concat perm Hb) as (bs & Hbs & Hcat).
    rewrite Hlen in Hbs. unfold batches in Hbs. rewrite Hr in Hbs.
    injection Hbs as <-.
    rewrite <- Hlen, <- Hcat, <- total_lengths, map_map, <- Hc, map_map.
    f_equal. clear - HF.
    induction HF as [|h o hist obs Ho _ IH]; simpl; [reflexivity|].
    rewrite IH. f_equal.
    destruct Ho as (_ & _ & t & Ht & ->).
    apply take_length in Ht. unfold Py.len. now rewrite Ht.
  - intros s s' w starts obs Hy H Hp Hr HF.
    apply evaluation_Ok in H.
    destruct H as (w' & starts' & s1 & _ & _ & Hp' & Hr' & Hloop & _).
    rewrite Hp in Hp'. injection Hp' as <-.
    rewrite Hr in Hr'. injection Hr' as <-.
    pose proof (history_complete _ _ _ Hloop) as Hc.
    destruct (batches_concat (y_test ds) Hb) as (bs & Hbs & Hcat).
    rewrite Hy in Hbs. unfold batches in Hbs. rewrite Hr in Hbs.
    injection Hbs as <-.
    rewrite <- Hy, <- Hcat, <- total_lengths, map_map, <- Hc, map_map.
    f_equal. clear - HF.
    induction HF as [|h o hist obs Ho _ IH]; simpl; [reflexivity|].
    rewrite IH. f_equal.
    destruct Ho as (_ & ->). reflexivity.
Qed.

Lemma weights_add_up_witness :
  exists obs,
    Forall2 (fun h o =>
               train_observed Toy.backend (Toy.cfg 1 3) Toy.ds7
                 (fst (random_permutation Toy.backend 7 (world Toy.s0)))
                 (fst (fst h)) (snd (fst h)) (snd h) o)
            (history [0; 3; 6]
               (train_batch Toy.backend (Toy.cfg 1 3) Toy.ds7 1
                  (fst (random_permutation Toy.backend 7 (world Toy.s0))))
               (training_entry Toy.backend 7 Toy.s0)) obs /\
    total (map obs_size obs) = 7.
Proof.
  destruct (for_each_observed _
              (train_observed Toy.backend (Toy.cfg 1 3) Toy.ds7
                 (fst (random_permutation Toy.backend 7 (world Toy.s0))))
              (@train_batch_observed _ Toy.backend (Toy.cfg 1 3) Toy.ds7 1
                 (fst (random_permutation Toy.backend 7 (world Toy.s0))))
              [0; 3; 6] (training_entry Toy.backend 7 Toy.s0)
              (s' := snd (for_each [0; 3; 6]
                            (train_batch Toy.backend (Toy.cfg 1 3) Toy.ds7 1
                               (fst (random_permutation Toy.backend 7
                                       (world Toy.s0))))
                            (training_entry Toy.backend 7 Toy.s0))))
    as (obs & HF & _).
  { vm_compute. reflexivity. }
  exists obs. split; [exact HF|].
  destruct (@weights_add_up _ Toy.backend 7 (Toy.cfg 1 3) Toy.ds7
              ltac:(simpl; lia)) as (Ht & _).
  apply (Ht 1 Toy.s0
           (snd (training Toy.backend 7 (Toy.cfg 1 3) Toy.ds7 1 Toy.s0))
           [0; 3; 6] obs).
  - reflexivity.
  - vm_compute. reflexivity.
  - reflexivity.
  - exact HF.
Defined.

(** ** A training set with fewer than [N] rows *)

Lemma item_raises (A : Type) (l : list A) (k : Z) (e : exn) :
  Py.item l k = Raise e -> e = IndexError.
Proof.
  unfold Py.item.
  destruct ((k <? - Z.of_nat (length l)) || (Z.of_nat (length l) <=? k)).
  - now intros [= <-].
  - destruct (nth_error l _); [discriminate|now intros [= <-]].
Qed.

Lemma take_raises (A : Type) (l : list A) (idx : list Z) (e : exn) :
  Py.take l idx = Raise e -> e = IndexError.
Proof.
  induction idx as [|k idx IH]; simpl; [discriminate|].
  destruct (Py.item l k) eqn:Ei.
  - destruct (Py.take l idx); [discriminate|].
    intros [= <-]. now apply IH.
  - intros [= <-]. eapply item_raises; eassumption.
Qed.

Lemma take_in_range (A : Type) (l : list A) (idx : list Z) (rs : list A) :
  Py.take l idx = Ok rs ->
  Forall (fun k => - Py.len l <= k < Py.len l) idx.
Proof.
  revert rs. induction idx as [|k idx IH]; intros rs H; simpl in H.
  - constructor.
  - destruct (Py.item l k) eqn:Ei; [|discriminate].
    destruct (Py.take l idx) eqn:Et; [|discriminate].
    constructor; [|eapply IH; reflexivity].
    unfold Py.item in Ei. unfold Py.len.
    destruct ((k <? - Z.of_nat (length l)) || (Z.of_nat (length l) <=? k))
      eqn:E; [discriminate|].
    apply orb_false_iff in E. destruct E as [E1 E2].
    apply Z.ltb_ge in E1. apply Z.leb_gt in E2. lia.
Qed.

Lemma take_returns_dec (A : Type) (l : list A) (idx : list Z) :
  {exists x, Py.take l idx = Ok x} + {~ exists x, Py.take l idx = Ok x}.
Proof.
  destruct (Py.take l idx) as [x|e].
  - left. now exists x.
  - right. intros [x H]. discriminate.
Qed.

Section ShortTrainingSet.

Variable W : Type.
Variable bk : Backend W.
Variable N : Z.
Variable a : args.
Variable ds : dataset.

Hypothesis update_returns :
  forall x t w, exists w', optimizer_update bk x t w = Ok w'.
Hypothesis dump_returns :
  forall w, exists w', dump_graph bk w = Ok w'.

Lemma train_batch_runs (epoch : Z) (perm : list Z) (i : Z) (s : state W)
      (x : list row) (t : list label) :
  Py.take (x_train ds) (Py.slice perm i (i + batchsize a)) = Ok x ->
  Py.take (y_train ds) (Py.slice perm i (i + batchsize a)) = Ok t ->
  exists s1, train_batch bk a ds epoch perm i s = (Ok tt, s1).
Proof.
  intros Hx Ht. unfold train_batch.
  rewrite Hx, bind_lift_Ok, Ht, bind_lift_Ok, bind_emit, bind_call.
  cbn [world log].
  destruct (update_returns x t (world s)) as (w1 & ->).
  destruct ((epoch =? 1) && (i =? 0)).
  - rewrite !bind_assoc, bind_emit. cbv beta. rewrite !bind_assoc, bind_call.
    cbn [world log set_world].
    destruct (dump_returns w1) as (w2 & ->).
    rewrite bind_emit. eexists. reflexivity.
  - rewrite bind_ret. eexists. reflexivity.
Qed.

Lemma train_batch_index_error (epoch : Z) (perm : list Z) (i : Z)
      (s : state W) :
  (forall x, Py.take (x_train ds) (Py.slice perm i (i + batchsize a))
             <> Ok x) ->
  train_batch bk a ds epoch perm i s = (Raise IndexError, s).
Proof.
  intros H. unfold train_batch.
  destruct (Py.take (x_train ds) (Py.slice perm i (i + batchsize a)))
    as [x|e] eqn:E.
  - now destruct (H x).
  - apply take_raises in E. subst e. reflexivity.
Qed.

(** A loop over start indices one of which has an index out of bounds
    stops with [IndexError]. *)
Lemma train_loop_index_error (epoch : Z) (perm : list Z) (starts : list Z) :
  Exists (fun i => forall x,
            Py.take (x_train ds) (Py.slice perm i (i + batchsize a)) <> Ok x)
         starts ->
  forall s, exists s',
    for_each starts (train_batch bk a ds epoch perm) s = (Raise IndexError, s').
Proof.
  intros H. induction starts as [|i starts IH]; intros s.
  - inversion H.
  - cbn [for_each]. unfold bind.
    destruct (Py.take (x_train ds) (Py.slice perm i (i + batchsize a)))
      as [x|e] eqn:Ex.
    + destruct (Py.take (y_train ds) (Py.slice perm i (i + batchsize a)))
        as [t|e] eqn:Et.
      * destruct (train_batch_runs epoch perm i s Ex Et) as (s1 & ->).
        apply IH. inversion H as [? ? Hi|? ? Hr]; subst; [|assumption].
        now destruct (Hi x).
      * unfold train_batch. rewrite Ex, bind_lift_Ok, Et.
        apply take_raises in Et. subst e. eexists. reflexivity.
    + rewrite train_batch_index_error; [eexists; reflexivity|].
      intros x. congruence.
Qed.

End ShortTrainingSet.

(** X7.  A training set shorter than [N] cannot be trained on.  With a
    positive batch size, a permutation of the [N] indices and fewer than
    [N] training rows, the training phase stops with the [IndexError] of
    [x_train[perm[i:i + batchsize]]] at the first minibatch that holds an
    index past the end (the optimizer and the graph dump themselves not
    raising): no epoch is ever completed and nothing is reported. *)
Theorem short_training_set (W : Type) (bk : Backend W) (N : Z) (a : args)
        (ds : dataset) (epoch : Z) (s : state W) :
  (forall x t w, exists w', optimizer_update bk x t w = Ok w') ->
  (forall w, exists w', dump_graph bk w = Ok w') ->
  0 < batchsize a ->
  Permutation (fst (random_permutation bk N (world s))) (Py.arange N) ->
  Py.len (x_train ds) < N ->
  exists s' evs,
    training bk N a ds epoch s = (Raise IndexError, s') /\
    trace s' = trace s ++ evs /\
    Forall (fun e => is_save e = false) evs.
Proof.
  intros Hup Hdump Hb Hperm Hshort.
  set (perm := fst (random_permutation bk N (world s))) in *.
  assert (HN : 0 < N) by (unfold Py.len in Hshort; lia).
  assert (Hlen : Py.len perm = N).
  { unfold Py.len. rewrite (Permutation_length Hperm).
    unfold Py.arange. rewrite length_map, length_seq. lia. }
  destruct (batches_concat perm Hb) as (idx & Hidx & Hcat).
  rewrite Hlen in Hidx. unfold batches in Hidx.
  destruct (Py.range 0 N (batchsize a)) as [starts|] eqn:Hr; [|discriminate].
  injection Hidx as <-.
  assert (Hbad : Exists (fun i => forall x,
                   Py.take (x_train ds) (Py.slice perm i (i + batchsize a))
                   <> Ok x) starts).
  { destruct (Forall_Exists_dec
                (fun i => exists x,
                   Py.take (x_train ds) (Py.slice perm i (i + batchsize a))
                   = Ok x)
                (fun i => take_returns_dec (x_train ds)
                            (Py.slice perm i (i + batchsize a)))
                starts) as [Hall|Hex].
    - exfalso.
      assert (Hok : exists rs, Py.take (x_train ds) perm = Ok rs).
      { rewrite <- Hcat. clear - Hall.
        induction Hall as [|i starts [x Hx] _ [rs IH]]; simpl.
        - exists []. reflexivity.
        - exists (x ++ rs). now apply take_app. }
      destruct Hok as (rs & Hrs).
      apply take_in_range in Hrs. rewrite Forall_forall in Hrs.
      assert (Hin : In (N - 1) perm).
      { apply (Permutation_in _ (Permutation_sym Hperm)).
        unfold Py.arange. apply in_map_iff.
        exists (Z.to_nat (N - 1)). split; [lia|]. apply in_seq. lia. }
      specialize (Hrs _ Hin). lia.
    - eapply Exists_impl; [|exact Hex].
      intros i Hi x Hx. apply Hi. now exists x. }
  unfold training.
  rewrite bind_emit. cbv beta. rewrite bind_call_val. cbn [world log].
  fold perm.
  destruct (random_permutation bk N (world s)) as [p w0] eqn:Ep.
  cbn [fst] in perm. subst perm.
  rewrite bind_assign_sum_mean_squared_error. cbv beta.
  rewrite bind_assign_sum_loss. cbv beta.
  rewrite bind_clock. cbv beta.
  rewrite Hr, bind_lift_Ok.
  match goal with
  | |- context [bind (for_each _ _) _ ?s0] =>
      destruct (@train_loop_index_error _ bk a ds Hup Hdump epoch p starts
                  Hbad s0)
        as (s' & Hloop);
      destruct (emits_for_each (P:=fun e => is_save e = false) starts
                  (train_batch bk a ds epoch p)
                  ltac:(intros i _; unfold train_batch; emits_steps) s0)
        as (evs & Hevs & Hno)
  end.
  unfold bind at 1. rewrite Hloop. rewrite Hloop in Hevs. cbn [snd] in Hevs.
  exists s', ([EvPermutation N; EvTime] ++ evs).
  split; [reflexivity|split].
  - rewrite Hevs.
    cbn [trace log set_world set_sum_loss set_sum_mean_squared_error].
    rewrite <- !app_assoc. reflexivity.
  - apply Forall_app. split; [repeat constructor|exact Hno].
Qed.

(** Five images where seven are expected. *)
Lemma short_training_set_witness :
  exists s' evs,
    training Toy.backend 7 (Toy.cfg 1 3) toy_ds_short 1 Toy.s0
      = (Raise IndexError, s') /\
    trace s' = trace Toy.s0 ++ evs /\
    Forall (fun e => is_save e = false) evs.
Proof.
  apply (@short_training_set _ Toy.backend 7 (Toy.cfg 1 3) toy_ds_short 1
           Toy.s0).
  - intros x t w. eexists. reflexivity.
  - intros w. eexists. reflexivity.
  - simpl. lia.
  - vm_compute. apply Permutation_refl.
  - vm_compute. reflexivity.
Defined.

(** ** The learning loop as a whole *)

Lemma range_length (lo hi step : Z) (l : list Z) :
  Py.range lo hi step = Ok l ->
  length l = Z.to_nat (Py.range_len lo hi step).
Proof.
  unfold Py.range. destruct (step =? 0); [discriminate|].
  intros [= <-]. now rewrite length_map, length_seq.
Qed.

(** The epochs of [range(1, n + 1)] are 1, 2, ..., n. *)
Lemma range_epochs (n : Z) :
  Py.range 1 (n + 1) 1 = Ok (map Z.of_nat (seq 1 (Z.to_nat n))).
Proof.
  unfold Py.range, Py.range_len. cbn [Z.eqb Z.ltb Z.compare].
  f_equal.
  replace (Z.to_nat (if 1 <? n + 1 then (n + 1 - 1 - 1) / 1 + 1 else 0))
    with (Z.to_nat n).
  - rewrite <- seq_shift, map_map. apply map_ext. intros k. lia.
  - destruct (1 <? n + 1) eqn:E.
    + rewrite Z.div_1_r. lia.
    + apply Z.ltb_ge in E. lia.
Qed.

Section Epochs.

Variable W : Type.
Variable bk : Backend W.
Variable N : Z.
Variable a : args.
Variable ds : dataset.

Lemma emits_after_first (A : Type) (P : event -> Prop) (e : event)
      (k : unit -> M W A) :
  emits P (k tt) ->
  forall s, exists evs,
    trace (snd (bind (emit e) k s)) = trace s ++ e :: evs /\ Forall P evs.
Proof.
  intros Hk s. rewrite bind_emit.
  destruct (Hk (log e s)) as (evs & Hevs & Hall).
  exists evs. split; [|assumption].
  rewrite Hevs. cbn [trace log]. now rewrite <- app_assoc.
Qed.

Lemma training_alphabet (epoch : Z) (s : state W) :
  exists evs,
    trace (snd (training bk N a ds epoch s))
      = trace s ++ EvPermutation N :: evs /\
    Forall (fun e => after_permutation e = true) evs.
Proof.
  unfold training. apply emits_after_first.
  apply emits_bind; [emits_steps|intros perm].
  do 3 (apply emits_bind; [emits_steps|intros ?]).
  apply emits_bind; [emits_steps|intros starts].
  apply emits_bind; [|intros ?; emits_steps].
  apply emits_for_each. intros i _. unfold train_batch. emits_steps.
Qed.

Lemma evaluation_alphabet :
  emits (fun e => evaluation_event e = true) (evaluation bk a ds).
Proof.
  unfold evaluation.
  do 4 (apply emits_bind; [emits_steps|intros ?]).
  apply emits_bind; [|intros ?; emits_steps].
  apply emits_for_each. intros i _. unfold eval_batch. emits_steps.
Qed.

(** What one completed epoch logs. *)
Lemma one_epoch_summary (epoch : Z) (s s' : state W) :
  one_epoch bk N a ds epoch s = (Ok tt, s') ->
  exists evs,
    trace s' = trace s ++ evs /\
    epochs_of evs = [epoch] /\
    count is_permutation evs = 1%nat /\
    length (updates_of evs) = Z.to_nat (Py.range_len 0 N (batchsize a)) /\
    length (forwards_of evs)
      = Z.to_nat (Py.range_len 0 (N_test ds) (batchsize a)).
Proof.
  intros H. apply one_epoch_Ok in H. destruct H as (s1 & Ht & He).
  destruct (training_alphabet epoch (log (EvPrint (MsgEpoch epoch)) s))
    as (evsT & HevsT & HallT).
  rewrite Ht in HevsT. cbn [snd] in HevsT.
  apply training_updates in Ht. cbv zeta in Ht.
  destruct Ht as (starts & tr & ups & Hr & Htr & Hups & HF).
  rewrite HevsT in Htr. apply app_inv_head in Htr.
  injection Htr as <-.
  destruct (evaluation_alphabet s1) as (evsE & HevsE & HallE).
  rewrite He in HevsE. cbn [snd] in HevsE.
  apply evaluation_forwards in He.
  destruct He as (starts' & evs' & Hr' & Hevs' & _ & Hf).
  rewrite HevsE in Hevs'. apply app_inv_head in Hevs'. subst evs'.
  exists ([EvPrint (MsgEpoch epoch); EvPermutation N] ++ evsT ++ evsE).
  assert (HeT : epochs_of evsT = [] /\ count is_permutation evsT = 0%nat
                /\ forwards_of evsT = []).
  { clear - HallT. induction HallT as [|e l He _ (I1 & I2 & I3)].
    - repeat split.
    - unfold epochs_of, count, forwards_of in *. cbn [flat_map filter].
      rewrite I1, I3.
      destruct e as [[]| | | | | | | | | | | | | | | | ];
        try discriminate; cbn; auto. }
  assert (HeE : epochs_of evsE = [] /\ count is_permutation evsE = 0%nat
                /\ updates_of evsE = []).
  { clear - HallE. induction HallE as [|e l He _ (I1 & I2 & I3)].
    - repeat split.
    - unfold epochs_of, count, updates_of in *. cbn [flat_map filter].
      rewrite I1, I3.
      destruct e as [[]| | | | | | | | | | | | | | | | ];
        try discriminate; cbn; auto. }
  destruct HeT as (T1 & T2 & T3). destruct HeE as (E1 & E2 & E3).
  split; [|split; [|split; [|split]]].
  - rewrite HevsE, HevsT. cbn [trace log].
    rewrite <- !app_assoc. reflexivity.
  - unfold epochs_of in *. rewrite !flat_map_app, T1, E1. reflexivity.
  - unfold count in *. rewrite !filter_app, !length_app, T2, E2.
    reflexivity.
  - unfold updates_of in *. rewrite !flat_map_app, Hups, E3.
    cbn [flat_map app]. rewrite app_nil_r.
    rewrite <- (Forall2_length HF). now apply range_length.
  - unfold forwards_of in *. rewrite !flat_map_app, T3, Hf.
    cbn [flat_map app]. rewrite length_map. now apply range_length.
Qed.

(** What a completed loop logs, from what each iteration logs. *)
Lemma for_each_suffixes (A : Type) (body : A -> M W unit)
      (Q : A -> list event -> Prop) :
  (forall x pre post, body x pre = (Ok tt, post) ->
     exists evs, trace post = trace pre ++ evs /\ Q x evs) ->
  forall l s s', for_each l body s = (Ok tt, s') ->
  exists evss, Forall2 Q l evss /\ trace s' = trace s ++ concat evss.
Proof.
  intros Hbody l. induction l as [|x l IH]; intros s s' H; simpl in H.
  - injection H as <-. exists []. split; [constructor|].
    simpl. now rewrite app_nil_r.
  - apply bind_Ok_inv in H. destruct H as ([] & s1 & Hb & Hl).
    destruct (Hbody _ _ _ Hb) as (evs & Hevs & HQ).
    destruct (IH _ _ Hl) as (evss & HF & Ht).
    exists (evs :: evss). split; [constructor; assumption|].
    simpl. rewrite Ht, Hevs, <- app_assoc. reflexivity.
Qed.

Lemma learning_loop_summary (s s' : state W) :
  learning_loop bk N a ds s = (Ok tt, s') ->
  exists evs,
    trace s' = trace s ++ evs /\
    epochs_of evs = map Z.of_nat (seq 1 (Z.to_nat (epoch a))) /\
    count is_permutation evs = Z.to_nat (epoch a) /\
    length (updates_of evs)
      = (Z.to_nat (epoch a)
         * Z.to_nat (Py.range_len 0 N (batchsize a)))%nat /\
    length (forwards_of evs)
      = (Z.to_nat (epoch a)
         * Z.to_nat (Py.range_len 0 (N_test ds) (batchsize a)))%nat.
Proof.
  unfold learning_loop. rewrite range_epochs, bind_lift_Ok.
  intros H.
  destruct (for_each_suffixes _
              (fun e evs =>
                 epochs_of evs = [e] /\
                 count is_permutation evs = 1%nat /\
                 length (updates_of evs)
                   = Z.to_nat (Py.range_len 0 N (batchsize a)) /\
                 length (forwards_of evs)
                   = Z.to_nat (Py.range_len 0 (N_test ds) (batchsize a)))
              one_epoch_summary _ _ H) as (evss & HF & Ht).
  exists (concat evss). split; [assumption|].
  rewrite <- (length_seq (Z.to_nat (epoch a)) 1) at 2 3 4.
  rewrite <- (length_map Z.of_nat (seq 1 (Z.to_nat (epoch a)))).
  clear - HF.
  induction HF as [|e evs l evss (Q1 & Q2 & Q3 & Q4) _ (I1 & I2 & I3 & I4)].
  - repeat split.
  - unfold epochs_of, count, updates_of, forwards_of in *.
    cbn [concat map length Nat.mul].
    rewrite !flat_map_app, filter_app, !length_app.
    rewrite Q1, Q2, Q3, Q4, I1, I2, I3, I4.
    repeat split.
Qed.

End Epochs.

(** X8.  A completed learning loop with a positive batch size performs
    exactly (number of epochs) x ceil(N / batch size) optimizer updates
    and (number of epochs) x ceil(N_test / batch size) forward passes of
    evaluation, a non-positive epoch count counting as zero epochs. *)
Theorem update_count (W : Type) (bk : Backend W) (N : Z) (a : args)
        (ds : dataset) (s s' : state W) :
  0 < batchsize a ->
  0 <= N ->
  0 <= N_test ds ->
  learning_loop bk N a ds s = (Ok tt, s') ->
  exists evs,
    trace s' = trace s ++ evs /\
    Z.of_nat (length (updates_of evs))
      = Z.max 0 (epoch a) * ((N + batchsize a - 1) / batchsize a) /\
    Z.of_nat (length (forwards_of evs))
      = Z.max 0 (epoch a)
        * ((N_test ds + batchsize a - 1) / batchsize a).
Proof.
  intros Hb HN HT H. apply learning_loop_summary in H.
  destruct H as (evs & Ht & _ & _ & Hu & Hf).
  exists evs. split; [assumption|].
  rewrite Hu, Hf, !Nat2Z.inj_mul, !range_len_up by assumption.
  assert (0 <= (N + batchsize a - 1) / batchsize a)
    by (apply Z.div_pos; lia).
  assert (0 <= (N_test ds + batchsize a - 1) / batchsize a)
    by (apply Z.div_pos; lia).
  rewrite (Z2Nat.id ((N + batchsize a - 1) / batchsize a)) by assumption.
  rewrite (Z2Nat.id ((N_test ds + batchsize a - 1) / batchsize a))
    by assumption.
  split; f_equal; lia.
Qed.

(** Two epochs over seven training and two test images in batches of
    three: six updates and two forward passes. *)
Lemma update_count_witness :
  exists evs,
    trace (snd (learning_loop Toy.backend 7 (Toy.cfg 2 3) Toy.ds7 Toy.s0))
      = trace Toy.s0 ++ evs /\
    Z.of_nat (length (updates_of evs)) = Z.max 0 2 * ((7 + 3 - 1) / 3) /\
    Z.of_nat (length (forwards_of evs)) = Z.max 0 2 * ((2 + 3 - 1) / 3).
Proof.
  apply (@update_count _ Toy.backend 7 (Toy.cfg 2 3) Toy.ds7 Toy.s0
           (snd (learning_loop Toy.backend 7 (Toy.cfg 2 3) Toy.ds7 Toy.s0))).
  - simpl. lia.
  - lia.
  - vm_compute. discriminate.
  - vm_compute. reflexivity.
Defined.

(** X9.  A completed learning loop prints the epoch numbers 1, 2, ...,
    [n_epoch], in that order and once each, and draws exactly one
    permutation per epoch. *)
Theorem epoch_numbering (W : Type) (bk : Backend W) (N : Z) (a : args)
        (ds : dataset) (s s' : state W) :
  learning_loop bk N a ds s = (Ok tt, s') ->
  exists evs,
    trace s' = trace s ++ evs /\
    epochs_of evs = map Z.of_nat (seq 1 (Z.to_nat (epoch a))) /\
    count is_permutation evs = Z.to_nat (epoch a).
Proof.
  intros H. apply learning_loop_summary in H.
  destruct H as (evs & Ht & He & Hp & _).
  exists evs. repeat split; assumption.
Qed.

Lemma epoch_numbering_witness :
  exists evs,
    trace (snd (learning_loop Toy.backend 7 (Toy.cfg 2 3) Toy.ds7 Toy.s0))
      = trace Toy.s0 ++ evs /\
    epochs_of evs = [1; 2] /\
    count is_permutation evs = 2%nat.
Proof.
  apply (@epoch_numbering _ Toy.backend 7 (Toy.cfg 2 3) Toy.ds7 Toy.s0
           (snd (learning_loop Toy.backend 7 (Toy.cfg 2 3) Toy.ds7 Toy.s0))).
  vm_compute. reflexivity.
Defined.

(** ** What happens at most once *)

Lemma range_head (lo hi step : Z) (l : list Z) :
  Py.range lo hi step = Ok l ->
  l = [] \/
  exists rest, l = lo :: rest /\ Forall (fun i => (i =? lo) = false) rest.
Proof.
  unfold Py.range. destruct (step =? 0) eqn:E; [discriminate|].
  apply Z.eqb_neq in E. intros [= <-].
  destruct (Z.to_nat (Py.range_len lo hi step)) as [|m]; [now left|].
  right. rewrite <- cons_seq. cbn [map].
  eexists. split.
  - f_equal. cbn [Z.of_nat]. lia.
  - apply Forall_forall. intros i Hi.
    apply in_map_iff in Hi. destruct Hi as (k & <- & Hk).
    apply in_seq in Hk. apply Z.eqb_neq. nia.
Qed.

Section AtMost.

Context {W : Type}.
Variable p : event -> bool.

Lemma at_most_of_emits (A : Type) (m : M W A) :
  emits (fun e => p e = false) m -> at_most p 0 m.
Proof.
  intros H s. destruct (H s) as (evs & Hevs & Hall).
  exists evs. split; [assumption|].
  unfold count. clear - Hall.
  induction Hall as [|e l He _ IH]; simpl; [lia|].
  now rewrite He.
Qed.

Lemma at_most_le (A : Type) (n n' : nat) (m : M W A) :
  (n <= n')%nat -> at_most p n m -> at_most p n' m.
Proof.
  intros Hle H s. destruct (H s) as (evs & Hevs & Hc).
  exists evs. split; [assumption|lia].
Qed.

Lemma at_most_emit (e : event) : at_most p 1 (emit (W:=W) e).
Proof.
  intros s. exists [e]. split; [reflexivity|].
  unfold count. simpl. destruct (p e); simpl; lia.
Qed.

Lemma at_most_bind (A B : Type) (n1 n2 : nat) (m : M W A) (k : A -> M W B) :
  at_most p n1 m -> (forall x, at_most p n2 (k x)) ->
  at_most p (n1 + n2) (bind m k).
Proof.
  intros Hm Hk s. unfold bind.
  destruct (Hm s) as (evs1 & E1 & C1).
  destruct (m s) as [[x|e] s1]; simpl in E1.
  - destruct (Hk x s1) as (evs2 & E2 & C2).
    exists (evs1 ++ evs2). rewrite E2, E1, app_assoc. split; [reflexivity|].
    unfold count in *. rewrite filter_app, length_app. lia.
  - exists evs1. simpl. split; [assumption|lia].
Qed.

Lemma at_most_bind_lift (A B : Type) (n : nat) (r : result A)
      (k : A -> M W B) :
  (forall x, r = Ok x -> at_most p n (k x)) -> at_most p n (bind (lift r) k).
Proof.
  intros Hk s. destruct r as [x|e].
  - rewrite bind_lift_Ok. apply Hk. reflexivity.
  - rewrite bind_lift_Raise. exists []. simpl. rewrite app_nil_r.
    split; [reflexivity|unfold count; simpl; lia].
Qed.

(** A loop whose first iteration logs at most [n] such events and whose
    other iterations log none. *)
Lemma at_most_for_each_head (A : Type) (n : nat) (x : A) (l : list A)
      (body : A -> M W unit) :
  at_most p n (body x) ->
  (forall y, In y l -> emits (fun e => p e = false) (body y)) ->
  at_most p n (for_each (x :: l) body).
Proof.
  intros Hx Hl. cbn [for_each].
  apply at_most_le with (n := (n + 0)%nat); [lia|].
  apply at_most_bind; [assumption|intros _].
  apply at_most_of_emits. now apply emits_for_each.
Qed.

End AtMost.

Section Once.

Variable W : Type.
Variable bk : Backend W.
Variable N : Z.
Variable a : args.

Let no_dump (e : event) : Prop := is_dump e = false.

Lemma train_batch_no_dump (ds : dataset) (epoch : Z) (perm : list Z) (i : Z) :
  (epoch =? 1) && (i =? 0) = false ->
  emits no_dump (train_batch bk a ds epoch perm i).
Proof.
  intros H. unfold train_batch. rewrite H. emits_steps.
Qed.

Lemma train_batch_one_dump (ds : dataset) (epoch : Z) (perm : list Z)
      (i : Z) :
  at_most is_dump 1 (train_batch bk a ds epoch perm i).
Proof.
  unfold train_batch.
  apply (at_most_bind (n1:=0) (n2:=1));
    [apply at_most_of_emits; emits_steps|intros x].
  apply (at_most_bind (n1:=0) (n2:=1));
    [apply at_most_of_emits; emits_steps|intros t].
  apply (at_most_bind (n1:=0) (n2:=1));
    [apply at_most_of_emits; emits_steps|intros _].
  apply (at_most_bind (n1:=0) (n2:=1));
    [apply at_most_of_emits; emits_steps|intros _].
  apply (at_most_bind (n1:=1) (n2:=0));
    [|intros _; apply at_most_of_emits; emits_steps].
  destruct ((epoch =? 1) && (i =? 0)).
  - apply (at_most_bind (n1:=1) (n2:=0)); [apply at_most_emit|intros _].
    apply at_most_of_emits. emits_steps.
  - apply at_most_le with (n := 0%nat); [lia|].
    apply at_most_of_emits. emits_steps.
Qed.

Lemma training_one_dump (ds : dataset) (epoch : Z) :
  at_most is_dump 1 (training bk N a ds epoch).
Proof.
  unfold training.
  do 5 (apply (at_most_bind (n1:=0) (n2:=1));
        [apply at_most_of_emits; emits_steps|intros ?]).
  apply at_most_bind_lift. intros starts Hr.
  apply (at_most_bind (n1:=1) (n2:=0));
    [|intros _; apply at_most_of_emits; emits_steps].
  destruct (range_head _ _ _ Hr) as [->|(rest & -> & Hrest)].
  - apply at_most_le with (n := 0%nat); [lia|].
    apply at_most_of_emits. emits_steps.
  - apply at_most_for_each_head; [apply train_batch_one_dump|].
    intros i Hi. apply train_batch_no_dump.
    rewrite Forall_forall in Hrest. rewrite (Hrest i Hi).
    apply andb_false_r.
Qed.

Lemma training_no_dump (ds : dataset) (epoch : Z) :
  (epoch =? 1) = false -> emits no_dump (training bk N a ds epoch).
Proof.
  intros H. unfold training.
  do 6 (apply emits_bind; [emits_steps|intros ?]).
  apply emits_bind; [|intros ?; emits_steps].
  apply emits_for_each. intros i _. apply train_batch_no_dump.
  now rewrite H.
Qed.

Lemma evaluation_no_dump (ds : dataset) :
  emits no_dump (evaluation bk a ds).
Proof.
  eapply emits_weaken; [|apply evaluation_alphabet].
  intros e He. unfold no_dump.
  destruct e as [[]| | | | | | | | | | | | | | | | ];
    try reflexivity; discriminate.
Qed.

Lemma learning_loop_one_dump (ds : dataset) :
  at_most is_dump 1 (learning_loop bk N a ds).
Proof.
  unfold learning_loop.
  apply at_most_bind_lift. intros epochs Hr.
  destruct (range_head _ _ _ Hr) as [->|(rest & -> & Hrest)].
  - apply at_most_le with (n := 0%nat); [lia|].
    apply at_most_of_emits. emits_steps.
  - apply at_most_for_each_head.
    + unfold one_epoch.
      apply (at_most_bind (n1:=0) (n2:=1));
        [apply at_most_of_emits; emits_steps|intros _].
      apply (at_most_bind (n1:=1) (n2:=0)); [apply training_one_dump|].
      intros _. apply at_most_of_emits, evaluation_no_dump.
    + intros e He. unfold one_epoch.
      apply emits_bind; [emits_steps|intros _].
      apply emits_bind; [|intros _; apply evaluation_no_dump].
      apply training_no_dump.
      rewrite Forall_forall in Hrest. exact (Hrest e He).
Qed.

End Once.

(** *** Where the dump sits *)

Lemma preliminary_events (l : list event) :
  Forall (fun e => preliminary e = true) l ->
  updates_of l = [] /\ Forall (fun e => is_dump e = false) l /\
  epochs_of l = [].
Proof.
  induction 1 as [|e l He _ (IHu & IHd & IHe)]; [repeat split; constructor|].
  unfold updates_of, epochs_of in *. cbn [flat_map].
  rewrite IHu, IHe.
  destruct e as [[]| | | | | | | | | | | | | | | | ];
    try discriminate He; repeat split; try reflexivity;
    constructor; try reflexivity; assumption.
Qed.

(** A list with a single marked element splits around it in one way. *)
Lemma split_at_only (p : event -> bool) (d : event)
      (l1 r1 l2 r2 : list event) :
  p d = true ->
  Forall (fun e => p e = false) l1 ->
  Forall (fun e => p e = false) r1 ->
  l1 ++ d :: r1 = l2 ++ d :: r2 ->
  l2 = l1 /\ r2 = r1.
Proof.
  intros Hd H1 Hr. revert l2.
  induction H1 as [|x l1 Hx _ IH]; intros [|y l2] H; cbn [app] in H.
  - injection H as <-. split; reflexivity.
  - injection H as <- ->.
    apply Forall_app in Hr. destruct Hr as [_ Hr].
    apply Forall_inv in Hr. congruence.
  - injection H as -> _. congruence.
  - injection H as <- H. destruct (IH _ H) as [-> ->]. split; reflexivity.
Qed.

Section DumpsFirst.

Variable W : Type.
Variable bk : Backend W.
Variable N : Z.
Variable a : args.

Let no_dump (e : event) : Prop := is_dump e = false.
Let quiet (e : event) : Prop := preliminary e = true.

Lemma dumps_first_of_emits (A : Type) (E : list Z) (m : M W A) :
  emits no_dump m -> dumps_first E m.
Proof.
  intros H s. destruct (H s) as (evs & Hevs & Hall).
  exists evs. split; [assumption|now left].
Qed.

(** Preliminary events before the computation leave the dump where it
    is. *)
Lemma dumps_first_prefix (A B : Type) (E : list Z) (m : M W A)
      (k : A -> M W B) :
  emits quiet m -> (forall x, dumps_first E (k x)) ->
  dumps_first E (bind m k).
Proof.
  intros Hm Hk s. unfold bind.
  destruct (Hm s) as (evs1 & E1 & F1).
  destruct (preliminary_events F1) as (Hu1 & Hd1 & He1).
  destruct (m s) as [[x|e] s1]; cbn [snd] in E1.
  - destruct (Hk x s1) as (evs2 & E2 & [F2|F2]).
    + exists (evs1 ++ evs2). rewrite E2, E1, app_assoc.
      split; [reflexivity|left]. apply Forall_app. split; assumption.
    + destruct F2 as (A0 & x0 & t0 & B0 & -> & Hu & Hd & He & HB).
      exists (evs1 ++ A0 ++ EvUpdate x0 t0 :: EvDumpGraph :: B0).
      rewrite E2, E1, <- app_assoc. split; [reflexivity|right].
      exists (evs1 ++ A0), x0, t0, B0.
      rewrite app_assoc. split; [reflexivity|].
      unfold updates_of, epochs_of in *. rewrite !flat_map_app.
      rewrite Hu1, Hu, He1, He.
      repeat split; try reflexivity; try assumption.
      apply Forall_app. split; assumption.
  - exists evs1. cbn [snd]. split; [assumption|now left].
Qed.

(** An epoch line before the computation is one more epoch line before
    the dump. *)
Lemma dumps_first_epoch (B : Type) (E : list Z) (e : Z)
      (k : unit -> M W B) :
  dumps_first E (k tt) ->
  dumps_first (e :: E) (bind (emit (EvPrint (MsgEpoch e))) k).
Proof.
  intros Hk s. rewrite bind_emit.
  destruct (Hk (log (EvPrint (MsgEpoch e)) s)) as (evs & Hevs & [F|F]).
  - exists (EvPrint (MsgEpoch e) :: evs). rewrite Hevs.
    cbn [trace log]. rewrite <- app_assoc.
    split; [reflexivity|left]. constructor; [reflexivity|assumption].
  - destruct F as (A0 & x0 & t0 & B0 & -> & Hu & Hd & He & HB).
    exists (EvPrint (MsgEpoch e) :: A0 ++ EvUpdate x0 t0 :: EvDumpGraph :: B0).
    rewrite Hevs. cbn [trace log]. rewrite <- app_assoc.
    split; [reflexivity|right].
    exists (EvPrint (MsgEpoch e) :: A0), x0, t0, B0.
    split; [reflexivity|].
    unfold updates_of, epochs_of in *. cbn [flat_map app].
    rewrite Hu, He.
    repeat split; try reflexivity; try assumption.
    constructor; [reflexivity|assumption].
Qed.

(** Events without a dump after the computation leave the dump where it
    is. *)
Lemma dumps_first_suffix (A B : Type) (E : list Z) (m : M W A)
      (k : A -> M W B) :
  dumps_first E m -> (forall x, emits no_dump (k x)) ->
  dumps_first E (bind m k).
Proof.
  intros Hm Hk s. unfold bind.
  destruct (Hm s) as (evs1 & E1 & F1).
  destruct (m s) as [[x|e] s1]; cbn [snd] in E1.
  - destruct (Hk x s1) as (evs2 & E2 & F2).
    exists (evs1 ++ evs2). rewrite E2, E1, app_assoc.
    split; [reflexivity|].
    destruct F1 as [F1|(A0 & x0 & t0 & B0 & -> & Hu & Hd & He & HB)].
    + left. apply Forall_app. split; assumption.
    + right. exists A0, x0, t0, (B0 ++ evs2).
      rewrite <- app_assoc. cbn [app].
      repeat split; try assumption.
      apply Forall_app. split; assumption.
  - exists evs1. cbn [snd]. split; assumption.
Qed.

Lemma dumps_first_bind_lift (A B : Type) (E : list Z) (r : result A)
      (k : A -> M W B) :
  (forall x, r = Ok x -> dumps_first E (k x)) ->
  dumps_first E (bind (lift r) k).
Proof.
  intros Hk s. destruct r as [x|e].
  - rewrite bind_lift_Ok. apply Hk. reflexivity.
  - rewrite bind_lift_Raise. exists []. cbn [snd]. rewrite app_nil_r.
    split; [reflexivity|left; constructor].
Qed.

(** One training minibatch: when it dumps the graph, the dump directly
    follows its update. *)
Lemma train_batch_dumps_first (ds : dataset) (epoch : Z) (perm : list Z)
      (i : Z) :
  dumps_first [] (train_batch bk a ds epoch perm i).
Proof.
  destruct ((epoch =? 1) && (i =? 0)) eqn:Ec;
    [|apply dumps_first_of_emits; now apply train_batch_no_dump].
  unfold train_batch. rewrite Ec.
  apply dumps_first_bind_lift. intros x _.
  apply dumps_first_bind_lift. intros t _.
  intros s. rewrite bind_emit, bind_call.
  cbn [world log].
  destruct (optimizer_update bk x t (world s)) as [w|e].
  - rewrite !bind_assoc, bind_emit.
    match goal with
    | |- exists evs, trace (snd (?m ?s0)) = _ /\ _ =>
        assert (Hrest : emits no_dump m) by (subst no_dump; emits_steps);
        destruct (Hrest s0) as (evs & Hevs & Hall)
    end.
    exists (EvUpdate x t :: EvDumpGraph :: evs).
    rewrite Hevs. cbn [trace log set_world].
    rewrite <- !app_assoc. cbn [app].
    split; [reflexivity|right].
    exists [], x, t, evs. repeat split; try assumption; constructor.
  - exists [EvUpdate x t]. cbn [snd trace log].
    split; [reflexivity|left]. repeat constructor.
Qed.

Lemma training_dumps_first (ds : dataset) (epoch : Z) :
  dumps_first [] (training bk N a ds epoch).
Proof.
  unfold training.
  do 5 (apply dumps_first_prefix; [subst quiet; emits_steps|intros ?]).
  apply dumps_first_bind_lift. intros starts Hr.
  apply dumps_first_suffix; [|intros _; subst no_dump; emits_steps].
  destruct (range_head _ _ _ Hr) as [->|(rest & -> & Hrest)].
  - apply dumps_first_of_emits. subst no_dump. emits_steps.
  - cbn [for_each].
    apply dumps_first_suffix; [apply train_batch_dumps_first|intros _].
    apply emits_for_each. intros i Hi. apply train_batch_no_dump.
    rewrite Forall_forall in Hrest. rewrite (Hrest i Hi).
    apply andb_false_r.
Qed.

Lemma learning_loop_dumps_first (ds : dataset) :
  dumps_first [1] (learning_loop bk N a ds).
Proof.
  unfold learning_loop.
  apply dumps_first_bind_lift. intros epochs Hr.
  destruct (range_head _ _ _ Hr) as [->|(rest & -> & Hrest)].
  - apply dumps_first_of_emits. subst no_dump. emits_steps.
  - cbn [for_each].
    apply dumps_first_suffix.
    + unfold one_epoch. apply dumps_first_epoch.
      apply dumps_first_suffix; [apply training_dumps_first|].
      intros _. apply evaluation_no_dump.
    + intros _. apply emits_for_each. intros e He. unfold one_epoch.
      apply emits_bind; [subst no_dump; emits_steps|intros _].
      apply emits_bind; [|intros _; apply evaluation_no_dump].
      apply training_no_dump.
      rewrite Forall_forall in Hrest. exact (Hrest e He).
Qed.

Lemma script_dumps_first : dumps_first [1] (script bk N a).
Proof.
  unfold script.
  apply dumps_first_prefix.
  { subst quiet. unfold startup, load_dataset, setup. emits_steps. }
  intros ds.
  apply dumps_first_prefix.
  { subst quiet. unfold init_resume, init_model, resume_optimizer.
    emits_steps. }
  intros _.
  apply dumps_first_suffix; [apply learning_loop_dumps_first|].
  intros _. subst no_dump. unfold save. emits_steps.
Qed.

End DumpsFirst.

(** X10.  The computational graph is dumped at most once per run, however
    the run ends, and only by the first minibatch of the first epoch.  In
    the log of a run, a graph dump directly follows the first update of
    the run, and the only epoch line before it is that of epoch 1; a
    training minibatch other than the one starting at 0 in epoch 1 logs
    no dump, and neither does the evaluation phase. *)
Theorem graph_dumped_at_most_once (W : Type) (bk : Backend W) (N : Z)
        (a : args) (s : state W) :
  exists evs,
    trace (snd (script bk N a s)) = trace s ++ evs /\
    (count is_dump evs <= 1)%nat /\
    (forall pre post,
       evs = pre ++ EvDumpGraph :: post ->
       epochs_of pre = [1] /\
       exists pre' x t,
         pre = pre' ++ [EvUpdate x t] /\ updates_of pre' = []) /\
    (forall ds epoch perm i,
       (epoch =? 1) && (i =? 0) = false ->
       emits (fun e => is_dump e = false)
             (train_batch bk a ds epoch perm i)) /\
    (forall ds, emits (fun e => is_dump e = false) (evaluation bk a ds)).
Proof.
  assert (H : at_most is_dump 1 (script bk N a)).
  { unfold script.
    apply (at_most_bind (n1:=0) (n2:=1)).
    { apply at_most_of_emits. unfold startup, load_dataset, setup.
      emits_steps. }
    intros ds.
    apply (at_most_bind (n1:=0) (n2:=1)).
    { apply at_most_of_emits.
      unfold init_resume, init_model, resume_optimizer. emits_steps. }
    intros _.
    apply (at_most_bind (n1:=1) (n2:=0)); [apply learning_loop_one_dump|].
    intros _. apply at_most_of_emits. unfold save. emits_steps. }
  destruct (H s) as (evs & Hevs & Hc).
  destruct (script_dumps_first bk N a s) as (evs' & Hevs' & Hshape).
  rewrite Hevs in Hevs'. apply app_inv_head in Hevs'. subst evs'.
  exists evs. split; [assumption|]. split; [assumption|].
  split; [|split].
  - intros pre post Heq.
    destruct Hshape as [Hnone|(A0 & x0 & t0 & B0 & HA & Hu & Hd & He & HB)].
    + rewrite Heq in Hnone. apply Forall_app in Hnone.
      destruct Hnone as [_ Hnone]. apply Forall_inv in Hnone.
      discriminate Hnone.
    + rewrite Heq in HA.
      change (A0 ++ EvUpdate x0 t0 :: EvDumpGraph :: B0)
        with (A0 ++ [EvUpdate x0 t0] ++ EvDumpGraph :: B0) in HA.
      rewrite app_assoc in HA. symmetry in HA.
      apply (split_at_only is_dump) in HA;
        [|reflexivity
         |apply Forall_app; split; [assumption|repeat constructor]
         |assumption].
      destruct HA as [-> _]. split.
      * unfold epochs_of in *. rewrite flat_map_app, He. reflexivity.
      * exists A0, x0, t0. split; [reflexivity|assumption].
  - intros ds epoch perm i Hi. now apply train_batch_no_dump.
  - intros ds. apply evaluation_no_dump.
Qed.

(** Two epochs over seven training images in batches of three: the graph
    is dumped once, right after the first update of epoch 1, and the five
    other updates of the run come after it. *)
Lemma graph_dumped_at_most_once_witness :
  exists evs pre post,
    trace (snd (script Toy.backend 7 (Toy.cfg 2 3) Toy.s0))
      = trace Toy.s0 ++ evs /\
    evs = pre ++ EvDumpGraph :: post /\
    count is_dump evs = 1%nat /\
    epochs_of pre = [1] /\
    epochs_of post = [2] /\
    (exists pre' x t, pre = pre' ++ [EvUpdate x t] /\ updates_of pre' = []) /\
    length (updates_of post) = 5%nat.
Proof.
  destruct (@graph_dumped_at_most_once _ Toy.backend 7 (Toy.cfg 2 3) Toy.s0)
    as (evs & Ht & Hc & Hpos & _).
  assert (He : evs = trace (snd (script Toy.backend 7 (Toy.cfg 2 3) Toy.s0)))
    by (rewrite Ht; reflexivity).
  assert (Hsplit : evs = firstn 9 evs ++ EvDumpGraph :: skipn 10 evs)
    by (rewrite He; vm_compute; reflexivity).
  exists evs, (firstn 9 evs), (skipn 10 evs).
  destruct (Hpos _ _ Hsplit) as [Hep Hpre].
  split; [exact Ht|]. split; [exact Hsplit|].
  split; [rewrite He; vm_compute; reflexivity|].
  split; [exact Hep|].
  split; [rewrite He; vm_compute; reflexivity|].
  split; [exact Hpre|].
  rewrite He. vm_compute. reflexivity.
Defined.

(** X11.  The evaluation phase sends at most one picture per epoch to the
    image output, and only ever the first test minibatch under the index
    0 (so every epoch writes the same file, [images/0.png]). *)
Theorem one_picture_per_epoch (W : Type) (bk : Backend W) (a : args)
        (ds : dataset) (s : state W) :
  exists evs,
    trace (snd (evaluation bk a ds s)) = trace s ++ evs /\
    (count is_visualize evs <= 1)%nat /\
    Forall (fun e => match e with
                     | EvVisualize i x =>
                         i = 0 /\ x = Py.slice (x_test ds) 0 (batchsize a)
                     | _ => True
                     end) evs.
Proof.
  assert (Hbody : forall i,
             emits (fun e => match e with
                             | EvVisualize i x =>
                                 i = 0 /\
                                 x = Py.slice (x_test ds) 0 (batchsize a)
                             | _ => True
                             end) (eval_batch bk a ds i)).
  { intros i. unfold eval_batch.
    do 6 (apply emits_bind; [emits_steps|intros ?]).
    change SAVE_IMAGES with true. cbn [andb].
    destruct (i =? 0) eqn:E; [|apply emits_ret].
    apply Z.eqb_eq in E. subst i. emits_steps. }
  assert (Hquiet : forall i, (i =? 0) = false ->
             emits (fun e => is_visualize e = false) (eval_batch bk a ds i)).
  { intros i E. unfold eval_batch.
    change SAVE_IMAGES with true. cbn [andb]. rewrite E. emits_steps. }
  assert (Hone : at_most is_visualize 1 (evaluation bk a ds)).
  { unfold evaluation.
    do 3 (apply (at_most_bind (n1:=0) (n2:=1));
          [apply at_most_of_emits; emits_steps|intros ?]).
    apply at_most_bind_lift. intros starts Hr.
    apply (at_most_bind (n1:=1) (n2:=0));
      [|intros _; apply at_most_of_emits; emits_steps].
    destruct (range_head _ _ _ Hr) as [->|(rest & -> & Hrest)].
    - apply at_most_le with (n := 0%nat); [lia|].
      apply at_most_of_emits. emits_steps.
    - apply at_most_for_each_head.
      + unfold eval_batch.
        do 6 (apply (at_most_bind (n1:=0) (n2:=1));
              [apply at_most_of_emits; emits_steps|intros ?]).
        change SAVE_IMAGES with true. cbn [andb].
        destruct (0 =? 0).
        * apply (at_most_bind (n1:=1) (n2:=0)); [apply at_most_emit|].
          intros _. apply at_most_of_emits. emits_steps.
        * apply at_most_le with (n := 0%nat); [lia|].
          apply at_most_of_emits. emits_steps.
      + intros i Hi. apply Hquiet.
        rewrite Forall_forall in Hrest. exact (Hrest i Hi). }
  assert (Hall : emits (fun e => match e with
                                 | EvVisualize i x =>
                                     i = 0 /\
                                     x = Py.slice (x_test ds) 0 (batchsize a)
                                 | _ => True
                                 end) (evaluation bk a ds)).
  { unfold evaluation.
    do 4 (apply emits_bind; [emits_steps|intros ?]).
    apply emits_bind; [|intros ?; emits_steps].
    apply emits_for_each. intros i _. apply Hbody. }
  destruct (Hone s) as (evs & Hevs & Hc).
  destruct (Hall s) as (evs' & Hevs' & Hf).
  rewrite Hevs in Hevs'. apply app_inv_head in Hevs'. subst evs'.
  exists evs. repeat split; assumption.
Qed.

(** ** Saving, the clock and the device *)

Lemma save_Ok (W : Type) (bk : Backend W) (s s' : state W) :
  save bk s = (Ok tt, s') ->
  trace s' = trace s ++ [EvPrint MsgSaveModel; EvSaveModel "mlp.model";
                         EvPrint MsgSaveOptimizer; EvSaveOptimizer "mlp.state"].
Proof.
  unfold save. intros H.
  do 2 mstep_pure H. mstep_call H w1; [|discriminate].
  do 2 mstep_pure H. msimpl H. unfold call in H. msimpl H.
  destruct (save_npz_optimizer bk "mlp.state" w1) as [w2|]; [|discriminate].
  injection H as <-. cbn [trace log set_world].
  rewrite <- !app_assoc. reflexivity.
Qed.

(** X12.  The model and the optimizer are saved only at the very end.  A
    run whose learning loop raises ends with that exception and has saved
    nothing; a run that completes saves the model and then the optimizer,
    once each, as its last two calls, and nothing before. *)
Theorem saved_only_at_the_end (W : Type) (bk : Backend W) (N : Z)
        (a : args) :
  (forall s ds s1 s2 e s3,
     startup bk N a s = (Ok ds, s1) ->
     init_resume bk a s1 = (Ok tt, s2) ->
     learning_loop bk N a ds s2 = (Raise e, s3) ->
     script bk N a s = (Raise e, s3) /\
     exists evs,
       trace s3 = trace s ++ evs /\
       Forall (fun ev => is_save ev = false) evs) /\
  (forall s s',
     script bk N a s = (Ok tt, s') ->
     exists evs,
       trace s' =
         trace s ++ evs ++
         [EvPrint MsgSaveModel; EvSaveModel "mlp.model";
          EvPrint MsgSaveOptimizer; EvSaveOptimizer "mlp.state"] /\
       Forall (fun ev => is_save ev = false) evs).
Proof.
  split.
  - intros s ds s1 s2 e s3 Hs Hi Hl.
    split.
    + unfold script, bind. now rewrite Hs, Hi, Hl.
    + destruct (startup_quiet bk N a s) as (evs1 & E1 & F1).
      destruct (init_resume_quiet bk a s1) as (evs2 & E2 & F2).
      destruct (learning_loop_quiet bk N a ds s2) as (evs3 & E3 & F3).
      rewrite Hs in E1. rewrite Hi in E2. rewrite Hl in E3.
      cbn [snd] in E1, E2, E3.
      exists (evs1 ++ evs2 ++ evs3). split.
      * rewrite E3, E2, E1, <- !app_assoc. reflexivity.
      * repeat (apply Forall_app; split).
        -- eapply Forall_impl; [|exact F1]. now intros ev (_ & H & _).
        -- eapply Forall_impl; [|exact F2]. now intros ev (_ & H).
        -- eapply Forall_impl; [|exact F3]. now intros ev (_ & H).
  - intros s s' H. unfold script in H.
    apply bind_Ok_inv in H. destruct H as (ds & s1 & Hs & H).
    apply bind_Ok_inv in H. destruct H as ([] & s2 & Hi & H).
    apply bind_Ok_inv in H. destruct H as ([] & s3 & Hl & Hsave).
    destruct (startup_quiet bk N a s) as (evs1 & E1 & F1).
    destruct (init_resume_quiet bk a s1) as (evs2 & E2 & F2).
    destruct (learning_loop_quiet bk N a ds s2) as (evs3 & E3 & F3).
    rewrite Hs in E1. rewrite Hi in E2. rewrite Hl in E3.
    cbn [snd] in E1, E2, E3.
    apply save_Ok in Hsave.
    exists (evs1 ++ evs2 ++ evs3). split.
    + rewrite Hsave, E3, E2, E1, <- !app_assoc. reflexivity.
    + repeat (apply Forall_app; split).
      * eapply Forall_impl; [|exact F1]. now intros ev (_ & H & _).
      * eapply Forall_impl; [|exact F2]. now intros ev (_ & H).
      * eapply Forall_impl; [|exact F3]. now intros ev (_ & H).
Qed.

(** A run that completes, over nine images. *)
Lemma saved_only_at_the_end_witness :
  exists evs,
    trace (snd (script Toy.backend 7 (Toy.cfg 1 3) Toy.s0)) =
      trace Toy.s0 ++ evs ++
      [EvPrint MsgSaveModel; EvSaveModel "mlp.model";
       EvPrint MsgSaveOptimizer; EvSaveOptimizer "mlp.state"] /\
    Forall (fun ev => is_save ev = false) evs.
Proof.
  destruct (saved_only_at_the_end Toy.backend 7 (Toy.cfg 1 3)) as (_ & H).
  apply (H Toy.s0 (snd (script Toy.backend 7 (Toy.cfg 1 3) Toy.s0))).
  vm_compute. reflexivity.
Defined.

(** X13.  A training phase whose clock did not advance loses its report.
    When the minibatch loop has completed and the time read after it
    differs from the time read before it by zero, the training phase stops
    with [ZeroDivisionError] at [N / elapsed_time]: every minibatch has
    been trained on, and neither the training report nor the evaluation
    follows. *)
Theorem zero_elapsed_time (W : Type) (bk : Backend W) (N : Z) (a : args)
        (ds : dataset) (epoch : Z) (s s1 : state W) (starts : list Z) :
  Py.range 0 N (batchsize a) = Ok starts ->
  for_each starts
    (train_batch bk a ds epoch (fst (random_permutation bk N (world s))))
    (training_entry bk N s) = (Ok tt, s1) ->
  F64.is_zero (F64.sub (fst (time_time bk (world s1)))
                       (training_start_time bk N s)) = true ->
  training bk N a ds epoch s =
  (Raise ZeroDivisionError,
   set_world (snd (time_time bk (world s1))) (log EvTime s1)).
Proof.
  intros Hr Hloop Hz. unfold training.
  rewrite bind_emit. cbv beta. rewrite bind_call_val. cbn [world log].
  unfold training_entry, training_start_time in *.
  destruct (random_permutation bk N (world s)) as [perm w0].
  cbn [fst snd] in *.
  rewrite bind_assign_sum_mean_squared_error. cbv beta.
  rewrite bind_assign_sum_loss. cbv beta.
  rewrite bind_clock. cbv beta.
  cbn [world log set_world set_sum_loss set_sum_mean_squared_error] in *.
  rewrite Hr, bind_lift_Ok.
  unfold bind at 1. rewrite Hloop.
  rewrite bind_clock. cbv beta.
  unfold py_div. cbn [py_sub to_float py_is_zero]. rewrite Hz.
  reflexivity.
Qed.

(** One epoch with a clock that stands still. *)
Lemma zero_elapsed_time_witness :
  training toy_frozen 7 (Toy.cfg 1 3) Toy.ds7 1 Toy.s0 =
  (Raise ZeroDivisionError,
   set_world
     (snd (time_time toy_frozen
             (world (snd (for_each [0; 3; 6]
                            (train_batch toy_frozen (Toy.cfg 1 3) Toy.ds7 1
                               (fst (random_permutation toy_frozen 7
                                       (world Toy.s0))))
                            (training_entry toy_frozen 7 Toy.s0))))))
     (log EvTime
        (snd (for_each [0; 3; 6]
                (train_batch toy_frozen (Toy.cfg 1 3) Toy.ds7 1
                   (fst (random_permutation toy_frozen 7 (world Toy.s0))))
                (training_entry toy_frozen 7 Toy.s0))))).
Proof.
  apply (@zero_elapsed_time _ toy_frozen 7 (Toy.cfg 1 3) Toy.ds7 1 Toy.s0
           (snd (for_each [0; 3; 6]
                   (train_batch toy_frozen (Toy.cfg 1 3) Toy.ds7 1
                      (fst (random_permutation toy_frozen 7 (world Toy.s0))))
                   (training_entry toy_frozen 7 Toy.s0)))
           [0; 3; 6]).
  - reflexivity.
  - vm_compute. reflexivity.
  - vm_compute. reflexivity.
Defined.

Section Device.

Variable W : Type.
Variable bk : Backend W.
Variable N : Z.
Variable a : args.

Lemma learning_loop_alphabet (ds : dataset) :
  emits (fun e => loop_event e = true) (learning_loop bk N a ds).
Proof.
  unfold learning_loop.
  apply emits_bind; [apply emits_lift|intros epochs].
  apply emits_for_each. intros epoch _. unfold one_epoch.
  apply emits_bind; [emits_steps|intros _].
  apply emits_bind.
  - intros s. destruct (training_alphabet bk N a ds epoch s)
      as (evs & Hevs & Hall).
    exists (EvPermutation N :: evs). split; [assumption|].
    constructor; [reflexivity|].
    eapply Forall_impl; [|exact Hall].
    intros e He. unfold loop_event. rewrite He.
    now rewrite orb_true_r.
  - intros _. eapply emits_weaken; [|apply evaluation_alphabet].
    intros e He. unfold loop_event. rewrite He. apply orb_true_r.
Qed.

Lemma script_without_device :
  gpu a < 0 -> emits (fun e => is_gpu e = false) (script bk N a).
Proof.
  intros Hg. unfold script.
  apply emits_bind.
  { unfold startup, load_dataset, setup.
    destruct (0 <=? gpu a) eqn:E; [apply Z.leb_le in E; lia|].
    emits_steps. }
  intros ds. apply emits_bind.
  { unfold init_resume, init_model, resume_optimizer. emits_steps. }
  intros _. apply emits_bind.
  { eapply emits_weaken; [|apply learning_loop_alphabet].
    intros e He.
    destruct e as [[]| | | | | | | | | | | | | | | | ];
      try reflexivity; discriminate. }
  intros _. unfold save. emits_steps.
Qed.

Lemma script_device_failure (s s1 : state W) (ds : dataset) (w1 : W)
      (e : exn) :
  0 <= gpu a ->
  load_dataset bk N
    (log (EvPrint (MsgConfig (gpu a) (batchsize a) (epoch a) (net a))) s)
    = (Ok ds, s1) ->
  construct_model bk (match net a with normal => false | bn => true end)
                  (world s1) = Ok w1 ->
  to_gpu bk (gpu a) w1 = Raise e ->
  script bk N a s =
  (Raise e,
   log (EvToGpu (gpu a))
     (set_world w1
        (log (EvConstructModel
                (match net a with normal => false | bn => true end)) s1))).
Proof.
  intros Hg Hl Hc Hd. unfold script, startup.
  rewrite !bind_assoc, bind_emit. cbv beta.
  rewrite !bind_assoc. unfold bind at 1. rewrite Hl. cbv beta iota.
  unfold setup. rewrite !bind_assoc, bind_emit. cbv beta.
  rewrite !bind_assoc, bind_call. cbn [world log]. rewrite Hc.
  cbv beta iota.
  destruct (0 <=? gpu a) eqn:E; [|apply Z.leb_gt in E; lia].
  cbv beta iota.
  rewrite !bind_assoc, bind_emit. cbv beta.
  rewrite bind_call. cbn [world log set_world].
  now rewrite Hd.
Qed.

End Device.

(** X14.  The device is selected before anything is loaded or trained.
    With a negative GPU id the run never touches a device.  With a
    non-negative id, once the dataset is loaded and the model built, a
    device that cannot be used ends the run with the exception it raised:
    the optimizer is not set up, no checkpoint is loaded, no minibatch is
    trained on and nothing is saved. *)
Theorem device_selection (W : Type) (bk : Backend W) (N : Z) (a : args) :
  (gpu a < 0 -> emits (fun e => is_gpu e = false) (script bk N a)) /\
  (0 <= gpu a ->
   forall s s1 ds w1 e,
     load_dataset bk N
       (log (EvPrint (MsgConfig (gpu a) (batchsize a) (epoch a) (net a))) s)
       = (Ok ds, s1) ->
     construct_model bk (match net a with normal => false | bn => true end)
                     (world s1) = Ok w1 ->
     to_gpu bk (gpu a) w1 = Raise e ->
     exists s' evs,
       script bk N a s = (Raise e, s') /\
       trace s' = trace s ++ evs /\
       last evs EvTime = EvToGpu (gpu a) /\
       Forall (fun ev => is_update ev = false /\ is_load ev = false /\
                         is_save ev = false /\
                         ev <> EvSetupOptimizer) evs).
Proof.
  split; [apply script_without_device|].
  intros Hg s s1 ds w1 e Hl Hc Hd.
  eexists. 
  assert (Hq : emits (fun ev => is_update ev = false /\ is_load ev = false /\
                                is_save ev = false /\
                                ev <> EvSetupOptimizer)
                     (load_dataset bk N)).
  { unfold load_dataset.
    repeat first [ apply emits_bind; [|intros ?]
                 | apply emits_emit; repeat split; discriminate
                 | apply emits_call_val | apply emits_ret ]. }
  destruct (Hq (log (EvPrint (MsgConfig (gpu a) (batchsize a) (epoch a)
                                (net a))) s)) as (evs & Hevs & Hall).
  rewrite Hl in Hevs. cbn [snd trace log] in Hevs.
  exists ([EvPrint (MsgConfig (gpu a) (batchsize a) (epoch a) (net a))]
          ++ evs
          ++ [EvConstructModel
                (match net a with normal => false | bn => true end);
              EvToGpu (gpu a)]).
  split; [|split; [|split]].
  - eapply script_device_failure; eassumption.
  - cbn [trace log set_world]. rewrite Hevs, <- !app_assoc. reflexivity.
  - rewrite !app_assoc. apply last_two.
  - apply Forall_app. split; [repeat constructor; discriminate|].
    apply Forall_app. split; [exact Hall|].
    repeat constructor; discriminate.
Qed.

(** A run asked to use device 3, which the small backend does not have. *)
Lemma device_selection_witness :
  exists s' evs,
    script Toy.backend 7 (toy_cfg_gpu 3 1 3) Toy.s0
      = (Raise (BackendError 1), s') /\
    trace s' = trace Toy.s0 ++ evs /\
    last evs EvTime = EvToGpu 3.
Proof.
  destruct (device_selection Toy.backend 7 (toy_cfg_gpu 3 1 3)) as (_ & H).
  destruct (H ltac:(simpl; lia) Toy.s0
              (snd (load_dataset Toy.backend 7
                      (log (EvPrint (MsgConfig 3 3 1 normal)) Toy.s0)))
              Toy.ds7
              (Toy.with_model 0 (F64.of_Z 0) (F64.of_Z 0) (Toy.start 9 []))
              (BackendError 1))
    as (s' & evs & Hr & Ht & Hl & _).
  - vm_compute. reflexivity.
  - reflexivity.
  - reflexivity.
  - exists s', evs. repeat split; assumption.
Defined.

(** ** When the phases complete *)

Section Returns.

Context {W : Type}.

Lemma returns_ret (A : Type) (x : A) : returns (ret (W:=W) x).
Proof. intros s. now exists x, s. Qed.

Lemma returns_get : returns (get (W:=W)).
Proof. intros s. now exists s, s. Qed.

Lemma returns_emit (e : event) : returns (emit (W:=W) e).
Proof. intros s. now exists tt, (log e s). Qed.

Lemma returns_assign_sum_loss v : returns (assign_sum_loss (W:=W) v).
Proof. intros s. eexists _, _. reflexivity. Qed.

Lemma returns_assign_sum_mean_squared_error v :
  returns (assign_sum_mean_squared_error (W:=W) v).
Proof. intros s. eexists _, _. reflexivity. Qed.

Lemma returns_call (f : W -> result W) :
  (forall w, exists w', f w = Ok w') -> returns (call f).
Proof.
  intros Hf s. unfold call. destruct (Hf (world s)) as (w' & ->).
  eexists _, _. reflexivity.
Qed.

Lemma returns_call_val (A : Type) (f : W -> result (A * W)) :
  (forall w, exists x w', f w = Ok (x, w')) -> returns (call_val f).
Proof.
  intros Hf s. unfold call_val. destruct (Hf (world s)) as (x & w' & ->).
  eexists _, _. reflexivity.
Qed.

Lemma returns_bind (A B : Type) (m : M W A) (k : A -> M W B) :
  returns m -> (forall x, returns (k x)) -> returns (bind m k).
Proof.
  intros Hm Hk s. unfold bind.
  destruct (Hm s) as (x & s1 & ->). apply Hk.
Qed.

Lemma returns_for_each (A : Type) (l : list A) (body : A -> M W unit) :
  (forall x, In x l -> returns (body x)) -> returns (for_each l body).
Proof.
  induction l as [|x l IH]; intros H; simpl.
  - apply returns_ret.
  - apply returns_bind; [apply H; now left|intros _].
    apply IH. intros y Hy. apply H. now right.
Qed.

Lemma returns_if (A : Type) (c : bool) (m1 m2 : M W A) :
  returns m1 -> returns m2 -> returns (if c then m1 else m2).
Proof. destruct c; auto. Qed.

End Returns.

Ltac returns_steps :=
  repeat first
    [ apply returns_bind; [|intros ?]
    | apply returns_if
    | apply returns_emit | apply returns_ret | apply returns_get
    | apply returns_assign_sum_loss
    | apply returns_assign_sum_mean_squared_error ].

Lemma take_returns (A : Type) (l : list A) (idx : list Z) :
  Forall (fun k => 0 <= k < Py.len l) idx ->
  exists rs, Py.take l idx = Ok rs.
Proof.
  induction 1 as [|k idx Hk _ (rs & IH)]; simpl.
  - now exists [].
  - unfold Py.item, Py.len in *.
    destruct (k <? - Z.of_nat (length l)) eqn:E1;
      [apply Z.ltb_lt in E1; lia|].
    destruct (Z.of_nat (length l) <=? k) eqn:E2;
      [apply Z.leb_le in E2; lia|].
    destruct (k <? 0) eqn:E3; [apply Z.ltb_lt in E3; lia|].
    cbn [orb].
    destruct (nth_error l (Z.to_nat k)) as [x|] eqn:En.
    + rewrite IH. now exists (x :: rs).
    + apply nth_error_None in En. lia.
Qed.

Lemma Forall_firstn_keep (A : Type) (P : A -> Prop) (n : nat) (l : list A) :
  Forall P l -> Forall P (firstn n l).
Proof.
  intros H. revert n. induction H as [|x l Hx _ IH]; intros [|n]; simpl;
    constructor; auto.
Qed.

Lemma Forall_skipn_keep (A : Type) (P : A -> Prop) (n : nat) (l : list A) :
  Forall P l -> Forall P (skipn n l).
Proof.
  intros H. revert n. induction H as [|x l Hx H IH]; intros [|n]; simpl;
    try constructor; auto.
Qed.

Lemma slice_Forall (A : Type) (P : A -> Prop) (l : list A) (i j : Z) :
  Forall P l -> Forall P (Py.slice l i j).
Proof.
  intros H. unfold Py.slice.
  now apply Forall_firstn_keep, Forall_skipn_keep.
Qed.

Lemma range_returns (lo hi step : Z) :
  step <> 0 -> exists l, Py.range lo hi step = Ok l.
Proof.
  intros H. unfold Py.range.
  destruct (step =? 0) eqn:E; [apply Z.eqb_eq in E; contradiction|].
  eexists. reflexivity.
Qed.

Lemma py_div_returns (x : pynum) (n : Z) :
  n <> 0 -> exists q, py_div x (PyInt n) = Ok q.
Proof.
  intros H. unfold py_div. cbn [py_is_zero].
  destruct (n =? 0) eqn:E; [apply Z.eqb_eq in E; contradiction|].
  eexists. reflexivity.
Qed.

Section Progress.

Variable W : Type.
Variable bk : Backend W.
Variable N : Z.
Variable a : args.
Variable ds : dataset.

(** After a completed minibatch loop the training phase ends in one of
    two ways, by the elapsed time. *)
Lemma training_after_loop (epoch : Z) (s s1 : state W) (starts : list Z) :
  N <> 0 ->
  Py.range 0 N (batchsize a) = Ok starts ->
  for_each starts
    (train_batch bk a ds epoch (fst (random_permutation bk N (world s))))
    (training_entry bk N s) = (Ok tt, s1) ->
  F64.is_zero (F64.sub (fst (time_time bk (world s1)))
                       (training_start_time bk N s)) = false ->
  exists L Mse thr,
    training bk N a ds epoch s =
    (Ok tt,
     log (EvPrint (MsgTrain L Mse thr))
         (set_world (snd (time_time bk (world s1))) (log EvTime s1))).
Proof.
  intros HN Hr Hloop Hz. unfold training.
  rewrite bind_emit. cbv beta. rewrite bind_call_val. cbn [world log].
  unfold training_entry, training_start_time in *.
  destruct (random_permutation bk N (world s)) as [perm w0].
  cbn [fst snd] in *.
  rewrite bind_assign_sum_mean_squared_error. cbv beta.
  rewrite bind_assign_sum_loss. cbv beta.
  rewrite bind_clock. cbv beta.
  cbn [world log set_world set_sum_loss set_sum_mean_squared_error] in *.
  rewrite Hr, bind_lift_Ok.
  unfold bind at 1. rewrite Hloop.
  rewrite bind_clock. cbv beta.
  unfold py_div at 1. cbn [py_sub to_float py_is_zero]. rewrite Hz.
  rewrite bind_lift_Ok, bind_get.
  cbn [sum_loss sum_mean_squared_error set_world log].
  destruct (py_div_returns (sum_loss s1) HN) as (L & ->).
  destruct (py_div_returns (sum_mean_squared_error s1) HN) as (Mse & ->).
  rewrite !bind_lift_Ok.
  eexists _, _, _. reflexivity.
Qed.

End Progress.

(** X15.  On a full training set the training phase can only fail by the
    clock.  With a positive batch size, a permutation of the [N > 0]
    indices, at least [N] training rows and labels, and an optimizer and a
    graph dump that do not raise, the minibatch loop always completes;
    the phase then prints its report and completes, unless the two clock
    readings differ by zero, in which case it stops with
    [ZeroDivisionError]. *)
Theorem training_outcomes (W : Type) (bk : Backend W) (N : Z) (a : args)
        (ds : dataset) (epoch : Z) (s : state W) :
  (forall x t w, exists w', optimizer_update bk x t w = Ok w') ->
  (forall w, exists w', dump_graph bk w = Ok w') ->
  0 < batchsize a ->
  0 < N ->
  Permutation (fst (random_permutation bk N (world s))) (Py.arange N) ->
  N <= Py.len (x_train ds) ->
  N <= Py.len (y_train ds) ->
  exists starts s1,
    Py.range 0 N (batchsize a) = Ok starts /\
    for_each starts
      (train_batch bk a ds epoch (fst (random_permutation bk N (world s))))
      (training_entry bk N s) = (Ok tt, s1) /\
    ((F64.is_zero (F64.sub (fst (time_time bk (world s1)))
                           (training_start_time bk N s)) = false /\
      exists L Mse thr,
        training bk N a ds epoch s =
        (Ok tt,
         log (EvPrint (MsgTrain L Mse thr))
             (set_world (snd (time_time bk (world s1))) (log EvTime s1))))
     \/
     (F64.is_zero (F64.sub (fst (time_time bk (world s1)))
                           (training_start_time bk N s)) = true /\
      training bk N a ds epoch s =
      (Raise ZeroDivisionError,
       set_world (snd (time_time bk (world s1))) (log EvTime s1)))).
Proof.
  intros Hup Hdump Hb HN Hperm Hx Hy.
  set (perm := fst (random_permutation bk N (world s))) in *.
  destruct (range_returns 0 N (step:=batchsize a) ltac:(lia)) as (starts & Hr).
  assert (Hin : Forall (fun k => 0 <= k < N) perm).
  { apply Forall_forall. intros k Hk.
    apply (Permutation_in _ Hperm) in Hk. unfold Py.arange in Hk.
    apply in_map_iff in Hk. destruct Hk as (n & <- & Hn).
    apply in_seq in Hn. lia. }
  assert (Hloop : returns (for_each starts (train_batch bk a ds epoch perm))).
  { apply returns_for_each. intros i _ s0.
    destruct (take_returns (x_train ds)
                (idx := Py.slice perm i (i + batchsize a))) as (x & Ex).
    { apply slice_Forall. eapply Forall_impl; [|exact Hin].
      intros k Hk. cbv beta in *. lia. }
    destruct (take_returns (y_train ds)
                (idx := Py.slice perm i (i + batchsize a))) as (t & Et).
    { apply slice_Forall. eapply Forall_impl; [|exact Hin].
      intros k Hk. cbv beta in *. lia. }
    destruct (train_batch_runs bk a ds Hup Hdump epoch perm i s0 Ex Et)
      as (s1 & E).
    now exists tt, s1. }
  destruct (Hloop (training_entry bk N s)) as ([] & s1 & Hs1).
  exists starts, s1. split; [assumption|split; [assumption|]].
  destruct (F64.is_zero (F64.sub (fst (time_time bk (world s1)))
                                 (training_start_time bk N s))) eqn:Hz.
  - right. split; [reflexivity|].
    unfold training.
    rewrite bind_emit. cbv beta. rewrite bind_call_val. cbn [world log].
    unfold training_entry, training_start_time in *. subst perm.
    destruct (random_permutation bk N (world s)) as [perm w0].
    cbn [fst snd] in *.
    rewrite bind_assign_sum_mean_squared_error. cbv beta.
    rewrite bind_assign_sum_loss. cbv beta.
    rewrite bind_clock. cbv beta.
    cbn [world log set_world set_sum_loss set_sum_mean_squared_error] in *.
    rewrite Hr, bind_lift_Ok.
    unfold bind at 1. rewrite Hs1.
    rewrite bind_clock. cbv beta.
    unfold py_div. cbn [py_sub to_float py_is_zero]. rewrite Hz.
    reflexivity.
  - left. split; [reflexivity|].
    apply training_after_loop with (starts := starts);
      [lia|assumption|assumption|assumption].
Qed.

(** One epoch on the small backend, whose clock ticks. *)
Lemma training_outcomes_witness :
  exists starts s1,
    Py.range 0 7 3 = Ok starts /\
    for_each starts
      (train_batch Toy.backend (Toy.cfg 1 3) Toy.ds7 1
         (fst (random_permutation Toy.backend 7 (world Toy.s0))))
      (training_entry Toy.backend 7 Toy.s0) = (Ok tt, s1) /\
    ((F64.is_zero (F64.sub (fst (time_time Toy.backend (world s1)))
                           (training_start_time Toy.backend 7 Toy.s0))
      = false /\
      exists L Mse thr,
        training Toy.backend 7 (Toy.cfg 1 3) Toy.ds7 1 Toy.s0 =
        (Ok tt,
         log (EvPrint (MsgTrain L Mse thr))
             (set_world (snd (time_time Toy.backend (world s1)))
                        (log EvTime s1))))
     \/
     (F64.is_zero (F64.sub (fst (time_time Toy.backend (world s1)))
                           (training_start_time Toy.backend 7 Toy.s0))
      = true /\
      training Toy.backend 7 (Toy.cfg 1 3) Toy.ds7 1 Toy.s0 =
      (Raise ZeroDivisionError,
       set_world (snd (time_time Toy.backend (world s1)))
                 (log EvTime s1)))).
Proof.
  apply (@training_outcomes _ Toy.backend 7 (Toy.cfg 1 3) Toy.ds7 1 Toy.s0).
  - intros x t w. eexists. reflexivity.
  - intros w. eexists. reflexivity.
  - simpl. lia.
  - lia.
  - vm_compute. apply Permutation_refl.
  - vm_compute. discriminate.
  - vm_compute. discriminate.
Defined.

(** X16.  On a non-empty test set the evaluation phase always completes.
    With a batch size other than zero, [N_test] other than zero and a
    forward pass, a plot set-up and an image output that do not raise, the
    evaluation phase ends normally with its report as the last line: the
    slices of the test set never raise, whatever the lengths of the test
    rows and labels. *)
Theorem evaluation_completes (W : Type) (bk : Backend W) (a : args)
        (ds : dataset) (s : state W) :
  (forall v x t w, exists l w', model_call bk v x t w = Ok (l, w')) ->
  (forall w, exists w', plot_setup bk w = Ok w') ->
  (forall i x w, exists w', visualize bk i x w = Ok w') ->
  batchsize a <> 0 ->
  N_test ds <> 0 ->
  exists s' L Mse,
    evaluation bk a ds s = (Ok tt, s') /\
    last (trace s') EvTime = EvPrint (MsgTest L Mse).
Proof.
  intros Hcall Hplot Hvis Hb HN.
  destruct (range_returns 0 (N_test ds) Hb) as (starts & Hr).
  assert (Hloop : returns (for_each starts (eval_batch bk a ds))).
  { apply returns_for_each. intros i _. unfold eval_batch.
    apply returns_bind; [apply returns_emit|intros _].
    apply returns_bind; [apply returns_call_val; intros w; apply Hcall|].
    intros l. do 4 (apply returns_bind; [returns_steps|intros ?]).
    apply returns_if; [|apply returns_ret].
    apply returns_bind; [apply returns_emit|intros _].
    apply returns_call. intros w. apply Hvis. }
  unfold evaluation.
  rewrite bind_assign_sum_mean_squared_error. cbv beta.
  rewrite bind_assign_sum_loss. cbv beta.
  change SAVE_IMAGES with true. cbv beta iota.
  rewrite bind_assoc, bind_emit. cbv beta. rewrite bind_call.
  cbn [world log set_sum_loss set_sum_mean_squared_error].
  destruct (Hplot (world s)) as (w & ->).
  rewrite Hr, bind_lift_Ok.
  match goal with
  | |- context [bind (for_each _ _) _ ?s0] =>
      destruct (Hloop s0) as ([] & s1 & Hs1)
  end.
  unfold bind at 1. rewrite Hs1. rewrite bind_get.
  destruct (py_div_returns (sum_loss s1) HN) as (L & ->).
  destruct (py_div_returns (sum_mean_squared_error s1) HN) as (Mse & ->).
  rewrite !bind_lift_Ok.
  eexists _, L, Mse. split; [reflexivity|].
  cbn [trace log]. apply last_last.
Qed.

Lemma evaluation_completes_witness :
  exists s' L Mse,
    evaluation Toy.backend (Toy.cfg 1 3) Toy.ds7 Toy.s0 = (Ok tt, s') /\
    last (trace s') EvTime = EvPrint (MsgTest L Mse).
Proof.
  apply (@evaluation_completes _ Toy.backend (Toy.cfg 1 3) Toy.ds7 Toy.s0).
  - intros v x t w. eexists _, _. reflexivity.
  - intros w. eexists. reflexivity.
  - intros i x w. eexists. reflexivity.
  - simpl. discriminate.
  - vm_compute. discriminate.
Defined.
